(** * Screen Time Tracker: session tracker, aggregator and reporter

    A shallow embedding of [Screen-Time-Tracker/background.js] (the service
    worker that times the active tab and folds closed sessions into
    [chrome.storage.local]) and of [processData] in
    [Screen-Time-Tracker/popup.js] (the dashboard's aggregation).

    Conventions of the embedding.
    - JavaScript numbers that hold epoch milliseconds, seconds and counters
      are integers far below 2^53, where double arithmetic is exact: they
      are values of [Z].  The one place where the code leaves the integers,
      the visit estimate of [processData], is computed on binary64 floats.
    - A JavaScript object used as a dictionary is an insertion-ordered
      association list ([obj]): [for ... in] and [Object.entries] enumerate
      own string keys in insertion order, and that order is observable in
      the reporter (stable sort, top-10 cut).  Integer-like keys, which
      JavaScript enumerates first, are outside the model.
    - A lookup [o[k]] on a plain object also finds the members that the
      object inherits from [Object.prototype] ([obj_lookup]).  The flush
      meets them when the host name of a tab is the name of such a member:
      it then finds no record to update and ends in a [TypeError].  What
      it has assigned to the inherited member by then is not part of the
      world; the statements about recorded sessions are for the names that
      no lookup finds inherited ([plain_key]).  A document that holds the
      name of a member as an own key is outside the model; the worker
      writes none.
    - The four [let] globals of the worker and the persisted document are
      threaded explicitly ([World]).  One handler run is one step and reads
      the clock once ([now]).  [saveCurrentSession] is also given in the two
      parts that its first [await] separates, since the second part reads
      [currentDomain] again; the listeners are given as runs that no other
      listener interrupts.
    - [chrome.storage.local.get] returns copies, so the in-place updates of
      the source are functional updates followed by the [set] that the
      source performs. *)

From Stdlib Require Import ZArith NArith String Ascii List Lia Bool.
From Stdlib Require Import DecimalString.
From Stdlib Require Import Sorted Permutation.
From Stdlib Require PrimFloat SpecFloat FloatOps Uint63.
Import ListNotations.
Open Scope string_scope.
Open Scope Z_scope.

(** ** JavaScript values *)

(** [!x] is [false] exactly on a non-empty string. *)
Definition truthy_string (s : option string) : bool :=
  match s with
  | Some s => negb (s =? "")%string
  | None => false
  end.

(** [!x] is [false] exactly on a number other than [0]. *)
Definition truthy_number (n : option Z) : bool :=
  match n with
  | Some n => negb (n =? 0)%Z
  | None => false
  end.

(** [x || d] on a value that is an object when present. *)
Definition or_else {A : Type} (x : option A) (d : A) : A :=
  match x with
  | Some a => a
  | None => d
  end.

(** [x || d] on a number. *)
Definition number_or (x : option Z) (d : Z) : Z :=
  if truthy_number x then or_else x d else d.

(** ** Objects as insertion-ordered dictionaries *)

Section Objects.
Context {V : Type}.

Definition obj := list (string * V).

(** [o[k]]; [None] is [undefined]. *)
Fixpoint obj_get (k : string) (o : obj) : option V :=
  match o with
  | [] => None
  | (k', v) :: o' => if (k =? k')%string then Some v else obj_get k o'
  end.

(** [o[k] = v]: an existing key keeps its place, a new key goes last. *)
Fixpoint obj_set (k : string) (v : V) (o : obj) : obj :=
  match o with
  | [] => [(k, v)]
  | (k', v') :: o' =>
      if (k =? k')%string then (k, v) :: o' else (k', v') :: obj_set k v o'
  end.

Definition obj_keys (o : obj) : list string := map fst o.
End Objects.

Arguments obj V : clear implicits.

(** Sum of the values of a numeric dictionary. *)
Definition obj_sum (o : obj Z) : Z :=
  fold_right (fun kv acc => snd kv + acc)%Z 0%Z o.

(** ** Members inherited from [Object.prototype]

    The property names that a plain object answers to without having them:
    the members of [Object.prototype].  Each of them is a function, except
    [__proto__], an accessor that gives [Object.prototype] itself; all of
    them are truthy, and none has a property [dailyBreakdown]. *)
Definition prototype_members : list string :=
  ["constructor"; "__proto__"; "hasOwnProperty"; "isPrototypeOf";
   "propertyIsEnumerable"; "toLocaleString"; "toString"; "valueOf";
   "__defineGetter__"; "__defineSetter__"; "__lookupGetter__";
   "__lookupSetter__"].

Definition proto_member (k : string) : bool :=
  existsb (String.eqb k) prototype_members.

(** What [o[k]] finds. *)
Inductive Property (V : Type) : Type :=
| Own (v : V)
| Inherited
| Undefined.

Arguments Own {V} v.
Arguments Inherited {V}.
Arguments Undefined {V}.

(** [o[k]] on a plain object: the own property, else the inherited member,
    else [undefined]. *)
Definition obj_lookup {V : Type} (k : string) (o : obj V) : Property V :=
  match obj_get k o with
  | Some v => Own v
  | None => if proto_member k then Inherited else Undefined
  end.

(** A name under which no lookup finds anything inherited.  The flush of
    the host [__proto__] assigns [totalTime], [visits] and [lastVisit] of
    [Object.prototype] before it throws, and what it leaves there is
    truthy under the name [lastVisit] only; that name is left out as
    well. *)
Definition plain_key (k : string) : bool :=
  negb (proto_member k) && negb (k =? "lastVisit")%string.

(** ** Date keys

    [getDateKey(timestamp)] is [new Date(timestamp).toISOString().split("T")[0]]:
    the UTC calendar date of an epoch-millisecond time value.  The calendar
    conversion is the usual days-to-civil computation on the proleptic
    Gregorian calendar. *)

Definition msPerDay : Z := 86400000.

Definition civil_from_days (days : Z) : Z * Z * Z :=
  let z := days + 719468 in
  let era := z / 146097 in
  let doe := z - era * 146097 in
  let yoe := (doe - doe / 1460 + doe / 36524 - doe / 146096) / 365 in
  let y := yoe + era * 400 in
  let doy := doe - (365 * yoe + yoe / 4 - yoe / 100) in
  let mp := (5 * doy + 2) / 153 in
  let d := doy - (153 * mp + 2) / 5 + 1 in
  let m := if mp <? 10 then mp + 3 else mp - 9 in
  (if m <=? 2 then y + 1 else y, m, d).

Definition digit (n : Z) : ascii :=
  ascii_of_nat (48 + Z.to_nat (n mod 10)).

(** [width] decimal digits of [n], zero padded. *)
Fixpoint pad_digits (width : nat) (n : Z) : string :=
  match width with
  | O => EmptyString
  | S w => (pad_digits w (n / 10) ++ String (digit n) EmptyString)%string
  end.

(** Years 0000 to 9999 print with four digits, the others with a sign and
    six digits, as [toISOString] does. *)
Definition iso_year (y : Z) : string :=
  if (0 <=? y) && (y <=? 9999) then pad_digits 4 y
  else if y <? 0 then ("-" ++ pad_digits 6 (- y))%string
  else ("+" ++ pad_digits 6 y)%string.

Definition getDateKey (timestamp : Z) : string :=
  let '(y, m, d) := civil_from_days (timestamp / msPerDay) in
  (iso_year y ++ "-" ++ pad_digits 2 m ++ "-" ++ pad_digits 2 d)%string.

(** ** The persisted document *)

Module DomainStat.
Record t := Build {
  totalTime : Z;
  visits : Z;
  lastVisit : Z;
  dailyBreakdown : obj Z
}.
End DomainStat.

Module DayStat.
Record t := Build {
  totalTime : Z;
  domains : obj Z
}.
End DayStat.

(** [chrome.storage.local]: each of the three keys may be missing. *)
Record Storage := mkStorage {
  activityData : option (obj DomainStat.t);
  dailyData : option (obj DayStat.t);
  lastCleanup : option Z
}.

Definition empty_storage : Storage := mkStorage None None None.

(** ** The worker's globals *)

Record Globals := mkGlobals {
  currentTabId : option Z;
  currentDomain : option string;
  sessionStartTime : option Z;
  isWindowFocused : bool
}.

(** The values of the four [let] declarations at load time. *)
Definition initial_globals : Globals := mkGlobals None None None true.

Record World := mkWorld {
  globals : Globals;
  storage : Storage
}.

Definition initial_world : World := mkWorld initial_globals empty_storage.

(** ** [initializeStorage] *)

Definition initializeStorage (now : Z) (st : Storage) : Storage :=
  match activityData st with
  | Some _ => st
  | None => mkStorage (Some []) (Some []) (Some now)
  end.

(** ** [saveCurrentSession] *)

(** [if (!o[key]) { o[key] = 0; }  o[key] += seconds;] (lines 82-85 and
    96-99). *)
Definition addSeconds (key : string) (seconds : Z) (o : obj Z) : obj Z :=
  let o := if truthy_number (obj_get key o) then o else obj_set key 0 o in
  obj_set key (or_else (obj_get key o) 0 + seconds) o.

(** Lines 67-85 where [activityData[domain]] is an own record or
    [undefined]: the record, created on first use, then updated. *)
Definition upsertDomain (domain : string) (durationInSeconds : Z)
    (dateKey : string) (now : Z) (activityData : obj DomainStat.t)
    : obj DomainStat.t :=
  let activityData :=
    match obj_get domain activityData with
    | Some _ => activityData
    | None => obj_set domain (DomainStat.Build 0 0 now []) activityData
    end in
  let e := or_else (obj_get domain activityData) (DomainStat.Build 0 0 now []) in
  let totalTime := (DomainStat.totalTime e + durationInSeconds)%Z in
  let visits := (DomainStat.visits e + 1)%Z in
  let lastVisit := now in
  let dailyBreakdown :=
    addSeconds dateKey durationInSeconds (DomainStat.dailyBreakdown e) in
  obj_set domain (DomainStat.Build totalTime visits lastVisit dailyBreakdown)
    activityData.

(** Lines 66-85.  Where [activityData[domain]] is an inherited member, it
    is truthy, line 67 creates no record, lines 77-79 assign properties of
    the member, and line 82 reads [dailyBreakdown[dateKey]] of it:
    [dailyBreakdown] is [undefined] there, and the read throws a
    [TypeError] ([None]). *)
Definition bumpDomain (domain : string) (durationInSeconds : Z)
    (dateKey : string) (now : Z) (activityData : obj DomainStat.t)
    : option (obj DomainStat.t) :=
  match obj_lookup domain activityData with
  | Inherited => None
  | Own _ | Undefined =>
      Some (upsertDomain domain durationInSeconds dateKey now activityData)
  end.

(** Lines 87-99: the per-day record, created on first use, then updated.
    The date key is no member name; a domain that reaches these lines is
    none either, unless the document held a record under such a name. *)
Definition bumpDay (domain : string) (durationInSeconds : Z)
    (dateKey : string) (dailyData : obj DayStat.t) : obj DayStat.t :=
  let dailyData :=
    match obj_get dateKey dailyData with
    | Some _ => dailyData
    | None => obj_set dateKey (DayStat.Build 0 []) dailyData
    end in
  let e := or_else (obj_get dateKey dailyData) (DayStat.Build 0 []) in
  let totalTime := (DayStat.totalTime e + durationInSeconds)%Z in
  let domains := addSeconds domain durationInSeconds (DayStat.domains e) in
  obj_set dateKey (DayStat.Build totalTime domains) dailyData.

(** Lines 63-102 where the record of the domain is found or created: both
    maps updated; [lastCleanup] is not part of the write. *)
Definition upsertSession (domain : string) (durationInSeconds : Z)
    (dateKey : string) (now : Z) (st : Storage) : Storage :=
  let activityData := or_else (activityData st) [] in
  let dailyData := or_else (dailyData st) [] in
  mkStorage
    (Some (upsertDomain domain durationInSeconds dateKey now activityData))
    (Some (bumpDay domain durationInSeconds dateKey dailyData))
    (lastCleanup st).

(** Lines 63-102 on the document [result] that the read returned: both
    maps updated and written back, or the [TypeError] of line 82, which
    comes before the write ([None]). *)
Definition recordSession (domain : string) (durationInSeconds : Z)
    (dateKey : string) (now : Z) (result : Storage) : option Storage :=
  match bumpDomain domain durationInSeconds dateKey now
          (or_else (activityData result) []) with
  | Some activityData =>
      Some (mkStorage (Some activityData)
              (Some (bumpDay domain durationInSeconds dateKey
                       (or_else (dailyData result) [])))
              (lastCleanup result))
  | None => None
  end.

(** What the function has computed when it reaches its first [await]. *)
Record PendingFlush := mkPendingFlush {
  pending_seconds : Z;
  pending_dateKey : string
}.

(** Lines 48-60, up to the first [await]: the guards, the whole seconds
    and the date key.  [None]: the function returns. *)
Definition saveCurrentSession_guard (now : Z) (g : Globals)
    : option PendingFlush :=
  if negb (truthy_string (currentDomain g))
     || negb (truthy_number (sessionStartTime g))
     || negb (isWindowFocused g)
  then None
  else
    let sessionDuration := (now - or_else (sessionStartTime g) 0)%Z in
    let durationInSeconds := (sessionDuration / 1000)%Z in
    if (durationInSeconds <? 1)%Z then None
    else Some (mkPendingFlush durationInSeconds (getDateKey now)).

(** [currentDomain] as a property name: [null] is the name [null]. *)
Definition propertyKey (domain : option string) : string :=
  or_else domain "null".

(** Lines 61-102, resumed when the read has returned [result]: the domain
    is the value that [currentDomain] has by then, and the write replaces
    the two maps of the document.  [None]: the [TypeError]; nothing is
    written, and the function assigns no global in either case. *)
Definition saveCurrentSession_write (p : PendingFlush) (now : Z)
    (result : Storage) (w : World) : option World :=
  match recordSession (propertyKey (currentDomain (globals w)))
          (pending_seconds p) (pending_dateKey p) now result with
  | Some written =>
      Some (mkWorld (globals w)
              (mkStorage (activityData written) (dailyData written)
                 (lastCleanup (storage w))))
  | None => None
  end.

(** The whole function, run without another listener in between: the
    world when its promise is fulfilled, [None] when it is rejected. *)
Definition saveCurrentSession_outcome (now : Z) (w : World) : option World :=
  match saveCurrentSession_guard now (globals w) with
  | Some p => saveCurrentSession_write p now (storage w) w
  | None => Some w
  end.

(** The world once the call has settled: a rejected call has written
    nothing. *)
Definition saveCurrentSession (now : Z) (w : World) : World :=
  or_else (saveCurrentSession_outcome now w) w.

(** ** [startTracking] *)

Definition startTracking (now : Z) (tabId : Z) (domain : option string)
    (w : World) : World :=
  mkWorld (mkGlobals (Some tabId) domain (Some now)
             (isWindowFocused (globals w)))
    (storage w).

(** The three assignments of the [else] branches of the tab listeners. *)
Definition resetTracking (w : World) : World :=
  mkWorld (mkGlobals None None None (isWindowFocused (globals w)))
    (storage w).

(** The [for ... in] loop of [cleanupOldData]: the entries that stay, in
    their order, and the number of deleted ones. *)
Fixpoint removeOld (cutoffKey : string) (dailyData : obj DayStat.t)
    : obj DayStat.t * Z :=
  match dailyData with
  | [] => ([], 0)
  | (dateKey, day) :: rest =>
      let '(kept, removedCount) := removeOld cutoffKey rest in
      if String.ltb dateKey cutoffKey
      then (kept, removedCount + 1)
      else ((dateKey, day) :: kept, removedCount)
  end.

(** ** The host: URL parsing and the local time zone *)

(** What [new URL(url)] exposes of a parsed URL. *)
Record URLRecord := mkURL {
  protocol : string;
  hostname : string
}.

Definition WINDOW_ID_NONE : Z := -1.

(** A tab as the listeners see it: [tab.id] and [tab.url]. *)
Record Tab := mkTab {
  tab_id : Z;
  tab_url : string
}.

(** The events the worker listens to, each with what the browser answers
    to the queries its listener makes ([None]: the promise is rejected). *)
Inductive Event :=
| Installed
| TabActivated (tabId : Z) (tab : option Tab)
| TabUpdated (tabId : Z) (changeInfo_url : option string)
| FocusChanged (windowId : Z) (tabs : option (list Tab))
| Alarm (name : string)
| Startup (tabs : option (list Tab)).

Section Host.
(** [new URL(url)]: [None] when the constructor throws. *)
Variable URL : string -> option URLRecord.

(** [LocalTZA(t, isUTC)] of ECMAScript: the offset of local time. *)
Variable LocalTZA : Z -> bool -> Z.

Definition getDomainFromUrl (url : string) : option string :=
  match URL url with
  | Some urlObj => Some (hostname urlObj)
  | None => None
  end.

(** [chrome.tabs.onActivated].  The flush is awaited outside the [try]:
    when it is rejected the listener ends there. *)
Definition onActivated (now : Z) (tabId : Z) (tab : option Tab)
    (w : World) : World :=
  match saveCurrentSession_outcome now w with
  | Some w =>
      match tab with
      | Some tab =>
          let domain := getDomainFromUrl (tab_url tab) in
          if truthy_string domain && isWindowFocused (globals w)
          then startTracking now tabId domain w
          else resetTracking w
      | None => w
      end
  | None => w
  end.

(** [chrome.tabs.onUpdated] *)
Definition onUpdated (now : Z) (tabId : Z) (changeInfo_url : option string)
    (w : World) : World :=
  if truthy_string changeInfo_url
     && match currentTabId (globals w) with
        | Some c => (tabId =? c)%Z
        | None => false
        end
  then
    match saveCurrentSession_outcome now w with
    | Some w =>
        let domain := getDomainFromUrl (or_else changeInfo_url "") in
        if truthy_string domain && isWindowFocused (globals w)
        then startTracking now tabId domain w
        else resetTracking w
    | None => w
    end
  else w.

(** The first tab of a query answer, tracked when its URL has a domain. *)
Definition trackFirst (now : Z) (tabs : option (list Tab)) (w : World)
    : World :=
  match tabs with
  | Some (tab :: _) =>
      let domain := getDomainFromUrl (tab_url tab) in
      if truthy_string domain
      then startTracking now (tab_id tab) domain w
      else w
  | _ => w
  end.

(** Line 161: the window has the focus again. *)
Definition focusGained (w : World) : World :=
  let g := globals w in
  mkWorld (mkGlobals (currentTabId g) (currentDomain g)
             (sessionStartTime g) true)
    (storage w).

(** [chrome.windows.onFocusChanged].  When the flush of the focus-lost
    branch is rejected, the two assignments after it are not reached.  The
    focus-gained branch sets the flag, awaits the tab query and then
    starts the session without looking at the flag again; it is run here
    without another listener between the two parts. *)
Definition onFocusChanged (now : Z) (windowId : Z)
    (tabs : option (list Tab)) (w : World) : World :=
  if (windowId =? WINDOW_ID_NONE)%Z then
    match saveCurrentSession_outcome now w with
    | Some w =>
        let g := globals w in
        mkWorld (mkGlobals (currentTabId g) (currentDomain g) None false)
          (storage w)
    | None => w
    end
  else trackFirst now tabs (focusGained w).

(** [chrome.alarms.onAlarm].  The flush is not awaited: the listener goes
    on whether or not it is rejected. *)
Definition onAlarm (now : Z) (name : string) (w : World) : World :=
  if (name =? "saveActivity")%string then
    let w := saveCurrentSession now w in
    let g := globals w in
    if truthy_string (currentDomain g) && isWindowFocused g
    then mkWorld (mkGlobals (currentTabId g) (currentDomain g) (Some now)
                    (isWindowFocused g))
           (storage w)
    else w
  else w.

(** ** [cleanupOldData] *)

(** [d.setDate(d.getDate() - 90)] on [d = new Date(now)]: ninety calendar
    days back in local time, then back to a time value. *)
Definition cutoffTime (now : Z) : Z :=
  let t := now + LocalTZA now true - 90 * msPerDay in
  t - LocalTZA t false.

Definition cleanupOldData (now : Z) (st : Storage) : Storage :=
  let lastCleanup := number_or (lastCleanup st) 0 in
  if now - lastCleanup <? 24 * 60 * 60 * 1000 then st
  else
    let dailyData := or_else (dailyData st) [] in
    let cutoffKey := getDateKey (cutoffTime now) in
    let '(dailyData, removedCount) := removeOld cutoffKey dailyData in
    if 0 <? removedCount
    then mkStorage (activityData st) (Some dailyData) (Some now)
    else st.

(** The top level of the script, run each time the worker is loaded: the
    globals take their initial values, the sweep runs, and the active tab
    of the current window is tracked when its URL has a domain. *)
Definition onStartup (now : Z) (tabs : option (list Tab)) (w : World)
    : World :=
  let w := mkWorld initial_globals (cleanupOldData now (storage w)) in
  trackFirst now tabs w.

(** [chrome.runtime.onInstalled] *)
Definition onInstalled (now : Z) (w : World) : World :=
  mkWorld (globals w) (initializeStorage now (storage w)).

(** ** The worker as a transition system *)

Definition handle (now : Z) (e : Event) (w : World) : World :=
  match e with
  | Installed => onInstalled now w
  | TabActivated tabId tab => onActivated now tabId tab w
  | TabUpdated tabId url => onUpdated now tabId url w
  | FocusChanged windowId tabs => onFocusChanged now windowId tabs w
  | Alarm name => onAlarm now name w
  | Startup tabs => onStartup now tabs w
  end.

(** A trace pairs each event with the clock reading of its listener. *)
Fixpoint run (trace : list (Z * Event)) (w : World) : World :=
  match trace with
  | [] => w
  | (now, e) :: trace' => run trace' (handle now e w)
  end.

End Host.

(** ** [processData] of the popup *)

(** *** Numbers of the visit estimate: binary64 *)

Abbreviation float := PrimFloat.float.

(** The double of an integer; exact for magnitudes up to 2^53. *)
Definition js_of_Z (z : Z) : float :=
  if z <? 0 then PrimFloat.opp (PrimFloat.of_uint63 (Uint63.of_Z (- z)))
  else PrimFloat.of_uint63 (Uint63.of_Z z).

(** [Math.ceil]: a finite double [m * 2^e] with [e < 0] is rounded up to
    the next integer; every other double is its own ceiling. *)
Definition Math_ceil (x : float) : float :=
  match FloatOps.Prim2SF x with
  | SpecFloat.S754_finite s m e =>
      if 0 <=? e then x
      else
        let d := 2 ^ (- e) in
        let q := Zpos m / d in
        let r := Zpos m mod d in
        if s then PrimFloat.opp (js_of_Z q)
        else js_of_Z (if r =? 0 then q else q + 1)
  | _ => x
  end.

Module SiteStat.
Record t := Build {
  time : Z;
  visits : float;
  lastVisit : Z
}.
End SiteStat.

Record Report := mkReport {
  totalTime : Z;
  totalVisits : float;
  uniqueSites : nat;
  topSites : list (string * SiteStat.t)
}.

(** [startDate]; [None] is [undefined], for a range that is none of the
    three buttons. *)
Definition startDateOf (range : string) (now : Z) : option string :=
  if (range =? "today")%string then Some (getDateKey now)
  else if (range =? "week")%string
  then Some (getDateKey (now - 7 * 24 * 60 * 60 * 1000))
  else if (range =? "month")%string
  then Some (getDateKey (now - 30 * 24 * 60 * 60 * 1000))
  else None.

(** [dateKey >= startDate && dateKey <= today]; a comparison with
    [undefined] is false. *)
Definition inRange (startDate : option string) (today dateKey : string)
    : bool :=
  match startDate with
  | Some s => String.leb s dateKey && String.leb dateKey today
  | None => false
  end.

(** The record that a domain gets when the loop first meets it:
    [lastVisit] is [activityData[domain]?.lastVisit || Date.now()]. *)
Definition freshSite (activityData : obj DomainStat.t) (now : Z)
    (domain : string) : SiteStat.t :=
  SiteStat.Build 0 (js_of_Z 0)
    (number_or
       (option_map DomainStat.lastVisit (obj_get domain activityData))
       now).

(** Body of the inner loop over [dayData.domains]. *)
Definition addTime (activityData : obj DomainStat.t) (now : Z)
    (acc : obj SiteStat.t * Z) (kv : string * Z) : obj SiteStat.t * Z :=
  let '(domainStats, totalTime) := acc in
  let '(domain, timeForDay) := kv in
  let fresh := freshSite activityData now domain in
  let domainStats :=
    match obj_get domain domainStats with
    | Some _ => domainStats
    | None => obj_set domain fresh domainStats
    end in
  let e := or_else (obj_get domain domainStats) fresh in
  (obj_set domain
     (SiteStat.Build (SiteStat.time e + timeForDay) (SiteStat.visits e)
        (SiteStat.lastVisit e))
     domainStats,
   totalTime + timeForDay).

(** Body of the outer loop over [dailyData]. *)
Definition addDay (activityData : obj DomainStat.t) (now : Z)
    (startDate : option string) (today : string)
    (acc : obj SiteStat.t * Z) (kv : string * DayStat.t)
    : obj SiteStat.t * Z :=
  let '(dateKey, dayData) := kv in
  if inRange startDate today dateKey
  then fold_left (addTime activityData now) (DayStat.domains dayData) acc
  else acc.

(** [Math.ceil(domainData.visits * proportion)] for one date bucket. *)
Definition bucketVisits (domainData : DomainStat.t) (seconds : Z) : float :=
  let proportion :=
    PrimFloat.div (js_of_Z seconds)
      (js_of_Z (DomainStat.totalTime domainData)) in
  Math_ceil (PrimFloat.mul (js_of_Z (DomainStat.visits domainData)) proportion).

(** The loop over [domainData.dailyBreakdown]. *)
Definition visitsInRange (startDate : option string) (today : string)
    (domainData : DomainStat.t) : float :=
  fold_left
    (fun visitsInRange (kv : string * Z) =>
       let '(date, seconds) := kv in
       if inRange startDate today date && (0 <? seconds)
       then PrimFloat.add visitsInRange (bucketVisits domainData seconds)
       else visitsInRange)
    (DomainStat.dailyBreakdown domainData) (js_of_Z 0).

(** Body of the loop over [activityData]. *)
Definition addVisits (startDate : option string) (today : string)
    (acc : obj SiteStat.t * float) (kv : string * DomainStat.t)
    : obj SiteStat.t * float :=
  let '(domainStats, totalVisits) := acc in
  let '(domain, domainData) := kv in
  let v := visitsInRange startDate today domainData in
  match obj_get domain domainStats with
  | Some e =>
      (obj_set domain
         (SiteStat.Build (SiteStat.time e) v (SiteStat.lastVisit e))
         domainStats,
       PrimFloat.add totalVisits v)
  | None => acc
  end.

(** [Array.prototype.sort] with the comparator [b[1].time - a[1].time]: the
    sort is stable, so it is the insertion of each entry before the first
    later entry whose time is not greater. *)
Fixpoint insertByTime (x : string * SiteStat.t)
    (l : list (string * SiteStat.t)) : list (string * SiteStat.t) :=
  match l with
  | [] => [x]
  | y :: l' =>
      if SiteStat.time (snd x) <? SiteStat.time (snd y)
      then y :: insertByTime x l'
      else x :: y :: l'
  end.

Definition sortByTime (l : list (string * SiteStat.t))
    : list (string * SiteStat.t) :=
  fold_right insertByTime [] l.

(** The two aggregation loops of [processData], up to the sort. *)
Definition domainStatsOf (activityData : obj DomainStat.t)
    (dailyData : obj DayStat.t) (range : string) (now : Z)
    : (obj SiteStat.t * Z) * float :=
  let today := getDateKey now in
  let startDate := startDateOf range now in
  let '(domainStats, totalTime) :=
    fold_left (addDay activityData now startDate today) dailyData ([], 0) in
  let '(domainStats, totalVisits) :=
    fold_left (addVisits startDate today) activityData
      (domainStats, js_of_Z 0) in
  ((domainStats, totalTime), totalVisits).

Definition processData (activityData : obj DomainStat.t)
    (dailyData : obj DayStat.t) (range : string) (now : Z) : Report :=
  let '((domainStats, totalTime), totalVisits) :=
    domainStatsOf activityData dailyData range now in
  let sortedDomains := firstn 10 (sortByTime domainStats) in
  mkReport totalTime totalVisits (length sortedDomains) sortedDomains.

(** ** Vocabulary of the statements *)

(** A session is being timed: the three guards of [saveCurrentSession]. *)
Definition tracking (g : Globals) : bool :=
  truthy_string (currentDomain g)
  && truthy_number (sessionStartTime g)
  && isWindowFocused g.

(** Whole seconds between the start of the session and [now]. *)
Definition elapsedSeconds (now : Z) (g : Globals) : Z :=
  (now - or_else (sessionStartTime g) 0) / 1000.

(** The record of a domain is found where it should have been created:
    the name is that of an inherited member, and there is no own record. *)
Definition inheritsRecord (domain : string) (st : Storage) : bool :=
  match obj_lookup domain (or_else (activityData st) []) with
  | Inherited => true
  | _ => false
  end.

(** The flush is rejected: a session of at least one second is tracked on
    a domain whose record is an inherited member. *)
Definition rejected (now : Z) (w : World) : bool :=
  tracking (globals w) && (1 <=? elapsedSeconds now (globals w))
  && inheritsRecord (or_else (currentDomain (globals w)) "") (storage w).

(** The current domain, when there is one, is a name that no lookup finds
    inherited. *)
Definition plain_session (g : Globals) : bool :=
  match currentDomain g with
  | Some d => plain_key d
  | None => true
  end.

(** A start time is only ever set together with a domain. *)
Definition start_has_domain (g : Globals) : Prop :=
  sessionStartTime g = None \/ truthy_string (currentDomain g) = true.

(** Does the listener of [e] call [saveCurrentSession] in [g]? *)
Definition flushes (e : Event) (g : Globals) : bool :=
  match e with
  | TabActivated _ _ => true
  | TabUpdated tabId url =>
      truthy_string url
      && match currentTabId g with
         | Some c => tabId =? c
         | None => false
         end
  | FocusChanged windowId _ => windowId =? WINDOW_ID_NONE
  | Alarm name => (name =? "saveActivity")%string
  | Installed | Startup _ => false
  end.

(** Seconds that the intervals of [domain] contribute: an interval of less
    than one whole second is discarded. *)
Fixpoint keptSeconds (domain : string) (intervals : list (string * Z)) : Z :=
  match intervals with
  | [] => 0
  | (d, seconds) :: rest =>
      (if (d =? domain)%string && (1 <=? seconds) then seconds else 0)
      + keptSeconds domain rest
  end.

(** [DomainStat[domain].totalTimeSeconds], 0 while there is no record. *)
Definition totalTimeOf (domain : string) (st : Storage) : Z :=
  match obj_get domain (or_else (activityData st) []) with
  | Some e => DomainStat.totalTime e
  | None => 0
  end.

(** [DomainStat[domain].dailyBreakdown[dateKey]]. *)
Definition breakdownAt (st : Storage) (domain dateKey : string) : option Z :=
  match obj_get domain (or_else (activityData st) []) with
  | Some e => obj_get dateKey (DomainStat.dailyBreakdown e)
  | None => None
  end.

(** [DayStat[dateKey].domainSeconds[domain]]. *)
Definition daySecondsAt (st : Storage) (dateKey domain : string) : option Z :=
  match obj_get dateKey (or_else (dailyData st) []) with
  | Some e => obj_get domain (DayStat.domains e)
  | None => None
  end.

(** The per-domain record before the flush, zeroed when there is none. *)
Definition domainBefore (domain : string) (activityData : obj DomainStat.t)
    : DomainStat.t :=
  or_else (obj_get domain activityData) (DomainStat.Build 0 0 0 []).

(** The per-day record before the flush, zeroed when there is none. *)
Definition dayBefore (dateKey : string) (dailyData : obj DayStat.t)
    : DayStat.t :=
  or_else (obj_get dateKey dailyData) (DayStat.Build 0 []).

(** Both sum identities of the data model. *)
Definition sums_ok (st : Storage) : Prop :=
  (forall d e, obj_get d (or_else (activityData st) []) = Some e ->
     obj_sum (DomainStat.dailyBreakdown e) = DomainStat.totalTime e)
  /\ (forall k e, obj_get k (or_else (dailyData st) []) = Some e ->
        obj_sum (DayStat.domains e) = DayStat.totalTime e).

(** The two maps agree on every domain/date pair present in either. *)
Definition cross_ok (st : Storage) : Prop :=
  forall d k, daySecondsAt st k d = breakdownAt st d k.

(** The two maps agree on every pair present in the per-day map. *)
Definition day_side_ok (st : Storage) : Prop :=
  forall d k v, daySecondsAt st k d = Some v -> breakdownAt st d k = Some v.

(** The writes to the persisted document. *)
Inductive Mutation :=
| Flush (now : Z) (g : Globals)
| Sweep (now : Z)
| Init (now : Z).

Definition is_sweep (m : Mutation) : bool :=
  match m with
  | Sweep _ => true
  | _ => false
  end.

Section Mutations.
Variable LocalTZA : Z -> bool -> Z.

Definition mutate (m : Mutation) (st : Storage) : Storage :=
  match m with
  | Flush now g => storage (saveCurrentSession now (mkWorld g st))
  | Sweep now => cleanupOldData LocalTZA now st
  | Init now => initializeStorage now st
  end.

Definition mutateAll (ms : list Mutation) (st : Storage) : Storage :=
  fold_left (fun st m => mutate m st) ms st.

(** The cutoff keys of the sweeps of a history, in their order. *)
Fixpoint cutoffKeys (ms : list Mutation) : list string :=
  match ms with
  | [] => []
  | Sweep now :: ms' => getDateKey (cutoffTime LocalTZA now) :: cutoffKeys ms'
  | _ :: ms' => cutoffKeys ms'
  end.

(** The history does not go back behind a sweep: no flush is dated below
    the cutoff key of a sweep before it ([cutoffs]: the cutoff keys so
    far). *)
Fixpoint orderly (cutoffs : list string) (ms : list Mutation) : bool :=
  match ms with
  | [] => true
  | Flush now _ :: ms' =>
      negb (existsb (String.ltb (getDateKey now)) cutoffs)
      && orderly cutoffs ms'
  | Sweep now :: ms' =>
      orderly (cutoffs ++ [getDateKey (cutoffTime LocalTZA now)])%list ms'
  | Init _ :: ms' => orderly cutoffs ms'
  end.

(** The clock readings of a history. *)
Definition clockOf (m : Mutation) : Z :=
  match m with
  | Flush now _ | Sweep now | Init now => now
  end.
End Mutations.

(** A date below one of the cutoff keys. *)
Definition swept (cutoffs : list string) (dateKey : string) : bool :=
  existsb (String.ltb dateKey) cutoffs.

(** The two maps agree on every pair present in the per-domain map whose
    date is not below a cutoff key. *)
Definition domain_side_ok (cutoffs : list string) (st : Storage) : Prop :=
  forall d k v,
    breakdownAt st d k = Some v ->
    daySecondsAt st k d = Some v \/ swept cutoffs k = true.

(** The sessions of the flushes of a history are on domains that no
    lookup finds inherited. *)
Definition plain_history (ms : list Mutation) : bool :=
  forallb
    (fun m =>
       match m with
       | Flush _ g => plain_session g
       | _ => true
       end)
    ms.

(** The clock does not go back along a history. *)
Definition chronological (ms : list Mutation) : Prop :=
  StronglySorted Z.le (map clockOf ms).

(** No own key of the document, domain of a record or domain of a day, is
    the name of an inherited member. *)
Definition plain_document (st : Storage) : Prop :=
  (forall k, In k (obj_keys (or_else (activityData st) [])) ->
     proto_member k = false)
  /\ (forall dateKey day k,
        In (dateKey, day) (or_else (dailyData st) []) ->
        In k (obj_keys (DayStat.domains day)) ->
        proto_member k = false).

(** *** Sessions of a focused window

    What the user does in a focused window, and when: a switch to a tab,
    whose URL the browser reports, or nothing until the alarm fires. *)
Inductive Step :=
| Switch (tabId : Z) (url : string)
| Tick.

Definition eventOf (s : Step) : Event :=
  match s with
  | Switch tabId url => TabActivated tabId (Some (mkTab tabId url))
  | Tick => Alarm "saveActivity"
  end.

Definition eventsOf (steps : list (Z * Step)) : list (Z * Event) :=
  map (fun ns : Z * Step => (fst ns, eventOf (snd ns))) steps.

(** The session that a switch opens at [now]: that of the host name of the
    URL, when it has one. *)
Definition opened (URL : string -> option URLRecord) (url : string) (now : Z)
    : option (string * Z) :=
  match URL url with
  | Some urlObj =>
      if (hostname urlObj =? "")%string then None
      else Some (hostname urlObj, now)
  | None => None
  end.

(** The sessions that the steps end, each with its domain and its whole
    seconds: a step ends the open session at its clock reading; a switch
    opens the session of its tab, and after a tick the session of the same
    domain goes on from the tick. *)
Fixpoint sessionIntervals (URL : string -> option URLRecord)
    (open : option (string * Z)) (steps : list (Z * Step))
    : list (string * Z) :=
  match steps with
  | [] => []
  | (now, s) :: steps' =>
      let ended :=
        match open with
        | Some (d, t0) => [(d, (now - t0) / 1000)]
        | None => []
        end in
      let open' :=
        match s with
        | Switch _ url => opened URL url now
        | Tick =>
            match open with
            | Some (d, _) => Some (d, now)
            | None => None
            end
        end in
      (ended ++ sessionIntervals URL open' steps')%list
  end.

(** The session state that goes with an open session, or with none. *)
Definition session_state (open : option (string * Z)) (g : Globals) : Prop :=
  isWindowFocused g = true
  /\ match open with
     | Some (d, t0) =>
         currentDomain g = Some d /\ sessionStartTime g = Some t0
         /\ d <> "" /\ t0 <> 0 /\ plain_key d = true
     | None => truthy_string (currentDomain g) = false
     end.

(** The steps that the statement about sessions covers: the clock is
    positive, and no host name is a name that a lookup finds inherited. *)
Definition plain_step (URL : string -> option URLRecord) (ns : Z * Step)
    : bool :=
  (0 <? fst ns)
  && match snd ns with
     | Switch _ url =>
         match URL url with
         | Some urlObj =>
             (hostname urlObj =? "")%string || plain_key (hostname urlObj)
         | None => true
         end
     | Tick => true
     end.

(** The listener of [e] closes the session: the window lost focus, or the
    tab it looked at gives nothing to track. *)
Definition closing (URL : string -> option URLRecord) (e : Event)
    (g : Globals) : bool :=
  match e with
  | FocusChanged windowId _ => windowId =? WINDOW_ID_NONE
  | TabActivated _ (Some tab) =>
      negb (truthy_string (getDomainFromUrl URL (tab_url tab))
            && isWindowFocused g)
  | TabUpdated _ url =>
      flushes e g
      && negb (truthy_string (getDomainFromUrl URL (or_else url ""))
               && isWindowFocused g)
  | _ => false
  end.

(** *** The reporter, in the words of its description *)

(** Seconds of [domain] in the range: the day's seconds of the domain,
    summed over the days of the range. *)
Definition secondsIn (domain : string) (domains : obj Z) : Z :=
  fold_right
    (fun (kv : string * Z) acc =>
       if (fst kv =? domain)%string then snd kv + acc else acc)
    0 domains.

Definition secondsOfDay (domain : string) (day : DayStat.t) : Z :=
  secondsIn domain (DayStat.domains day).

Definition rangeTime (startDate : option string) (today : string)
    (dailyData : obj DayStat.t) (domain : string) : Z :=
  fold_right
    (fun (kv : string * DayStat.t) acc =>
       if inRange startDate today (fst kv)
       then secondsOfDay domain (snd kv) + acc
       else acc)
    0 dailyData.

(** The estimate of one date: the lifetime visit count, scaled by the
    fraction of the lifetime seconds that fall on the date, rounded up. *)
Definition dateEstimate (visitCount totalTimeSeconds seconds : Z) : float :=
  let fraction :=
    PrimFloat.div (js_of_Z seconds) (js_of_Z totalTimeSeconds) in
  let scaled := PrimFloat.mul (js_of_Z visitCount) fraction in
  Math_ceil scaled.

(** The visit estimate of [domain]: the sum of the estimates of the dates
    of the range with positive seconds, in the order of the breakdown. *)
Definition visitEstimate (startDate : option string) (today : string)
    (activityData : obj DomainStat.t) (domain : string) : float :=
  match obj_get domain activityData with
  | Some domainData =>
      fold_left PrimFloat.add
        (map (fun kv : string * Z =>
                dateEstimate (DomainStat.visits domainData)
                  (DomainStat.totalTime domainData) (snd kv))
           (filter
              (fun kv : string * Z =>
                 inRange startDate today (fst kv) && (0 <? snd kv))
              (DomainStat.dailyBreakdown domainData)))
        (js_of_Z 0)
  | None => js_of_Z 0
  end.

(** Seconds of [domain] in an object of per-site records, 0 without one. *)
Definition siteTime (domain : string) (domainStats : obj SiteStat.t) : Z :=
  match obj_get domain domainStats with
  | Some e => SiteStat.time e
  | None => 0
  end.

(** No record has a visit count yet. *)
Definition noVisitsYet (domainStats : obj SiteStat.t) : Prop :=
  forall d e, obj_get d domainStats = Some e ->
    SiteStat.visits e = js_of_Z 0.

(** Descending order of time. *)
Definition byTimeDesc (a b : string * SiteStat.t) : Prop :=
  SiteStat.time (snd b) <= SiteStat.time (snd a).

(** The domains that have seconds recorded on a day of the range. *)
Definition inRangeDomain (startDate : option string) (today : string)
    (dailyData : obj DayStat.t) (domain : string) : Prop :=
  exists dateKey day,
    In (dateKey, day) dailyData
    /\ inRange startDate today dateKey = true
    /\ In domain (obj_keys (DayStat.domains day)).

(** ** A sample host

    A fragment of the URL parser that is enough for examples: lower-case
    absolute URLs [scheme://host/...] without credentials, port or escapes,
    and [scheme:path] URLs of the other schemes, which have an empty host.
    The time zone of the sample host is UTC. *)

Definition is_lower (c : ascii) : bool :=
  let n := nat_of_ascii c in (97 <=? n)%nat && (n <=? 122)%nat.

Definition is_scheme_char (c : ascii) : bool :=
  let n := nat_of_ascii c in
  is_lower c || ((48 <=? n)%nat && (n <=? 57)%nat)
  || (n =? 43)%nat || (n =? 45)%nat || (n =? 46)%nat.

Fixpoint scan_scheme (s : string) : option (string * string) :=
  match s with
  | EmptyString => None
  | String c s' =>
      if (c =? ":")%char then Some (EmptyString, s')
      else if is_scheme_char c then
        match scan_scheme s' with
        | Some (scheme, rest) => Some (String c scheme, rest)
        | None => None
        end
      else None
  end.

Fixpoint scan_host (s : string) : string :=
  match s with
  | EmptyString => EmptyString
  | String c s' =>
      if (c =? "/")%char || (c =? "?")%char || (c =? "#")%char
      then EmptyString
      else String c (scan_host s')
  end.

Definition is_special (scheme : string) : bool :=
  (scheme =? "http")%string || (scheme =? "https")%string
  || (scheme =? "ftp")%string || (scheme =? "ws")%string
  || (scheme =? "wss")%string.

Definition sampleURL (url : string) : option URLRecord :=
  match scan_scheme url with
  | Some (String c scheme, rest) =>
      if is_lower c then
        match rest with
        | String "/" (String "/" authority) =>
            let host := scan_host authority in
            if is_special (String c scheme) && (host =? "")%string
            then None
            else Some (mkURL (String c scheme ++ ":") host)
        | _ =>
            if is_special (String c scheme) then None
            else Some (mkURL (String c scheme ++ ":") "")
        end
      else None
  | _ => None
  end.

Definition utc : Z -> bool -> Z := fun _ _ => 0.

(** A session on [example.com] started at 2023-11-14T22:13:20Z, nothing
    persisted yet. *)
Definition sample_globals : Globals :=
  mkGlobals (Some 7) (Some "example.com") (Some 1700000000000) true.

Definition sample_world : World := mkWorld sample_globals empty_storage.

(** A session on the host [constructor], the host of
    [https://constructor/], started at the same time. *)
Definition constructor_globals : Globals :=
  mkGlobals (Some 7) (Some "constructor") (Some 1700000000000) true.

Definition constructor_world : World :=
  mkWorld constructor_globals empty_storage.

(** The worker starts on a tab of [constructor]; five seconds later the
    window loses focus. *)
Definition constructor_trace : list (Z * Event) :=
  [(1700000000000, Startup (Some [mkTab 7 "https://constructor/"]));
   (1700000005000, FocusChanged WINDOW_ID_NONE None)].

(** The worker starts on a tab of [example.com]; after five seconds a tab
    is activated that is gone before the listener asks for it; after ten
    seconds the window loses focus. *)
Definition lost_tab_trace : list (Z * Event) :=
  [(1700000000000, Startup (Some [mkTab 7 "https://example.com/"]));
   (1700000005000, TabActivated 9 None);
   (1700000010000, FocusChanged WINDOW_ID_NONE None)].

(** A tab of [example.com] for five seconds, a page without host for two
    seconds, a tab of [example.org] through one tick of the alarm, and
    [example.com] again for 400 ms. *)
Definition sample_steps : list (Z * Step) :=
  [(1700000000000, Switch 7 "https://example.com/");
   (1700000005000, Switch 8 "about:blank");
   (1700000007000, Switch 9 "https://example.org/a");
   (1700000060000, Tick);
   (1700000063500, Switch 7 "https://example.com/");
   (1700000063900, Switch 9 "https://example.org/a")].

(** The worker starts on a tab of [example.com]; five seconds later the
    window loses focus. *)
Definition focus_loss_trace : list (Z * Event) :=
  [(1700000000000, Startup (Some [mkTab 7 "https://example.com/"]));
   (1700000005000, FocusChanged WINDOW_ID_NONE None)].

(** The worker starts on a tab of [example.com], the alarm fires after 60
    seconds, and the window loses focus 5.4 seconds later. *)
Definition tick_trace : list (Z * Event) :=
  [(1700000000000, Startup (Some [mkTab 7 "https://example.com/"]));
   (1700000060000, Alarm "saveActivity");
   (1700000065400, FocusChanged WINDOW_ID_NONE None)].

(** A five-second flush, and a sweep a hundred days later. *)
Definition flush_then_sweep : list Mutation :=
  [Flush 1700000005000 sample_globals; Sweep 1708640005000].

(** The same, and then a seven-second flush of a session of that later
    day. *)
Definition flush_sweep_flush : list Mutation :=
  [Flush 1700000005000 sample_globals;
   Sweep 1708640005000;
   Flush 1708640012000
     (mkGlobals (Some 7) (Some "example.com") (Some 1708640005000) true)].

(** Lifetime data of two domains and the two days it comes from; the
    second day is 2023-11-14. *)
Definition sample_activity : obj DomainStat.t :=
  [("example.com",
    DomainStat.Build 100 100 1700000000000
      [("2023-11-01", 93); ("2023-11-14", 7)]);
   ("example.org",
    DomainStat.Build 30 3 1699990000000 [("2023-11-14", 30)])].

Definition sample_daily : obj DayStat.t :=
  [("2023-11-01", DayStat.Build 93 [("example.com", 93)]);
   ("2023-11-14",
    DayStat.Build 37 [("example.com", 7); ("example.org", 30)])].

(** One day with eleven domains, of 1 to 11 seconds. *)
Definition busy_daily : obj DayStat.t :=
  [("2023-11-14",
    DayStat.Build 66
      [("s01.example", 1); ("s02.example", 2); ("s03.example", 3);
       ("s04.example", 4); ("s05.example", 5); ("s06.example", 6);
       ("s07.example", 7); ("s08.example", 8); ("s09.example", 9);
       ("s10.example", 10); ("s11.example", 11)])].

(** A document swept 25 hours before 2023-11-14T22:13:20Z that holds one
    day, four days old. *)
Definition recent_storage : Storage :=
  mkStorage (Some [])
    (Some [("2023-11-10", DayStat.Build 5 [("example.com", 5)])])
    (Some 1699910000000).

(** The same document with a day that is more than ninety days old. *)
Definition aged_storage : Storage :=
  mkStorage (Some [])
    (Some [("2023-08-11", DayStat.Build 9 [("example.org", 9)]);
           ("2023-11-10", DayStat.Build 5 [("example.com", 5)])])
    (Some 1699910000000).

(** ** The rest of the popup *)

(** A number in a template literal; the numbers shown are integers. *)
Definition number_to_string (n : Z) : string :=
  NilZero.string_of_int (Z.to_int n).

(** [formatTime]: [%] is the remainder that takes the sign of the
    dividend, [Math.floor] of a quotient is the floor division. *)
Definition formatTime (seconds : Z) : string :=
  let hours := seconds / 3600 in
  let minutes := Z.rem seconds 3600 / 60 in
  let secs := Z.rem seconds 60 in
  if 0 <? hours
  then (number_to_string hours ++ "h " ++ number_to_string minutes ++ "m")%string
  else if 0 <? minutes then (number_to_string minutes ++ "m")%string
  else (number_to_string secs ++ "s")%string.

Definition colors : list string :=
  ["#667eea"; "#f093fb"; "#4facfe"; "#43e97b"; "#fa709a";
   "#fee140"; "#30cfd0"; "#a8edea"; "#ff6b6b"; "#4ecdc4"].

(** [colors[index % colors.length]]; [None] is [undefined], the value of
    the array at a negative index. *)
Definition getColorForIndex (index : Z) : option string :=
  let i := Z.rem index (Z.of_nat (length colors)) in
  if i <? 0 then None else nth_error colors (Z.to_nat i).

(** [clearAllData], with the answer of the confirmation dialog: the
    document is cleared and set to the three initial keys. *)
Definition clearAllData (confirmed : bool) (now : Z) (st : Storage)
    : Storage :=
  if confirmed then mkStorage (Some []) (Some []) (Some now) else st.

(** [loadDashboard] up to the rendering: the data that it hands to
    [renderDashboard]. *)
Definition loadDashboard (range : string) (now : Z) (st : Storage)
    : Report :=
  processData (or_else (activityData st) []) (or_else (dailyData st) [])
    range now.

(** ** More vocabulary *)

(** [DomainStat[domain].visitCount], 0 while there is no record. *)
Definition visitsOf (domain : string) (st : Storage) : Z :=
  match obj_get domain (or_else (activityData st) []) with
  | Some e => DomainStat.visits e
  | None => 0
  end.

(** Number of the intervals of [domain] that are recorded. *)
Fixpoint keptCount (domain : string) (intervals : list (string * Z)) : Z :=
  match intervals with
  | [] => 0
  | (d, seconds) :: rest =>
      (if (d =? domain)%string && (1 <=? seconds) then 1 else 0)
      + keptCount domain rest
  end.

(** The shape of the session state: the domain is never the empty string
    and is set exactly when the tab is. *)
Definition wellformed_globals (g : Globals) : Prop :=
  match currentDomain g with
  | Some d => d <> "" /\ currentTabId g <> None
  | None => currentTabId g = None
  end.

(** The events that cannot bring the focus back. *)
Definition silent (e : Event) : bool :=
  match e with
  | TabActivated _ _ | TabUpdated _ _ | Alarm _ => true
  | FocusChanged windowId _ => windowId =? WINDOW_ID_NONE
  | Installed | Startup _ => false
  end.

(** The UTC day of a time value. *)
Definition dayOf (t : Z) : Z := t / msPerDay.

(** The time values of the years 0000 to 9999, whose date keys have four
    year digits. *)
Definition fourDigitYear (t : Z) : Prop :=
  -62167219200000 <= t <= 253402300799999.

(** A clock reading of the years 0000 to 9999 whose cutoff is of these
    years as well and is not later than the reading. *)
Definition in_calendar (LocalTZA : Z -> bool -> Z) (m : Mutation) : Prop :=
  fourDigitYear (clockOf m)
  /\ fourDigitYear (cutoffTime LocalTZA (clockOf m))
  /\ cutoffTime LocalTZA (clockOf m) <= clockOf m.

(** The days that a range reaches back from today. *)
Definition rangeDays (range : string) : option Z :=
  if (range =? "today")%string then Some 0
  else if (range =? "week")%string then Some 7
  else if (range =? "month")%string then Some 30
  else None.

(** All seconds of the days of the range. *)
Definition rangeTotal (startDate : option string) (today : string)
    (dailyData : obj DayStat.t) : Z :=
  fold_right
    (fun (kv : string * DayStat.t) acc =>
       if inRange startDate today (fst kv)
       then obj_sum (DayStat.domains (snd kv)) + acc
       else acc)
    0 dailyData.

(** The seconds that the two loops of [processData] hold for a domain. *)
Definition reportedTime (range : string) (now : Z) (st : Storage)
    (domain : string) : Z :=
  siteTime domain
    (fst (fst (domainStatsOf (or_else (activityData st) [])
                 (or_else (dailyData st) []) range now))).

(** The report without any site. *)
Definition emptyReport : Report := mkReport 0 (js_of_Z 0) 0 [].

(** *** Calendar arithmetic of [civil_from_days], by parts *)

Definition yoe_of (doe : Z) : Z :=
  (doe - doe / 1460 + doe / 36524 - doe / 146096) / 365.

Definition doy_of (doe : Z) : Z :=
  doe - (365 * yoe_of doe + yoe_of doe / 4 - yoe_of doe / 100).

Definition mp_of (doy : Z) : Z := (5 * doy + 2) / 153.

Definition dom_of (doy : Z) : Z := doy - (153 * mp_of doy + 2) / 5 + 1.

(** A number that orders dates as the calendar does. *)
Definition dateRank (c : Z * Z * Z) : Z :=
  let '(y, m, d) := c in (12 * y + m) * 32 + d.

Definition eraRank (doe : Z) : Z :=
  (12 * yoe_of doe + mp_of (doy_of doe) + 3) * 32 + dom_of (doy_of doe).

(** * Properties *)

(** ** Objects *)

Lemma obj_get_set_same {V : Type} (k : string) (v : V) (o : obj V) :
  obj_get k (obj_set k v o) = Some v.
Proof.
  induction o as [|[k' v'] o IH]; simpl.
  - now rewrite String.eqb_refl.
  - destruct (String.eqb_spec k k') as [->|Hne]; simpl.
    + now rewrite String.eqb_refl.
    + destruct (String.eqb_spec k k'); [contradiction|exact IH].
Qed.

Lemma obj_get_set_other {V : Type} (k k' : string) (v : V) (o : obj V) :
  k <> k' -> obj_get k' (obj_set k v o) = obj_get k' o.
Proof.
  intros Hne. induction o as [|[k0 v0] o IH]; simpl.
  - destruct (String.eqb_spec k' k); congruence.
  - destruct (String.eqb_spec k k0) as [->|Hk]; simpl.
    + destruct (String.eqb_spec k' k0); congruence.
    + destruct (String.eqb_spec k' k0); [reflexivity|exact IH].
Qed.

Lemma obj_sum_set (k : string) (v : Z) (o : obj Z) :
  obj_sum (obj_set k v o) = obj_sum o - or_else (obj_get k o) 0 + v.
Proof.
  induction o as [|[k' v'] o IH]; simpl.
  - lia.
  - destruct (String.eqb_spec k k') as [->|Hk]; simpl; lia.
Qed.

Lemma obj_get_In {V : Type} (k : string) (v : V) (o : obj V) :
  obj_get k o = Some v -> In (k, v) o.
Proof.
  induction o as [|[k' v'] o IH]; simpl; [discriminate|].
  destruct (String.eqb_spec k k') as [->|Hk].
  - intros [= ->]. now left.
  - intros H. right. now apply IH.
Qed.

Lemma obj_get_None {V : Type} (k : string) (o : obj V) :
  obj_get k o = None <-> ~ In k (obj_keys o).
Proof.
  induction o as [|[k' v'] o IH]; simpl.
  - tauto.
  - destruct (String.eqb_spec k k') as [->|Hk].
    + split; [discriminate|]. intros H. exfalso. apply H. now left.
    + rewrite IH. split; intros H; [intros [E|E]; congruence|tauto].
Qed.

Lemma obj_keys_set {V : Type} (k : string) (v : V) (o : obj V) :
  obj_keys (obj_set k v o)
  = match obj_get k o with
    | Some _ => obj_keys o
    | None => (obj_keys o ++ [k])%list
    end.
Proof.
  induction o as [|[k' v'] o IH]; simpl; [reflexivity|].
  destruct (String.eqb_spec k k') as [->|Hk]; simpl; [reflexivity|].
  rewrite IH. now destruct (obj_get k o).
Qed.

(** ** The numeric dictionaries *)

Lemma addSeconds_same (key : string) (seconds : Z) (o : obj Z) :
  obj_get key (addSeconds key seconds o)
  = Some (or_else (obj_get key o) 0 + seconds).
Proof.
  unfold addSeconds. rewrite obj_get_set_same. f_equal. f_equal.
  destruct (obj_get key o) as [v|] eqn:E; simpl.
  - destruct (Z.eqb_spec v 0) as [->|Hv]; simpl.
    + now rewrite obj_get_set_same.
    + now rewrite E.
  - now rewrite obj_get_set_same.
Qed.

Lemma addSeconds_other (key key' : string) (seconds : Z) (o : obj Z) :
  key <> key' ->
  obj_get key' (addSeconds key seconds o) = obj_get key' o.
Proof.
  intros Hne. unfold addSeconds. rewrite obj_get_set_other by assumption.
  destruct (truthy_number (obj_get key o)); [reflexivity|].
  now apply obj_get_set_other.
Qed.

Lemma addSeconds_sum (key : string) (seconds : Z) (o : obj Z) :
  obj_sum (addSeconds key seconds o) = obj_sum o + seconds.
Proof.
  unfold addSeconds. rewrite obj_sum_set.
  destruct (obj_get key o) as [v|] eqn:E; simpl.
  - destruct (Z.eqb_spec v 0) as [->|Hv]; simpl.
    + rewrite obj_sum_set, obj_get_set_same, E. simpl. lia.
    + rewrite E. simpl. lia.
  - rewrite obj_sum_set, obj_get_set_same, E. simpl. lia.
Qed.

(** ** The two records of a flush *)

Lemma upsertDomain_same (domain : string) (seconds : Z) (dateKey : string)
    (now : Z) (a : obj DomainStat.t) :
  obj_get domain (upsertDomain domain seconds dateKey now a)
  = Some (DomainStat.Build
            (DomainStat.totalTime (domainBefore domain a) + seconds)
            (DomainStat.visits (domainBefore domain a) + 1)
            now
            (addSeconds dateKey seconds
               (DomainStat.dailyBreakdown (domainBefore domain a)))).
Proof.
  unfold upsertDomain, domainBefore. rewrite obj_get_set_same.
  destruct (obj_get domain a) as [e|] eqn:E; simpl.
  - now rewrite E.
  - now rewrite obj_get_set_same.
Qed.

Lemma upsertDomain_other (domain domain' : string) (seconds : Z)
    (dateKey : string) (now : Z) (a : obj DomainStat.t) :
  domain <> domain' ->
  obj_get domain' (upsertDomain domain seconds dateKey now a)
  = obj_get domain' a.
Proof.
  intros Hne. unfold upsertDomain. rewrite obj_get_set_other by assumption.
  destruct (obj_get domain a); [reflexivity|].
  now apply obj_get_set_other.
Qed.

Lemma bumpDay_same (domain : string) (seconds : Z) (dateKey : string)
    (d : obj DayStat.t) :
  obj_get dateKey (bumpDay domain seconds dateKey d)
  = Some (DayStat.Build
            (DayStat.totalTime (dayBefore dateKey d) + seconds)
            (addSeconds domain seconds
               (DayStat.domains (dayBefore dateKey d)))).
Proof.
  unfold bumpDay, dayBefore. rewrite obj_get_set_same.
  destruct (obj_get dateKey d) as [e|] eqn:E; simpl.
  - now rewrite E.
  - now rewrite obj_get_set_same.
Qed.

Lemma bumpDay_other (domain : string) (seconds : Z) (dateKey dateKey' : string)
    (d : obj DayStat.t) :
  dateKey <> dateKey' ->
  obj_get dateKey' (bumpDay domain seconds dateKey d) = obj_get dateKey' d.
Proof.
  intros Hne. unfold bumpDay. rewrite obj_get_set_other by assumption.
  destruct (obj_get dateKey d); [reflexivity|].
  now apply obj_get_set_other.
Qed.

(** ** The flush *)

Lemma proto_member_plain (k : string) :
  plain_key k = true -> proto_member k = false.
Proof.
  unfold plain_key. intros H. apply andb_true_iff in H.
  destruct H as [H _]. now apply negb_true_iff.
Qed.

Lemma obj_lookup_plain {V : Type} (k : string) (o : obj V) :
  proto_member k = false ->
  obj_lookup k o
  = match obj_get k o with
    | Some v => Own v
    | None => Undefined
    end.
Proof. intros H. unfold obj_lookup. now rewrite H. Qed.

Lemma inheritsRecord_plain (domain : string) (st : Storage) :
  proto_member domain = false -> inheritsRecord domain st = false.
Proof.
  intros H. unfold inheritsRecord. rewrite obj_lookup_plain by assumption.
  now destruct (obj_get _ _).
Qed.

Lemma recordSession_cases (domain : string) (seconds : Z) (dateKey : string)
    (now : Z) (st : Storage) :
  recordSession domain seconds dateKey now st
  = if inheritsRecord domain st then None
    else Some (upsertSession domain seconds dateKey now st).
Proof.
  unfold recordSession, bumpDomain, inheritsRecord, upsertSession.
  now destruct (obj_lookup domain (or_else (activityData st) [])).
Qed.

Lemma tracking_guard (g : Globals) :
  negb (truthy_string (currentDomain g))
  || negb (truthy_number (sessionStartTime g))
  || negb (isWindowFocused g)
  = negb (tracking g).
Proof.
  unfold tracking.
  now destruct (truthy_string _), (truthy_number _), (isWindowFocused g).
Qed.

Lemma saveCurrentSession_guard_cases (now : Z) (g : Globals) :
  saveCurrentSession_guard now g
  = if tracking g && (1 <=? elapsedSeconds now g)
    then Some (mkPendingFlush (elapsedSeconds now g) (getDateKey now))
    else None.
Proof.
  unfold saveCurrentSession_guard, elapsedSeconds. rewrite tracking_guard.
  destruct (tracking g); simpl; [|reflexivity].
  set (s := (now - or_else (sessionStartTime g) 0) / 1000).
  destruct (Z.ltb_spec s 1), (Z.leb_spec 1 s); try lia; reflexivity.
Qed.

Lemma tracking_domain (g : Globals) :
  tracking g = true ->
  propertyKey (currentDomain g) = or_else (currentDomain g) "".
Proof.
  unfold tracking. destruct (currentDomain g); [reflexivity|discriminate].
Qed.

Lemma saveCurrentSession_outcome_cases (now : Z) (w : World) :
  saveCurrentSession_outcome now w
  = if rejected now w then None
    else Some
           (if tracking (globals w) && (1 <=? elapsedSeconds now (globals w))
            then mkWorld (globals w)
                   (upsertSession (or_else (currentDomain (globals w)) "")
                      (elapsedSeconds now (globals w)) (getDateKey now) now
                      (storage w))
            else w).
Proof.
  unfold saveCurrentSession_outcome, rejected.
  rewrite saveCurrentSession_guard_cases.
  destruct (tracking (globals w)) eqn:Ht; simpl; [|reflexivity].
  destruct (1 <=? elapsedSeconds now (globals w)); simpl; [|reflexivity].
  unfold saveCurrentSession_write. cbn [pending_seconds pending_dateKey].
  rewrite (tracking_domain _ Ht), recordSession_cases.
  destruct (inheritsRecord _ _); reflexivity.
Qed.

(** Where the flush is fulfilled, its world is that of the settled call;
    where it is rejected, the settled call has changed nothing. *)
Lemma saveCurrentSession_fulfilled (now : Z) (w w' : World) :
  saveCurrentSession_outcome now w = Some w' ->
  w' = saveCurrentSession now w.
Proof. unfold saveCurrentSession. now intros ->. Qed.

Lemma saveCurrentSession_rejected (now : Z) (w : World) :
  saveCurrentSession_outcome now w = None ->
  saveCurrentSession now w = w.
Proof. unfold saveCurrentSession. now intros ->. Qed.

Lemma saveCurrentSession_globals (now : Z) (w : World) :
  globals (saveCurrentSession now w) = globals w.
Proof.
  unfold saveCurrentSession. rewrite saveCurrentSession_outcome_cases.
  destruct (rejected now w); [reflexivity|]. simpl.
  now destruct (_ && _).
Qed.

Lemma saveCurrentSession_storage (now : Z) (w : World) :
  storage (saveCurrentSession now w)
  = if tracking (globals w) && (1 <=? elapsedSeconds now (globals w))
       && negb (inheritsRecord (or_else (currentDomain (globals w)) "")
                  (storage w))
    then upsertSession (or_else (currentDomain (globals w)) "")
           (elapsedSeconds now (globals w)) (getDateKey now) now (storage w)
    else storage w.
Proof.
  unfold saveCurrentSession. rewrite saveCurrentSession_outcome_cases.
  unfold rejected.
  destruct (tracking (globals w) && (1 <=? elapsedSeconds now (globals w)));
    simpl; [|reflexivity].
  now destruct (inheritsRecord _ _).
Qed.

Lemma saveCurrentSession_idle (now : Z) (w : World) :
  tracking (globals w) = false -> saveCurrentSession now w = w.
Proof.
  intros H. unfold saveCurrentSession.
  rewrite saveCurrentSession_outcome_cases. unfold rejected.
  rewrite H. reflexivity.
Qed.

(** The flush of a session on a domain that no lookup finds inherited is
    fulfilled. *)
Lemma plain_session_fulfilled (now : Z) (w : World) :
  plain_session (globals w) = true ->
  saveCurrentSession_outcome now w = Some (saveCurrentSession now w).
Proof.
  intros Hp. unfold saveCurrentSession.
  rewrite saveCurrentSession_outcome_cases.
  assert (Hr : rejected now w = false).
  { unfold rejected. destruct (tracking (globals w)) eqn:Ht; [|reflexivity].
    unfold plain_session in Hp. unfold tracking in Ht.
    destruct (currentDomain (globals w)) as [d|]; [|discriminate].
    cbn [or_else].
    rewrite (inheritsRecord_plain d (storage w) (proto_member_plain d Hp)).
    apply andb_false_r. }
  now rewrite Hr.
Qed.

Lemma saveCurrentSession_idle_outcome (now : Z) (w : World) :
  tracking (globals w) = false -> saveCurrentSession_outcome now w = Some w.
Proof.
  intros H. rewrite saveCurrentSession_outcome_cases. unfold rejected.
  rewrite H. reflexivity.
Qed.

Lemma World_eta (w : World) : mkWorld (globals w) (storage w) = w.
Proof. now destruct w. Qed.

(** C1, as the code has it: the flush changes nothing and is fulfilled
    when the window is not focused, when the domain or the start time is
    missing (or is the empty string or zero, which the guard treats alike),
    or when less than one whole second has elapsed; otherwise, for a domain
    whose name no lookup finds inherited, it records the domain, the whole
    seconds and the date key of the current time in the persisted document
    and is fulfilled.  In every case it leaves the session state as it
    found it.  The domain of the record is the one that is current when the
    storage read returns: the same domain when no other listener runs in
    between, and the value that a listener has assigned in between
    otherwise. *)
Theorem saveCurrentSession_contract (now : Z) (w : World) :
  globals (saveCurrentSession now w) = globals w
  /\ (isWindowFocused (globals w) = false
      \/ truthy_string (currentDomain (globals w)) = false
      \/ truthy_number (sessionStartTime (globals w)) = false
      \/ (now - or_else (sessionStartTime (globals w)) 0) / 1000 < 1 ->
      saveCurrentSession_outcome now w = Some w
      /\ saveCurrentSession now w = w)
  /\ (forall domain startedAt,
        isWindowFocused (globals w) = true ->
        currentDomain (globals w) = Some domain -> domain <> "" ->
        sessionStartTime (globals w) = Some startedAt -> startedAt <> 0 ->
        1 <= (now - startedAt) / 1000 ->
        (plain_key domain = true ->
         exists written,
           recordSession domain ((now - startedAt) / 1000) (getDateKey now)
             now (storage w) = Some written
           /\ saveCurrentSession_outcome now w
              = Some (mkWorld (globals w) written)
           /\ storage (saveCurrentSession now w) = written)
        /\ (forall now' result w' domain',
              currentDomain (globals w') = Some domain' ->
              plain_key domain' = true ->
              exists p written,
                saveCurrentSession_guard now (globals w) = Some p
                /\ recordSession domain' ((now - startedAt) / 1000)
                     (getDateKey now) now' result = Some written
                /\ saveCurrentSession_write p now' result w'
                   = Some (mkWorld (globals w')
                             (mkStorage (activityData written)
                                (dailyData written)
                                (lastCleanup (storage w')))))).
Proof.
  split; [apply saveCurrentSession_globals|]. split.
  - intros H.
    assert (Ho : saveCurrentSession_outcome now w = Some w).
    { rewrite saveCurrentSession_outcome_cases. unfold rejected.
      assert (Hg : tracking (globals w)
                   && (1 <=? elapsedSeconds now (globals w)) = false).
      { unfold tracking, elapsedSeconds.
        destruct H as [H|[H|[H|H]]].
        - rewrite H, !andb_false_r. reflexivity.
        - rewrite H. reflexivity.
        - rewrite H, andb_false_r. reflexivity.
        - destruct (Z.leb_spec 1
                      ((now - or_else (sessionStartTime (globals w)) 0)
                       / 1000)); [lia|].
          apply andb_false_r. }
      rewrite Hg. reflexivity. }
    split; [exact Ho|]. unfold saveCurrentSession. now rewrite Ho.
  - intros domain startedAt Hf Hd Hne Hs Hs0 Hsec.
    assert (Ht : tracking (globals w) = true).
    { unfold tracking. rewrite Hf, Hd, Hs. simpl.
      destruct (String.eqb_spec domain ""); [contradiction|].
      destruct (Z.eqb_spec startedAt 0); [contradiction|]. reflexivity. }
    assert (He : elapsedSeconds now (globals w) = (now - startedAt) / 1000).
    { unfold elapsedSeconds. now rewrite Hs. }
    assert (Hl : (1 <=? (now - startedAt) / 1000) = true)
      by now apply Z.leb_le.
    split.
    + intros Hp. apply proto_member_plain in Hp.
      exists (upsertSession domain ((now - startedAt) / 1000)
                (getDateKey now) now (storage w)).
      assert (Ho : saveCurrentSession_outcome now w
                   = Some (mkWorld (globals w)
                             (upsertSession domain ((now - startedAt) / 1000)
                                (getDateKey now) now (storage w)))).
      { rewrite saveCurrentSession_outcome_cases. unfold rejected.
        rewrite Ht, He, Hl, Hd. simpl.
        now rewrite (inheritsRecord_plain domain (storage w) Hp). }
      split; [|split].
      * rewrite recordSession_cases.
        now rewrite (inheritsRecord_plain domain (storage w) Hp).
      * exact Ho.
      * unfold saveCurrentSession. now rewrite Ho.
    + intros now' result w' domain' Hd' Hp. apply proto_member_plain in Hp.
      exists (mkPendingFlush ((now - startedAt) / 1000) (getDateKey now)),
             (upsertSession domain' ((now - startedAt) / 1000)
                (getDateKey now) now' result).
      split; [|split].
      * rewrite saveCurrentSession_guard_cases, Ht, He, Hl. reflexivity.
      * rewrite recordSession_cases.
        now rewrite (inheritsRecord_plain domain' result Hp).
      * unfold saveCurrentSession_write.
        cbn [pending_seconds pending_dateKey]. rewrite Hd'.
        cbn [propertyKey or_else]. rewrite recordSession_cases.
        now rewrite (inheritsRecord_plain domain' result Hp).
Qed.

(** A session of 400 ms is not recorded, one of five seconds is. *)
Lemma saveCurrentSession_contract_witness :
  (saveCurrentSession_outcome 1700000000400 sample_world = Some sample_world
   /\ saveCurrentSession 1700000000400 sample_world = sample_world)
  /\ exists written,
       recordSession "example.com" ((1700000005000 - 1700000000000) / 1000)
         (getDateKey 1700000005000) 1700000005000 (storage sample_world)
       = Some written
       /\ saveCurrentSession_outcome 1700000005000 sample_world
          = Some (mkWorld (globals sample_world) written)
       /\ storage (saveCurrentSession 1700000005000 sample_world) = written.
Proof.
  split.
  - apply (proj1 (proj2
             (saveCurrentSession_contract 1700000000400 sample_world))).
    right. right. right. reflexivity.
  - apply (proj1 (proj2 (proj2
             (saveCurrentSession_contract 1700000005000 sample_world))
             "example.com" 1700000000000 eq_refl eq_refl
             ltac:(discriminate) eq_refl ltac:(discriminate)
             ltac:(vm_compute; discriminate))).
    reflexivity.
Defined.

(** C1 as stated fails: a flush that records leaves the domain and the
    start time of the session set. *)
Lemma saveCurrentSession_keeps_session :
  storage (saveCurrentSession 1700000005000 sample_world)
  <> storage sample_world
  /\ currentDomain (globals (saveCurrentSession 1700000005000 sample_world))
     = Some "example.com"
  /\ sessionStartTime
       (globals (saveCurrentSession 1700000005000 sample_world))
     = Some 1700000000000.
Proof. repeat split. discriminate. Qed.

(** C2 as stated fails: a second flush right after the first, with no
    session opened in between, records the same interval again. *)
Lemma saveCurrentSession_twice_counts_twice :
  totalTimeOf "example.com"
    (storage (saveCurrentSession 1700000005000 sample_world)) = 5
  /\ totalTimeOf "example.com"
       (storage (saveCurrentSession 1700000005000
                   (saveCurrentSession 1700000005000 sample_world))) = 10
  /\ storage (saveCurrentSession 1700000005000
                (saveCurrentSession 1700000005000 sample_world))
     <> storage (saveCurrentSession 1700000005000 sample_world).
Proof. repeat split. discriminate. Qed.

(** ** The sweep *)

Lemma removeOld_kept (cutoffKey : string) (d : obj DayStat.t) :
  fst (removeOld cutoffKey d)
  = filter (fun kv => negb (String.ltb (fst kv) cutoffKey)) d.
Proof.
  induction d as [|[k v] d IH]; simpl; [reflexivity|].
  destruct (removeOld cutoffKey d) as [kept n]. simpl in IH.
  destruct (String.ltb k cutoffKey); simpl; congruence.
Qed.

Lemma removeOld_count (cutoffKey : string) (d : obj DayStat.t) :
  0 <= snd (removeOld cutoffKey d)
  /\ (0 <? snd (removeOld cutoffKey d))
     = existsb (fun k => String.ltb k cutoffKey) (obj_keys d).
Proof.
  induction d as [|[k v] d [IH0 IH]]; simpl; [split; [lia|reflexivity]|].
  destruct (removeOld cutoffKey d) as [kept n]. simpl in *.
  destruct (String.ltb k cutoffKey); simpl.
  - split; [lia|]. destruct (Z.ltb_spec 0 (n + 1)); [reflexivity|lia].
  - split; assumption.
Qed.

Lemma filter_obj_get {V : Type} (p : string -> bool) (k : string)
    (o : obj V) :
  obj_get k (filter (fun kv => p (fst kv)) o)
  = if p k then obj_get k o else None.
Proof.
  induction o as [|[k' v] o IH]; cbn [filter fst]; [now destruct (p k)|].
  destruct (p k') eqn:E; cbn [obj_get];
    destruct (String.eqb_spec k k') as [->|Hk].
  - now rewrite E.
  - exact IH.
  - rewrite IH, E. reflexivity.
  - exact IH.
Qed.

Section Sweep.
Variable LocalTZA : Z -> bool -> Z.

Lemma cleanupOldData_cases (now : Z) (st : Storage) :
  cleanupOldData LocalTZA now st
  = if now - number_or (lastCleanup st) 0 <? 24 * 60 * 60 * 1000 then st
    else if existsb
              (fun k => String.ltb k (getDateKey (cutoffTime LocalTZA now)))
              (obj_keys (or_else (dailyData st) []))
    then mkStorage (activityData st)
           (Some (filter
                    (fun kv =>
                       negb (String.ltb (fst kv)
                               (getDateKey (cutoffTime LocalTZA now))))
                    (or_else (dailyData st) [])))
           (Some now)
    else st.
Proof.
  unfold cleanupOldData.
  destruct (_ <? 24 * 60 * 60 * 1000); [reflexivity|].
  pose proof (removeOld_kept (getDateKey (cutoffTime LocalTZA now))
                (or_else (dailyData st) [])) as Hk.
  pose proof (removeOld_count (getDateKey (cutoffTime LocalTZA now))
                (or_else (dailyData st) [])) as [_ Hc].
  destruct (removeOld _ _) as [kept n]. simpl in Hk, Hc.
  rewrite Hc, Hk. reflexivity.
Qed.

(** C3, as the code has it: within 24 hours of [lastCleanup] the sweep
    changes nothing; later it removes exactly the days whose key is
    below the key of ninety days ago and, only when it removed at least
    one, writes the remaining days back and sets [lastCleanup] to now. *)
Theorem cleanupOldData_contract (now : Z) (st : Storage) :
  (now - number_or (lastCleanup st) 0 < 24 * 60 * 60 * 1000 ->
   cleanupOldData LocalTZA now st = st)
  /\ (24 * 60 * 60 * 1000 <= now - number_or (lastCleanup st) 0 ->
      (forall k, In k (obj_keys (or_else (dailyData st) [])) ->
         String.ltb k (getDateKey (cutoffTime LocalTZA now)) = false) ->
      cleanupOldData LocalTZA now st = st)
  /\ (forall old,
        24 * 60 * 60 * 1000 <= now - number_or (lastCleanup st) 0 ->
        In old (obj_keys (or_else (dailyData st) [])) ->
        String.ltb old (getDateKey (cutoffTime LocalTZA now)) = true ->
        activityData (cleanupOldData LocalTZA now st) = activityData st
        /\ lastCleanup (cleanupOldData LocalTZA now st) = Some now
        /\ dailyData (cleanupOldData LocalTZA now st)
           = Some (filter
                     (fun kv =>
                        negb (String.ltb (fst kv)
                                (getDateKey (cutoffTime LocalTZA now))))
                     (or_else (dailyData st) []))
        /\ forall k,
             obj_get k
               (or_else (dailyData (cleanupOldData LocalTZA now st)) [])
             = if String.ltb k (getDateKey (cutoffTime LocalTZA now))
               then None
               else obj_get k (or_else (dailyData st) [])).
Proof.
  rewrite cleanupOldData_cases. repeat split.
  - intros H. destruct (Z.ltb_spec (now - number_or (lastCleanup st) 0)
                          (24 * 60 * 60 * 1000)); [reflexivity|lia].
  - intros H Hall.
    destruct (Z.ltb_spec (now - number_or (lastCleanup st) 0)
                (24 * 60 * 60 * 1000)); [reflexivity|].
    destruct (existsb _ _) eqn:E; [|reflexivity].
    apply existsb_exists in E. destruct E as [k [Hin Hk]].
    rewrite (Hall k Hin) in Hk. discriminate.
  - destruct (Z.ltb_spec (now - number_or (lastCleanup st) 0)
                (24 * 60 * 60 * 1000)); [lia|].
    replace (existsb _ _) with true; [reflexivity|].
    symmetry. apply existsb_exists. eauto.
  - destruct (Z.ltb_spec (now - number_or (lastCleanup st) 0)
                (24 * 60 * 60 * 1000)); [lia|].
    replace (existsb _ _) with true; [reflexivity|].
    symmetry. apply existsb_exists. eauto.
  - destruct (Z.ltb_spec (now - number_or (lastCleanup st) 0)
                (24 * 60 * 60 * 1000)); [lia|].
    replace (existsb _ _) with true; [reflexivity|].
    symmetry. apply existsb_exists. eauto.
  - intros k.
    destruct (Z.ltb_spec (now - number_or (lastCleanup st) 0)
                (24 * 60 * 60 * 1000)); [lia|].
    replace (existsb _ _) with true by (symmetry; apply existsb_exists; eauto).
    simpl.
    rewrite (filter_obj_get
               (fun k => negb (String.ltb k
                                 (getDateKey (cutoffTime LocalTZA now))))).
    now destruct (String.ltb k _).
Qed.

Lemma cleanupOldData_activityData (now : Z) (st : Storage) :
  activityData (cleanupOldData LocalTZA now st) = activityData st.
Proof.
  rewrite cleanupOldData_cases.
  destruct (_ <? _); [reflexivity|]. now destruct (existsb _ _).
Qed.

(** C10: the sweep leaves the whole per-domain map as it was, the
    breakdown entries of the removed days included; it can change only
    the per-day map and [lastCleanup]. *)
Theorem cleanupOldData_frame (now : Z) (st : Storage) :
  activityData (cleanupOldData LocalTZA now st) = activityData st
  /\ forall domain dateKey,
       breakdownAt (cleanupOldData LocalTZA now st) domain dateKey
       = breakdownAt st domain dateKey.
Proof.
  split; [apply cleanupOldData_activityData|].
  intros domain dateKey. unfold breakdownAt.
  now rewrite cleanupOldData_activityData.
Qed.
End Sweep.

(** The three cases of the sweep on the sample documents. *)
Lemma cleanupOldData_contract_witness :
  cleanupOldData utc 1699910000001 aged_storage = aged_storage
  /\ cleanupOldData utc 1700000000000 recent_storage = recent_storage
  /\ lastCleanup (cleanupOldData utc 1700000000000 aged_storage)
     = Some 1700000000000
  /\ dailyData (cleanupOldData utc 1700000000000 aged_storage)
     = dailyData recent_storage.
Proof.
  split; [|split].
  - apply (proj1 (cleanupOldData_contract utc 1699910000001 aged_storage)).
    reflexivity.
  - apply (proj1 (proj2
             (cleanupOldData_contract utc 1700000000000 recent_storage))).
    + discriminate.
    + intros k [<-|[]]. reflexivity.
  - destruct (proj2 (proj2
                (cleanupOldData_contract utc 1700000000000 aged_storage))
                "2023-08-11") as [_ [Hl [Hd _]]].
    + discriminate.
    + left. reflexivity.
    + reflexivity.
    + split; [exact Hl|]. rewrite Hd. reflexivity.
Defined.

(** C3 as stated fails: the 24-hour gate has passed and no day is old
    enough to go, and [lastCleanup] keeps its old value. *)
Lemma cleanupOldData_keeps_marker :
  24 * 60 * 60 * 1000
  <= 1700000000000 - number_or (lastCleanup recent_storage) 0
  /\ lastCleanup (cleanupOldData utc 1700000000000 recent_storage)
     = Some 1699910000000
  /\ lastCleanup (cleanupOldData utc 1700000000000 recent_storage)
     <> Some 1700000000000.
Proof.
  split; [|split].
  - vm_compute. discriminate.
  - vm_compute. reflexivity.
  - vm_compute. discriminate.
Qed.

(** ** The listeners *)

(** The two outcomes of the flush that a listener awaits: fulfilled, with
    the world of the settled call, or rejected, with nothing changed. *)
Ltac flush_cases now w :=
  let w' := fresh "w'" in
  let Ho := fresh "Ho" in
  destruct (saveCurrentSession_outcome now w) as [w'|] eqn:Ho;
  [apply saveCurrentSession_fulfilled in Ho; subst w'
  |try (rewrite (saveCurrentSession_rejected now w Ho)); try reflexivity].

Section Listeners.
Variable URL : string -> option URLRecord.
Variable LocalTZA : Z -> bool -> Z.

Lemma trackFirst_storage (now : Z) (tabs : option (list Tab)) (w : World) :
  storage (trackFirst URL now tabs w) = storage w.
Proof.
  unfold trackFirst. destruct tabs as [[|tab tabs]|]; try reflexivity.
  now destruct (truthy_string _).
Qed.

(** What a listener does to the persisted document. *)
Lemma handle_storage (now : Z) (e : Event) (w : World) :
  storage (handle URL LocalTZA now e w)
  = match e with
    | Installed => initializeStorage now (storage w)
    | Startup _ => cleanupOldData LocalTZA now (storage w)
    | _ =>
        if flushes e (globals w) then storage (saveCurrentSession now w)
        else storage w
    end.
Proof.
  destruct e as [|tabId tab|tabId url|windowId tabs|name|tabs]; simpl.
  - reflexivity.
  - unfold onActivated. flush_cases now w.
    destruct tab as [tab|]; [|reflexivity]. now destruct (_ && _).
  - unfold onUpdated. destruct (_ && _); [|reflexivity].
    flush_cases now w. now destruct (_ && _).
  - unfold onFocusChanged. destruct (windowId =? WINDOW_ID_NONE).
    + flush_cases now w. reflexivity.
    + now rewrite trackFirst_storage.
  - unfold onAlarm. destruct (name =? "saveActivity")%string; [|reflexivity].
    now destruct (_ && _).
  - unfold onStartup. now rewrite trackFirst_storage.
Qed.

Lemma totalTimeOf_upsertSession (d domain : string) (seconds : Z)
    (dateKey : string) (now : Z) (st : Storage) :
  totalTimeOf d (upsertSession domain seconds dateKey now st)
  = totalTimeOf d st + (if (domain =? d)%string then seconds else 0).
Proof.
  unfold totalTimeOf, upsertSession; simpl.
  destruct (String.eqb_spec domain d) as [->|Hne].
  - rewrite upsertDomain_same. unfold domainBefore; simpl.
    now destruct (obj_get d (or_else (activityData st) [])).
  - rewrite upsertDomain_other by assumption.
    destruct (obj_get d (or_else (activityData st) [])); lia.
Qed.

Lemma totalTimeOf_initializeStorage (d : string) (now : Z) (st : Storage) :
  totalTimeOf d (initializeStorage now st) = totalTimeOf d st.
Proof.
  unfold totalTimeOf, initializeStorage.
  destruct (activityData st) eqn:E; [now rewrite E|reflexivity].
Qed.

(** *** Closing a session *)

Lemma tracking_no_start (g : Globals) :
  sessionStartTime g = None -> tracking g = false.
Proof.
  intros H. unfold tracking. rewrite H. simpl.
  now rewrite andb_false_r.
Qed.

(** A closing listener unsets the start time, unless its flush is
    rejected: then it has changed nothing. *)
Lemma closing_clears_start (now : Z) (e : Event) (w : World) :
  closing URL e (globals w) = true ->
  sessionStartTime (globals (handle URL LocalTZA now e w)) = None
  \/ (saveCurrentSession_outcome now w = None
      /\ handle URL LocalTZA now e w = w).
Proof.
  destruct e as [|tabId tab|tabId url|windowId tabs|name|tabs]; simpl;
    try discriminate.
  - destruct tab as [tab|]; [|discriminate]. intros H.
    unfold onActivated.
    destruct (saveCurrentSession_outcome now w) as [w'|] eqn:Ho;
      [|now right].
    apply saveCurrentSession_fulfilled in Ho. subst w'. left.
    rewrite saveCurrentSession_globals.
    apply negb_true_iff in H. rewrite H. reflexivity.
  - intros H. apply andb_true_iff in H. destruct H as [Hf H].
    unfold onUpdated. simpl in Hf. rewrite Hf.
    destruct (saveCurrentSession_outcome now w) as [w'|] eqn:Ho;
      [|now right].
    apply saveCurrentSession_fulfilled in Ho. subst w'. left.
    rewrite saveCurrentSession_globals.
    apply negb_true_iff in H. rewrite H. reflexivity.
  - intros H. unfold onFocusChanged. rewrite H.
    destruct (saveCurrentSession_outcome now w) as [w'|] eqn:Ho;
      [|now right].
    left. reflexivity.
Qed.

(** A flush that is rejected is rejected or skipped at every other time
    as well: the call changes nothing. *)
Lemma rejected_changes_nothing (now now' : Z) (w : World) :
  saveCurrentSession_outcome now w = None ->
  saveCurrentSession now' w = w.
Proof.
  rewrite saveCurrentSession_outcome_cases.
  destruct (rejected now w) eqn:Hr; [intros _|discriminate].
  unfold rejected in Hr. apply andb_true_iff in Hr. destruct Hr as [Hr Hi].
  apply andb_true_iff in Hr. destruct Hr as [Ht _].
  unfold saveCurrentSession. rewrite saveCurrentSession_outcome_cases.
  unfold rejected. rewrite Ht, Hi. simpl.
  now destruct (1 <=? elapsedSeconds now' (globals w)).
Qed.

(** C2, as the code has it: once a listener has closed the session (the
    window lost focus, or the tab it looked at gives nothing to track),
    a further flush changes nothing, and neither does a further closing
    listener: the elapsed time is counted once. *)
Theorem flush_after_close_is_noop (now : Z) (e : Event) (w : World) :
  closing URL e (globals w) = true ->
  (forall now', saveCurrentSession now' (handle URL LocalTZA now e w)
                = handle URL LocalTZA now e w)
  /\ (forall now' e',
        closing URL e' (globals (handle URL LocalTZA now e w)) = true ->
        storage (handle URL LocalTZA now' e' (handle URL LocalTZA now e w))
        = storage (handle URL LocalTZA now e w)).
Proof.
  intros H.
  assert (Hflush : forall now',
            saveCurrentSession now' (handle URL LocalTZA now e w)
            = handle URL LocalTZA now e w).
  { intros now'. destruct (closing_clears_start now e w H) as [Hs|[Ho Hw]].
    - apply saveCurrentSession_idle. now apply tracking_no_start.
    - rewrite Hw. now apply (rejected_changes_nothing now). }
  split; [exact Hflush|].
  intros now' e' H'. rewrite handle_storage, Hflush.
  destruct e'; try discriminate; now destruct (flushes _ _).
Qed.

(** *** The session state *)

Lemma trackFirst_start_has_domain (now : Z) (tabs : option (list Tab))
    (w : World) :
  start_has_domain (globals w) ->
  start_has_domain (globals (trackFirst URL now tabs w)).
Proof.
  intros H. unfold trackFirst. destruct tabs as [[|tab tabs]|]; try exact H.
  destruct (truthy_string _) eqn:E; [|exact H]. now right.
Qed.

Lemma handle_start_has_domain (now : Z) (e : Event) (w : World) :
  start_has_domain (globals w) ->
  start_has_domain (globals (handle URL LocalTZA now e w)).
Proof.
  intros H.
  destruct e as [|tabId tab|tabId url|windowId tabs|name|tabs]; simpl.
  - exact H.
  - unfold onActivated.
    destruct (saveCurrentSession_outcome now w) as [w'|] eqn:Ho;
      [|exact H].
    apply saveCurrentSession_fulfilled in Ho. subst w'.
    destruct tab as [tab|].
    + destruct (truthy_string _) eqn:E; simpl.
      * destruct (isWindowFocused _); [now right|now left].
      * now left.
    + now rewrite saveCurrentSession_globals.
  - unfold onUpdated. destruct (_ && _); [|exact H].
    destruct (saveCurrentSession_outcome now w) as [w'|] eqn:Ho;
      [|exact H].
    apply saveCurrentSession_fulfilled in Ho. subst w'.
    destruct (truthy_string (getDomainFromUrl _ _)) eqn:E; simpl.
    + destruct (isWindowFocused _); [now right|now left].
    + now left.
  - unfold onFocusChanged. destruct (windowId =? WINDOW_ID_NONE).
    + destruct (saveCurrentSession_outcome now w) as [w'|] eqn:Ho;
        [now left|exact H].
    + apply trackFirst_start_has_domain. exact H.
  - unfold onAlarm. destruct (name =? "saveActivity")%string; [|exact H].
    rewrite saveCurrentSession_globals.
    destruct (truthy_string (currentDomain (globals w))) eqn:E; simpl.
    + destruct (isWindowFocused (globals w)).
      * right. exact E.
      * now rewrite saveCurrentSession_globals.
    + now rewrite saveCurrentSession_globals.
  - unfold onStartup. apply trackFirst_start_has_domain. now left.
Qed.

(** C4, as the code has it: in every state that the listeners can reach
    from the initial one the start time is set only together with a
    non-empty domain, so a missing domain means a missing start time; the
    domain, however, may stay set while the start time is unset. *)
Theorem start_only_with_domain (trace : list (Z * Event)) :
  sessionStartTime (globals (run URL LocalTZA trace initial_world)) = None
  \/ truthy_string
       (currentDomain (globals (run URL LocalTZA trace initial_world)))
     = true.
Proof.
  assert (G : forall w, start_has_domain (globals w) ->
              start_has_domain (globals (run URL LocalTZA trace w))).
  { induction trace as [|[now e] trace IH]; intros w H; simpl.
    - exact H.
    - apply IH. now apply handle_start_has_domain. }
  apply (G initial_world). now left.
Qed.

(** *** Domain resolution *)

(** C8, as the code has it: a URL that the parser rejects has no domain;
    every URL that it accepts, whatever its scheme, has its host name as
    domain.  A tab whose URL has no domain or an empty host name is not
    tracked: the tab listeners clear the session state (where the
    session before, if any, is on a domain that no lookup finds inherited,
    so that its flush is fulfilled), the focus and start-up queries leave
    it alone, nothing is raised, and a flush without a domain is fulfilled
    and changes nothing. *)
Theorem unresolved_domain_is_skipped :
  (forall url, getDomainFromUrl URL url = None <-> URL url = None)
  /\ (forall url urlObj,
        URL url = Some urlObj ->
        getDomainFromUrl URL url = Some (hostname urlObj))
  /\ (forall now tabId tab w,
        truthy_string (getDomainFromUrl URL (tab_url tab)) = false ->
        plain_session (globals w) = true ->
        saveCurrentSession_outcome now w <> None
        /\ globals (onActivated URL now tabId (Some tab) w)
           = mkGlobals None None None (isWindowFocused (globals w)))
  /\ (forall now tabId url w,
        currentTabId (globals w) = Some tabId ->
        truthy_string (Some url) = true ->
        truthy_string (getDomainFromUrl URL url) = false ->
        plain_session (globals w) = true ->
        saveCurrentSession_outcome now w <> None
        /\ globals (onUpdated URL now tabId (Some url) w)
           = mkGlobals None None None (isWindowFocused (globals w)))
  /\ (forall now tab tabs w,
        truthy_string (getDomainFromUrl URL (tab_url tab)) = false ->
        trackFirst URL now (Some (tab :: tabs)) w = w)
  /\ (forall now w,
        truthy_string (currentDomain (globals w)) = false ->
        saveCurrentSession_outcome now w = Some w
        /\ saveCurrentSession now w = w).
Proof.
  split; [|split; [|split; [|split; [|split]]]].
  - intros url. unfold getDomainFromUrl. now destruct (URL url).
  - intros url urlObj H. unfold getDomainFromUrl. now rewrite H.
  - intros now tabId tab w H Hp.
    pose proof (plain_session_fulfilled now w Hp) as Ho.
    split; [now rewrite Ho|].
    unfold onActivated. rewrite Ho, H. simpl.
    now rewrite saveCurrentSession_globals.
  - intros now tabId url w Hc Hu H Hp.
    pose proof (plain_session_fulfilled now w Hp) as Ho.
    split; [now rewrite Ho|].
    unfold onUpdated. rewrite Hu, Hc, Z.eqb_refl, Ho. simpl.
    simpl in H. rewrite H. simpl.
    now rewrite saveCurrentSession_globals.
  - intros now tab tabs w H. unfold trackFirst. now rewrite H.
  - intros now w H.
    assert (Ht : tracking (globals w) = false)
      by (unfold tracking; now rewrite H).
    split.
    + now apply saveCurrentSession_idle_outcome.
    + now apply saveCurrentSession_idle.
Qed.
End Listeners.

(** A flush after the window lost focus. *)
Lemma flush_after_close_is_noop_witness :
  saveCurrentSession 1700000009000
    (handle sampleURL utc 1700000005000 (FocusChanged WINDOW_ID_NONE None)
       sample_world)
  = handle sampleURL utc 1700000005000 (FocusChanged WINDOW_ID_NONE None)
      sample_world.
Proof.
  apply (proj1 (flush_after_close_is_noop sampleURL utc 1700000005000
                  (FocusChanged WINDOW_ID_NONE None) sample_world eq_refl)).
Defined.

(** A session flushed by the alarm and again by the loss of focus: 60 and
    5 seconds, two visits, the 400 ms remainder dropped. *)
Example tick_then_focus_loss :
  option_map
    (fun e => (DomainStat.totalTime e, DomainStat.visits e))
    (obj_get "example.com"
       (or_else
          (activityData
             (storage (run sampleURL utc tick_trace initial_world)))
          []))
  = Some (65, 2).
Proof. vm_compute. reflexivity. Qed.

(** C6 fails on the code: a session on the host [constructor] (or
    [__proto__]) finds the inherited member where its record should be,
    creates no record and ends in the [TypeError] of line 82 before
    anything is written; the listener that awaits the flush ends with it,
    so that after the loss of focus the document is empty and the session
    state is as before, the window still taken as focused. *)
Lemma constructor_is_not_recorded :
  getDomainFromUrl sampleURL "https://constructor/" = Some "constructor"
  /\ recordSession "constructor" 5 "2023-11-14" 1700000005000 empty_storage
     = None
  /\ recordSession "__proto__" 5 "2023-11-14" 1700000005000 empty_storage
     = None
  /\ saveCurrentSession_outcome 1700000005000 constructor_world = None
  /\ run sampleURL utc constructor_trace initial_world = constructor_world.
Proof. repeat split. Qed.

(** C7 fails on the code: one session on [example.com] of ten seconds, in
    the middle of which a tab is activated that is gone when the listener
    asks for it.  That listener flushes five seconds and, in its [catch]
    branch, leaves the session state as it is; the loss of focus flushes
    the ten seconds since the start again.  Fifteen seconds are recorded
    for an interval of ten. *)
Lemma lost_tab_counts_twice :
  globals (run sampleURL utc (firstn 2 lost_tab_trace) initial_world)
  = sample_globals
  /\ totalTimeOf "example.com"
       (storage (run sampleURL utc (firstn 2 lost_tab_trace) initial_world))
     = 5
  /\ totalTimeOf "example.com"
       (storage (run sampleURL utc lost_tab_trace initial_world))
     = 15
  /\ (1700000010000 - 1700000000000) / 1000 = 10.
Proof. repeat split. Qed.

(** C4 as stated fails: after the window loses focus the domain is still
    set while the start time is unset. *)
Lemma domain_set_without_start :
  currentDomain
    (globals (run sampleURL utc focus_loss_trace initial_world))
  = Some "example.com"
  /\ sessionStartTime
       (globals (run sampleURL utc focus_loss_trace initial_world))
     = None.
Proof. split; reflexivity. Qed.

(** Resolution and the listeners on sample URLs. *)
Lemma unresolved_domain_is_skipped_witness :
  getDomainFromUrl sampleURL "https://example.com/a"
  = Some "example.com"
  /\ globals
       (onActivated sampleURL 1700000005000 9 (Some (mkTab 9 "not a url"))
          sample_world)
     = mkGlobals None None None true
  /\ globals
       (onUpdated sampleURL 1700000005000 7 (Some "about:blank")
          sample_world)
     = mkGlobals None None None true
  /\ trackFirst sampleURL 1700000005000 (Some [mkTab 9 "not a url"])
       initial_world
     = initial_world
  /\ saveCurrentSession_outcome 1700000005000 initial_world
     = Some initial_world
  /\ saveCurrentSession 1700000005000 initial_world = initial_world.
Proof.
  pose proof (unresolved_domain_is_skipped sampleURL)
    as [_ [Hhost [Hact [Hupd [Hfirst Hflush]]]]].
  split; [|split; [|split; [|split]]].
  - apply (Hhost "https://example.com/a" (mkURL "https:" "example.com")).
    reflexivity.
  - apply (Hact 1700000005000 9 (mkTab 9 "not a url") sample_world);
      reflexivity.
  - apply (Hupd 1700000005000 7 "about:blank" sample_world); reflexivity.
  - apply (Hfirst 1700000005000 (mkTab 9 "not a url") [] initial_world).
    reflexivity.
  - apply (Hflush 1700000005000 initial_world). reflexivity.
Defined.

(** C8 as stated fails: a URL that is not http, an internal page included,
    parses, has its host name as domain and opens a session. *)
Lemma non_http_url_is_tracked :
  option_map protocol (sampleURL "ftp://example.com/pub") = Some "ftp:"
  /\ getDomainFromUrl sampleURL "ftp://example.com/pub" = Some "example.com"
  /\ getDomainFromUrl sampleURL "chrome://newtab/" = Some "newtab"
  /\ globals
       (onActivated sampleURL 1700000000000 9
          (Some (mkTab 9 "ftp://example.com/pub")) initial_world)
     = mkGlobals (Some 9) (Some "example.com") (Some 1700000000000) true
  /\ tracking
       (globals
          (onActivated sampleURL 1700000000000 9
             (Some (mkTab 9 "chrome://newtab/")) initial_world))
     = true.
Proof. repeat split. Qed.

(** ** The invariants of the persisted document *)

Lemma breakdownAt_upsertSession (domain : string) (seconds : Z)
    (dateKey : string) (now : Z) (st : Storage) (d k : string) :
  breakdownAt (upsertSession domain seconds dateKey now st) d k
  = if (domain =? d)%string && (dateKey =? k)%string
    then Some (or_else (breakdownAt st d k) 0 + seconds)
    else breakdownAt st d k.
Proof.
  unfold breakdownAt, upsertSession; simpl.
  destruct (String.eqb_spec domain d) as [->|Hd]; simpl.
  - rewrite upsertDomain_same. simpl. unfold domainBefore.
    destruct (String.eqb_spec dateKey k) as [->|Hk].
    + rewrite addSeconds_same.
      now destruct (obj_get d (or_else (activityData st) [])).
    + rewrite addSeconds_other by assumption.
      now destruct (obj_get d (or_else (activityData st) [])).
  - now rewrite upsertDomain_other.
Qed.

Lemma daySecondsAt_upsertSession (domain : string) (seconds : Z)
    (dateKey : string) (now : Z) (st : Storage) (d k : string) :
  daySecondsAt (upsertSession domain seconds dateKey now st) k d
  = if (domain =? d)%string && (dateKey =? k)%string
    then Some (or_else (daySecondsAt st k d) 0 + seconds)
    else daySecondsAt st k d.
Proof.
  unfold daySecondsAt, upsertSession; simpl.
  destruct (String.eqb_spec dateKey k) as [->|Hk]; simpl.
  - rewrite bumpDay_same. simpl. unfold dayBefore.
    destruct (String.eqb_spec domain d) as [->|Hd]; simpl.
    + rewrite addSeconds_same.
      now destruct (obj_get k (or_else (dailyData st) [])).
    + rewrite addSeconds_other by assumption.
      now destruct (obj_get k (or_else (dailyData st) [])).
  - rewrite bumpDay_other by assumption. now rewrite andb_false_r.
Qed.

Lemma upsertSession_sums_ok (domain : string) (seconds : Z)
    (dateKey : string) (now : Z) (st : Storage) :
  sums_ok st -> sums_ok (upsertSession domain seconds dateKey now st).
Proof.
  intros [Ha Hd]. split; unfold upsertSession; simpl.
  - intros d e. destruct (String.eqb_spec domain d) as [->|Hne].
    + rewrite upsertDomain_same. intros [= <-]. simpl.
      rewrite addSeconds_sum. unfold domainBefore.
      destruct (obj_get d (or_else (activityData st) [])) as [e0|] eqn:E;
        simpl; [|reflexivity].
      now rewrite (Ha d e0 E).
    + rewrite upsertDomain_other by assumption. apply Ha.
  - intros k e. destruct (String.eqb_spec dateKey k) as [->|Hne].
    + rewrite bumpDay_same. intros [= <-]. simpl.
      rewrite addSeconds_sum. unfold dayBefore.
      destruct (obj_get k (or_else (dailyData st) [])) as [e0|] eqn:E;
        simpl; [|reflexivity].
      now rewrite (Hd k e0 E).
    + rewrite bumpDay_other by assumption. apply Hd.
Qed.

Lemma upsertSession_cross_ok (domain : string) (seconds : Z)
    (dateKey : string) (now : Z) (st : Storage) :
  cross_ok st -> cross_ok (upsertSession domain seconds dateKey now st).
Proof.
  intros H d k.
  rewrite breakdownAt_upsertSession, daySecondsAt_upsertSession, (H d k).
  reflexivity.
Qed.

Lemma initializeStorage_sums_ok (now : Z) (st : Storage) :
  sums_ok st -> sums_ok (initializeStorage now st).
Proof.
  intros H. unfold initializeStorage.
  destruct (activityData st); [exact H|]. split; discriminate.
Qed.

Lemma initializeStorage_cross_ok (now : Z) (st : Storage) :
  cross_ok st -> cross_ok (initializeStorage now st).
Proof.
  intros H. unfold initializeStorage.
  destruct (activityData st); [exact H|]. intros d k. reflexivity.
Qed.

Section Invariants.
Variable LocalTZA : Z -> bool -> Z.

Lemma cleanupOldData_daySecondsAt (now : Z) (st : Storage)
    (k d : string) (v : Z) :
  daySecondsAt (cleanupOldData LocalTZA now st) k d = Some v ->
  daySecondsAt st k d = Some v.
Proof.
  rewrite cleanupOldData_cases.
  destruct (_ <? _); [easy|]. destruct (existsb _ _); [|easy].
  unfold daySecondsAt; simpl.
  rewrite (filter_obj_get
             (fun k => negb (String.ltb k
                               (getDateKey (cutoffTime LocalTZA now))))).
  now destruct (negb _).
Qed.

Lemma cleanupOldData_sums_ok (now : Z) (st : Storage) :
  sums_ok st -> sums_ok (cleanupOldData LocalTZA now st).
Proof.
  intros [Ha Hd]. split.
  - rewrite cleanupOldData_activityData. exact Ha.
  - rewrite cleanupOldData_cases.
    destruct (_ <? _); [exact Hd|]. destruct (existsb _ _); [|exact Hd].
    simpl. intros k e.
    rewrite (filter_obj_get
               (fun k => negb (String.ltb k
                                 (getDateKey (cutoffTime LocalTZA now))))).
    destruct (negb _); [apply Hd|discriminate].
Qed.

Lemma cleanupOldData_day_side_ok (now : Z) (st : Storage) :
  day_side_ok st -> day_side_ok (cleanupOldData LocalTZA now st).
Proof.
  intros H d k v Hv. apply cleanupOldData_daySecondsAt in Hv.
  unfold breakdownAt. rewrite cleanupOldData_activityData.
  now apply H.
Qed.

Lemma mutate_sums_ok (m : Mutation) (st : Storage) :
  sums_ok st -> sums_ok (mutate LocalTZA m st).
Proof.
  intros H. destruct m as [now g|now|now]; simpl.
  - rewrite saveCurrentSession_storage. simpl.
    destruct (_ && _); [now apply upsertSession_sums_ok|exact H].
  - now apply cleanupOldData_sums_ok.
  - now apply initializeStorage_sums_ok.
Qed.

Lemma mutate_cross_ok (m : Mutation) (st : Storage) :
  is_sweep m = false -> cross_ok st -> cross_ok (mutate LocalTZA m st).
Proof.
  intros Hm H. destruct m as [now g|now|now]; simpl; [|discriminate|].
  - rewrite saveCurrentSession_storage. simpl.
    destruct (_ && _); [now apply upsertSession_cross_ok|exact H].
  - now apply initializeStorage_cross_ok.
Qed.

Lemma swept_app (cs cs' : list string) (k : string) :
  swept (cs ++ cs') k = swept cs k || swept cs' k.
Proof. unfold swept. apply existsb_app. Qed.

(** A flush that records under a date that is not below a cutoff key
    keeps the agreement of the two maps, on both sides. *)
Lemma upsertSession_agreement (cs : list string) (domain : string)
    (seconds : Z) (dateKey : string) (now : Z) (st : Storage) :
  swept cs dateKey = false ->
  day_side_ok st -> domain_side_ok cs st ->
  day_side_ok (upsertSession domain seconds dateKey now st)
  /\ domain_side_ok cs (upsertSession domain seconds dateKey now st).
Proof.
  intros Hsw Hday Hdom.
  assert (Heq : or_else (daySecondsAt st dateKey domain) 0
                = or_else (breakdownAt st domain dateKey) 0).
  { destruct (daySecondsAt st dateKey domain) as [v|] eqn:E1.
    - now rewrite (Hday _ _ _ E1).
    - destruct (breakdownAt st domain dateKey) as [v|] eqn:E2;
        [|reflexivity].
      destruct (Hdom _ _ _ E2) as [E|E]; congruence. }
  split.
  - intros d k v.
    rewrite daySecondsAt_upsertSession, breakdownAt_upsertSession.
    destruct (String.eqb_spec domain d) as [<-|Hd];
      [destruct (String.eqb_spec dateKey k) as [<-|Hk]|]; cbn [andb].
    + now rewrite Heq.
    + apply Hday.
    + apply Hday.
  - intros d k v.
    rewrite daySecondsAt_upsertSession, breakdownAt_upsertSession.
    destruct (String.eqb_spec domain d) as [<-|Hd];
      [destruct (String.eqb_spec dateKey k) as [<-|Hk]|]; cbn [andb].
    + intros H. left. now rewrite Heq.
    + apply Hdom.
    + apply Hdom.
Qed.

(** A sweep leaves the seconds of a day as they are, or the day is below
    its cutoff key. *)
Lemma cleanupOldData_daySecondsAt_cases (now : Z) (st : Storage)
    (k d : string) :
  daySecondsAt (cleanupOldData LocalTZA now st) k d = daySecondsAt st k d
  \/ String.ltb k (getDateKey (cutoffTime LocalTZA now)) = true.
Proof.
  rewrite cleanupOldData_cases.
  destruct (_ <? _); [now left|]. destruct (existsb _ _); [|now left].
  unfold daySecondsAt; simpl.
  rewrite (filter_obj_get
             (fun k => negb (String.ltb k
                               (getDateKey (cutoffTime LocalTZA now))))).
  destruct (String.ltb k (getDateKey (cutoffTime LocalTZA now)));
    [now right|now left].
Qed.

Lemma mutate_agreement (cs : list string) (m : Mutation) (st : Storage) :
  orderly LocalTZA cs [m] = true ->
  day_side_ok st -> domain_side_ok cs st ->
  day_side_ok (mutate LocalTZA m st)
  /\ domain_side_ok (cs ++ cutoffKeys LocalTZA [m]) (mutate LocalTZA m st).
Proof.
  intros Ho Hday Hdom. destruct m as [now g|now|now]; cbn [mutate cutoffKeys].
  - rewrite app_nil_r, saveCurrentSession_storage. cbn [globals storage].
    destruct (_ && _); [|now split].
    apply upsertSession_agreement; try assumption.
    cbn [orderly] in Ho. rewrite andb_true_r in Ho.
    now apply negb_true_iff in Ho.
  - split; [now apply cleanupOldData_day_side_ok|].
    intros d k v Hb. unfold breakdownAt in Hb.
    rewrite cleanupOldData_activityData in Hb.
    rewrite swept_app. unfold swept at 2. cbn [existsb].
    destruct (Hdom d k v Hb) as [E|E].
    + destruct (cleanupOldData_daySecondsAt_cases now st k d) as [E'|E'].
      * left. now rewrite E'.
      * right. rewrite E'. now rewrite orb_true_r.
    + right. now rewrite E.
  - rewrite app_nil_r. unfold initializeStorage.
    destruct (activityData st); [now split|].
    split; intros d k v; discriminate.
Qed.

Lemma orderly_cons (cs : list string) (m : Mutation) (ms : list Mutation) :
  orderly LocalTZA cs (m :: ms)
  = orderly LocalTZA cs [m]
    && orderly LocalTZA (cs ++ cutoffKeys LocalTZA [m]) ms.
Proof.
  destruct m as [now g|now|now]; cbn [orderly cutoffKeys];
    rewrite ?app_nil_r, ?andb_true_r; reflexivity.
Qed.

Lemma cutoffKeys_cons (m : Mutation) (ms : list Mutation) :
  cutoffKeys LocalTZA (m :: ms)
  = (cutoffKeys LocalTZA [m] ++ cutoffKeys LocalTZA ms)%list.
Proof. now destruct m. Qed.

(** Along a history that does not go back behind a sweep the two maps
    agree on every pair of the per-day map, and on every pair of the
    per-domain map whose date is not below a cutoff key. *)
Lemma mutateAll_agreement (ms : list Mutation) :
  forall cs st,
    orderly LocalTZA cs ms = true ->
    day_side_ok st -> domain_side_ok cs st ->
    day_side_ok (mutateAll LocalTZA ms st)
    /\ domain_side_ok (cs ++ cutoffKeys LocalTZA ms)
         (mutateAll LocalTZA ms st).
Proof.
  induction ms as [|m ms IH]; intros cs st Ho Hday Hdom.
  - simpl. rewrite app_nil_r. now split.
  - rewrite orderly_cons in Ho. apply andb_true_iff in Ho.
    destruct Ho as [Hm Hms].
    destruct (mutate_agreement cs m st Hm Hday Hdom) as [Hday' Hdom'].
    rewrite cutoffKeys_cons, app_assoc.
    exact (IH _ _ Hms Hday' Hdom').
Qed.

(** C5, as the code has it, for the histories of flushes, sweeps and
    initialisations from the empty document whose sessions are on domains
    that no lookup finds inherited (a flush of the host [__proto__] leaves
    properties on [Object.prototype] that the flushes after it would
    read): after every flush and every sweep both sum identities hold.  A
    sweep removes days from the per-day map only, so the per-domain
    breakdowns keep the removed dates.  Along every history in which no
    flush is dated below the cutoff key of an earlier sweep, the two maps
    agree on every pair present in the per-day map and on every pair
    present in the per-domain map whose date is not below the cutoff key
    of a sweep of the history; in a history without a sweep they agree on
    every pair present in either, and one sweep keeps the agreement of
    every pair present in the per-day map, whatever the document. *)
Theorem storage_invariants (ms : list Mutation) :
  plain_history ms = true ->
  sums_ok (mutateAll LocalTZA ms empty_storage)
  /\ (orderly LocalTZA [] ms = true ->
      day_side_ok (mutateAll LocalTZA ms empty_storage)
      /\ domain_side_ok (cutoffKeys LocalTZA ms)
           (mutateAll LocalTZA ms empty_storage))
  /\ (forallb (fun m => negb (is_sweep m)) ms = true ->
      cross_ok (mutateAll LocalTZA ms empty_storage))
  /\ (forall now st,
        day_side_ok st -> day_side_ok (cleanupOldData LocalTZA now st)).
Proof.
  intros _. split; [|split; [|split]].
  - assert (G : forall st, sums_ok st ->
                  sums_ok (mutateAll LocalTZA ms st)).
    { induction ms as [|m ms IH]; intros st H; simpl; [exact H|].
      apply IH. now apply mutate_sums_ok. }
    apply G. split; discriminate.
  - intros Ho.
    apply (mutateAll_agreement ms [] empty_storage Ho);
      intros d k v; discriminate.
  - assert (G : forall st,
              forallb (fun m => negb (is_sweep m)) ms = true ->
              cross_ok st -> cross_ok (mutateAll LocalTZA ms st)).
    { induction ms as [|m ms IH]; intros st Hms H; simpl; [exact H|].
      simpl in Hms. apply andb_true_iff in Hms. destruct Hms as [Hm Hms].
      apply IH; [exact Hms|]. apply mutate_cross_ok; [|exact H].
      now apply negb_true_iff. }
    intros Hms. apply G; [exact Hms|]. intros d k. reflexivity.
  - intros now st. apply cleanupOldData_day_side_ok.
Qed.
End Invariants.

(** The agreement of the maps after a flush, a sweep that removes its day
    and a flush of a later day; after an initialisation and a flush; and
    after the sweep that removes the one day of a document. *)
Lemma storage_invariants_witness :
  (day_side_ok (mutateAll utc flush_sweep_flush empty_storage)
   /\ domain_side_ok (cutoffKeys utc flush_sweep_flush)
        (mutateAll utc flush_sweep_flush empty_storage))
  /\ cross_ok
       (mutateAll utc [Init 1699990000000; Flush 1700000005000 sample_globals]
          empty_storage)
  /\ day_side_ok
       (cleanupOldData utc 1708640005000
          (mutateAll utc [Flush 1700000005000 sample_globals]
             empty_storage)).
Proof.
  split; [|split].
  - apply (proj1 (proj2 (storage_invariants utc flush_sweep_flush eq_refl))).
    reflexivity.
  - apply (proj1 (proj2 (proj2
             (storage_invariants utc
                [Init 1699990000000; Flush 1700000005000 sample_globals]
                eq_refl)))).
    reflexivity.
  - apply (proj2 (proj2 (proj2 (storage_invariants utc [] eq_refl)))
             1708640005000
             (mutateAll utc [Flush 1700000005000 sample_globals]
                empty_storage)).
    apply (proj1 (proj2
             (storage_invariants utc
                [Flush 1700000005000 sample_globals] eq_refl))).
    reflexivity.
Defined.

(** C5 as stated fails: after a flush and a later sweep the per-domain
    breakdown still has the seconds of a date that the per-day map no
    longer has. *)
Lemma sweep_breaks_pairwise_agreement :
  breakdownAt (mutateAll utc flush_then_sweep empty_storage)
    "example.com" "2023-11-14" = Some 5
  /\ daySecondsAt (mutateAll utc flush_then_sweep empty_storage)
       "2023-11-14" "example.com" = None
  /\ ~ cross_ok (mutateAll utc flush_then_sweep empty_storage).
Proof.
  split; [reflexivity|]. split; [reflexivity|].
  intros H. specialize (H "example.com" "2023-11-14").
  vm_compute in H. discriminate H.
Qed.

(** ** The reporter *)

Lemma obj_get_of_In {V : Type} (k : string) (v : V) (o : obj V) :
  NoDup (obj_keys o) -> In (k, v) o -> obj_get k o = Some v.
Proof.
  induction o as [|[k' v'] o IH]; simpl; [contradiction|].
  intros Hnd [H|H].
  - injection H as -> ->. now rewrite String.eqb_refl.
  - inversion Hnd as [|? ? Hnot Hnd']; subst.
    destruct (String.eqb_spec k k') as [->|Hk].
    + exfalso. apply Hnot. apply (in_map fst) in H. exact H.
    + now apply IH.
Qed.

Lemma obj_keys_set_In {V : Type} (k : string) (v : V) (o : obj V)
    (d : string) :
  In d (obj_keys (obj_set k v o)) <-> In d (obj_keys o) \/ d = k.
Proof.
  rewrite obj_keys_set. destruct (obj_get k o) as [v0|] eqn:E.
  - split; [tauto|]. intros [H | ->]; [exact H|].
    apply obj_get_In in E. apply (in_map fst) in E. exact E.
  - rewrite in_app_iff. simpl. intuition congruence.
Qed.

Lemma obj_keys_set_NoDup {V : Type} (k : string) (v : V) (o : obj V) :
  NoDup (obj_keys o) -> NoDup (obj_keys (obj_set k v o)).
Proof.
  intros H. rewrite obj_keys_set. destruct (obj_get k o) eqn:E; [exact H|].
  apply obj_get_None in E.
  apply NoDup_app; [exact H| |].
  - constructor; [intros Hin; destruct Hin|constructor].
  - intros x Hx Hin. destruct Hin as [<-|Hin]; [contradiction|destruct Hin].
Qed.

(** *** Sorting by time *)

Lemma insertByTime_perm (x : string * SiteStat.t)
    (l : list (string * SiteStat.t)) :
  Permutation (x :: l) (insertByTime x l).
Proof.
  induction l as [|y l IH]; simpl; [reflexivity|].
  destruct (_ <? _); [|reflexivity].
  rewrite perm_swap. now constructor.
Qed.

Lemma sortByTime_perm (l : list (string * SiteStat.t)) :
  Permutation l (sortByTime l).
Proof.
  induction l as [|x l IH]; simpl; [constructor|].
  rewrite <- insertByTime_perm. now constructor.
Qed.

Lemma insertByTime_sorted (x : string * SiteStat.t)
    (l : list (string * SiteStat.t)) :
  Sorted byTimeDesc l -> Sorted byTimeDesc (insertByTime x l).
Proof.
  induction l as [|y l IH]; simpl; intros H.
  - repeat constructor.
  - destruct (Z.ltb_spec (SiteStat.time (snd x)) (SiteStat.time (snd y))).
    + inversion H as [|? ? Hs Hh]; subst. constructor; [now apply IH|].
      destruct l as [|z l]; simpl.
      * constructor. unfold byTimeDesc. lia.
      * destruct (_ <? _).
        -- inversion Hh; subst. now constructor.
        -- constructor. unfold byTimeDesc. lia.
    + constructor; [exact H|]. constructor. unfold byTimeDesc. lia.
Qed.

Lemma sortByTime_sorted (l : list (string * SiteStat.t)) :
  StronglySorted byTimeDesc (sortByTime l).
Proof.
  apply Sorted_StronglySorted.
  - intros a b c. unfold byTimeDesc. lia.
  - induction l as [|x l IH]; simpl; [constructor|].
    now apply insertByTime_sorted.
Qed.

(** *** The two loops *)

Section Aggregation.
Variable activityData : obj DomainStat.t.
Variable now : Z.
Variable startDate : option string.
Variable today : string.

Lemma addTime_same (ds : obj SiteStat.t) (tt : Z) (domain : string)
    (t : Z) :
  obj_get domain (fst (addTime activityData now (ds, tt) (domain, t)))
  = Some (SiteStat.Build
            (SiteStat.time
               (or_else (obj_get domain ds)
                  (freshSite activityData now domain)) + t)
            (SiteStat.visits
               (or_else (obj_get domain ds)
                  (freshSite activityData now domain)))
            (SiteStat.lastVisit
               (or_else (obj_get domain ds)
                  (freshSite activityData now domain)))).
Proof.
  unfold addTime; simpl. rewrite obj_get_set_same.
  destruct (obj_get domain ds) as [e|] eqn:E; simpl.
  - now rewrite E.
  - now rewrite obj_get_set_same.
Qed.

Lemma addTime_other (ds : obj SiteStat.t) (tt : Z) (domain d : string)
    (t : Z) :
  domain <> d ->
  obj_get d (fst (addTime activityData now (ds, tt) (domain, t)))
  = obj_get d ds.
Proof.
  intros Hne. unfold addTime; simpl.
  rewrite obj_get_set_other by assumption.
  destruct (obj_get domain ds); [reflexivity|].
  now apply obj_get_set_other.
Qed.

Lemma addTime_keys (ds : obj SiteStat.t) (tt : Z) (domain d : string)
    (t : Z) :
  In d (obj_keys (fst (addTime activityData now (ds, tt) (domain, t))))
  <-> In d (obj_keys ds) \/ d = domain.
Proof.
  unfold addTime; simpl. rewrite obj_keys_set_In.
  destruct (obj_get domain ds); [reflexivity|].
  rewrite obj_keys_set_In. tauto.
Qed.

Lemma addTime_NoDup (ds : obj SiteStat.t) (tt : Z) (domain : string)
    (t : Z) :
  NoDup (obj_keys ds) ->
  NoDup (obj_keys (fst (addTime activityData now (ds, tt) (domain, t)))).
Proof.
  intros H. unfold addTime; simpl. apply obj_keys_set_NoDup.
  destruct (obj_get domain ds); [exact H|].
  now apply obj_keys_set_NoDup.
Qed.

Lemma addTime_siteTime (ds : obj SiteStat.t) (tt : Z) (domain d : string)
    (t : Z) :
  siteTime d (fst (addTime activityData now (ds, tt) (domain, t)))
  = siteTime d ds + (if (domain =? d)%string then t else 0).
Proof.
  unfold siteTime. destruct (String.eqb_spec domain d) as [->|Hne].
  - rewrite addTime_same. simpl. now destruct (obj_get d ds).
  - rewrite addTime_other by assumption. destruct (obj_get d ds); lia.
Qed.

Lemma addTime_noVisitsYet (ds : obj SiteStat.t) (tt : Z) (domain : string)
    (t : Z) :
  noVisitsYet ds ->
  noVisitsYet (fst (addTime activityData now (ds, tt) (domain, t))).
Proof.
  intros H d e. destruct (String.eqb_spec domain d) as [->|Hne].
  - rewrite addTime_same. intros [= <-]. simpl.
    destruct (obj_get d ds) as [e0|] eqn:E; simpl; [|reflexivity].
    now apply (H d).
  - rewrite addTime_other by assumption. apply H.
Qed.

(** The inner loop, from any accumulator. *)
Lemma fold_addTime (l : obj Z) (acc : obj SiteStat.t * Z) :
  (forall d,
     siteTime d (fst (fold_left (addTime activityData now) l acc))
     = siteTime d (fst acc) + secondsIn d l)
  /\ (forall d,
        In d (obj_keys (fst (fold_left (addTime activityData now) l acc)))
        <-> In d (obj_keys (fst acc)) \/ In d (obj_keys l))
  /\ (NoDup (obj_keys (fst acc)) ->
      NoDup (obj_keys (fst (fold_left (addTime activityData now) l acc))))
  /\ (noVisitsYet (fst acc) ->
      noVisitsYet (fst (fold_left (addTime activityData now) l acc))).
Proof.
  revert acc. induction l as [|[domain t] l IH]; intros [ds tt].
  - simpl. repeat split; try tauto. intros d. lia.
  - cbn [fold_left].
    destruct (IH (addTime activityData now (ds, tt) (domain, t)))
      as [Ht [Hk [Hn Hv]]].
    repeat split.
    + intros d. rewrite Ht, addTime_siteTime.
      unfold secondsIn. cbn [fold_right fst snd].
      destruct (domain =? d)%string; lia.
    + rewrite Hk, addTime_keys. simpl. intuition congruence.
    + rewrite Hk, addTime_keys. simpl. intuition congruence.
    + intros H. apply Hn. now apply addTime_NoDup.
    + intros H. apply Hv. now apply addTime_noVisitsYet.
Qed.

Lemma rangeTime_cons (dateKey : string) (day : DayStat.t)
    (l : obj DayStat.t) (d : string) :
  rangeTime startDate today ((dateKey, day) :: l) d
  = if inRange startDate today dateKey
    then secondsOfDay d day + rangeTime startDate today l d
    else rangeTime startDate today l d.
Proof. reflexivity. Qed.

Lemma inRangeDomain_cons (dateKey : string) (day : DayStat.t)
    (l : obj DayStat.t) (d : string) :
  inRangeDomain startDate today ((dateKey, day) :: l) d
  <-> (inRange startDate today dateKey = true
       /\ In d (obj_keys (DayStat.domains day)))
      \/ inRangeDomain startDate today l d.
Proof.
  unfold inRangeDomain. split.
  - intros [k [dy [[Heq|Hin] [Hr Hd]]]].
    + injection Heq as <- <-. now left.
    + right. exists k, dy. auto.
  - intros [[Hr Hd]|[k [dy [Hin [Hr Hd]]]]].
    + exists dateKey, day. simpl. auto.
    + exists k, dy. simpl. auto.
Qed.

(** The outer loop, from any accumulator. *)
Lemma fold_addDay (l : obj DayStat.t) (acc : obj SiteStat.t * Z) :
  (forall d,
     siteTime d
       (fst (fold_left (addDay activityData now startDate today) l acc))
     = siteTime d (fst acc) + rangeTime startDate today l d)
  /\ (forall d,
        In d (obj_keys
                (fst (fold_left (addDay activityData now startDate today)
                        l acc)))
        <-> In d (obj_keys (fst acc))
            \/ inRangeDomain startDate today l d)
  /\ (NoDup (obj_keys (fst acc)) ->
      NoDup (obj_keys
               (fst (fold_left (addDay activityData now startDate today)
                       l acc))))
  /\ (noVisitsYet (fst acc) ->
      noVisitsYet
        (fst (fold_left (addDay activityData now startDate today) l acc))).
Proof.
  revert acc. induction l as [|[dateKey day] l IH]; intros acc.
  - simpl. repeat split; try tauto.
    + intros d. unfold rangeTime. simpl. lia.
    + intros [H|[k [dy [Hin _]]]]; [exact H|destruct Hin].
  - cbn [fold_left].
    destruct (IH (addDay activityData now startDate today acc
                    (dateKey, day))) as [Ht [Hk [Hn Hv]]].
    clear IH.
    assert (Hstep :
      addDay activityData now startDate today acc (dateKey, day)
      = if inRange startDate today dateKey
        then fold_left (addTime activityData now) (DayStat.domains day) acc
        else acc) by reflexivity.
    rewrite Hstep in Ht, Hk, Hn, Hv.
    destruct (fold_addTime (DayStat.domains day) acc)
      as [Ht' [Hk' [Hn' Hv']]].
    repeat split.
    + intros d. rewrite Ht, rangeTime_cons.
      destruct (inRange startDate today dateKey); [|reflexivity].
      rewrite Ht'. unfold secondsOfDay. lia.
    + rewrite Hk, inRangeDomain_cons.
      destruct (inRange startDate today dateKey); [|tauto].
      rewrite Hk'. tauto.
    + rewrite Hk, inRangeDomain_cons.
      destruct (inRange startDate today dateKey).
      * rewrite Hk'. tauto.
      * intros [H|[[H _]|H]]; [tauto|discriminate|tauto].
    + intros H. apply Hn.
      destruct (inRange startDate today dateKey); [now apply Hn'|exact H].
    + intros H. apply Hv.
      destruct (inRange startDate today dateKey); [now apply Hv'|exact H].
Qed.
End Aggregation.

Section Visits.
Variable startDate : option string.
Variable today : string.

(** The loop over the breakdown is the sum, in the order of the dates,
    of the buckets of the dates in the range with positive seconds. *)
Lemma visitsInRange_fold (domainData : DomainStat.t) :
  visitsInRange startDate today domainData
  = fold_left PrimFloat.add
      (map (fun kv : string * Z => bucketVisits domainData (snd kv))
         (filter
            (fun kv : string * Z =>
               inRange startDate today (fst kv) && (0 <? snd kv))
            (DomainStat.dailyBreakdown domainData)))
      (js_of_Z 0).
Proof.
  unfold visitsInRange. generalize (js_of_Z 0).
  induction (DomainStat.dailyBreakdown domainData) as [|[date seconds] l IH];
    intros v0; simpl; [reflexivity|].
  destruct (inRange startDate today date && (0 <? seconds)); simpl;
    apply IH.
Qed.

Lemma addVisits_get (ds : obj SiteStat.t) (tv : float) (domain : string)
    (domainData : DomainStat.t) (d : string) :
  obj_get d (fst (addVisits startDate today (ds, tv) (domain, domainData)))
  = match obj_get d ds with
    | Some e =>
        Some (if (domain =? d)%string
              then SiteStat.Build (SiteStat.time e)
                     (visitsInRange startDate today domainData)
                     (SiteStat.lastVisit e)
              else e)
    | None => None
    end.
Proof.
  unfold addVisits. destruct (String.eqb_spec domain d) as [->|Hne].
  - destruct (obj_get d ds) as [e|] eqn:E; simpl.
    + apply obj_get_set_same.
    + exact E.
  - destruct (obj_get domain ds) as [e|] eqn:E; simpl.
    + rewrite obj_get_set_other by assumption. now destruct (obj_get d ds).
    + now destruct (obj_get d ds).
Qed.

Lemma addVisits_keys (ds : obj SiteStat.t) (tv : float) (domain : string)
    (domainData : DomainStat.t) :
  obj_keys (fst (addVisits startDate today (ds, tv) (domain, domainData)))
  = obj_keys ds.
Proof.
  unfold addVisits. destruct (obj_get domain ds) as [e|] eqn:E; simpl.
  - rewrite obj_keys_set, E. reflexivity.
  - reflexivity.
Qed.

(** The loop over [activityData], from any accumulator: the keys stay,
    and a record gets the visits of its domain when the domain has
    lifetime data. *)
Lemma fold_addVisits (l : obj DomainStat.t) :
  NoDup (obj_keys l) ->
  forall acc : obj SiteStat.t * float,
    obj_keys (fst (fold_left (addVisits startDate today) l acc))
    = obj_keys (fst acc)
    /\ forall d,
         obj_get d (fst (fold_left (addVisits startDate today) l acc))
         = match obj_get d (fst acc) with
           | Some e =>
               Some match obj_get d l with
                    | Some domainData =>
                        SiteStat.Build (SiteStat.time e)
                          (visitsInRange startDate today domainData)
                          (SiteStat.lastVisit e)
                    | None => e
                    end
           | None => None
           end.
Proof.
  induction l as [|[domain domainData] l IH]; intros Hnd [ds tv].
  - simpl. split; [reflexivity|]. intros d. now destruct (obj_get d ds).
  - inversion Hnd as [|? ? Hnot Hnd']; subst. cbn [fold_left].
    destruct (addVisits startDate today (ds, tv) (domain, domainData))
      as [ds' tv'] eqn:Estep.
    destruct (IH Hnd' (ds', tv')) as [Hk Hg]. clear IH.
    assert (Hds' : ds' = fst (addVisits startDate today (ds, tv)
                                (domain, domainData)))
      by now rewrite Estep.
    split.
    + rewrite Hk. simpl. rewrite Hds'. apply addVisits_keys.
    + intros d. rewrite Hg. simpl fst. rewrite Hds', addVisits_get.
      cbn [obj_get]. rewrite (String.eqb_sym d domain).
      destruct (obj_get d ds) as [e|]; [|reflexivity].
      destruct (String.eqb_spec domain d) as [->|Hne]; [|reflexivity].
      apply obj_get_None in Hnot. rewrite Hnot. reflexivity.
Qed.
End Visits.

Lemma topSites_processData (activityData : obj DomainStat.t)
    (dailyData : obj DayStat.t) (range : string) (now : Z) :
  topSites (processData activityData dailyData range now)
  = firstn 10
      (sortByTime
         (fst (fold_left
                 (addVisits (startDateOf range now) (getDateKey now))
                 activityData
                 (fst (fold_left
                         (addDay activityData now (startDateOf range now)
                            (getDateKey now))
                         dailyData ([], 0)),
                  js_of_Z 0)))).
Proof.
  unfold processData, domainStatsOf.
  destruct (fold_left (addDay _ _ _ _) dailyData ([], 0)) as [ds tt].
  simpl fst.
  destruct (fold_left (addVisits _ _) activityData (ds, js_of_Z 0))
    as [ds' tv].
  reflexivity.
Qed.


(** The report of 2023-11-14 on the sample data.  The estimate of
    [example.com] is [Math.ceil(100 * (7 / 100))], which is 8 in binary64
    arithmetic, where the product is 7.000000000000001. *)
Example processData_today :
  map (fun kv => (fst kv, SiteStat.time (snd kv), SiteStat.visits (snd kv)))
    (topSites
       (processData sample_activity sample_daily "today" 1700000005000))
  = [("example.org", 30, js_of_Z 3); ("example.com", 7, js_of_Z 8)].
Proof. vm_compute. reflexivity. Qed.


(** * Further properties *)

(** ** The calendar conversion *)

Lemma doe_step (doe doe' : Z) :
  0 <= doe -> doe < doe' -> doe' < 146097 ->
  yoe_of doe < yoe_of doe'
  \/ (yoe_of doe = yoe_of doe' /\ doy_of doe < doy_of doe').
Proof.
  intros. unfold doy_of, yoe_of. Z.div_mod_to_equations. lia.
Qed.

Lemma doe_bounds (doe : Z) :
  0 <= doe < 146097 -> 0 <= doy_of doe <= 365 /\ 0 <= yoe_of doe <= 399.
Proof.
  intros. unfold doy_of, yoe_of. Z.div_mod_to_equations. lia.
Qed.

Lemma doy_bounds (doy : Z) :
  0 <= doy <= 365 -> 0 <= mp_of doy <= 11 /\ 1 <= dom_of doy <= 31.
Proof.
  intros. unfold dom_of, mp_of. Z.div_mod_to_equations. lia.
Qed.

Lemma doy_step (doy doy' : Z) :
  0 <= doy -> doy < doy' -> doy' <= 365 ->
  mp_of doy < mp_of doy'
  \/ (mp_of doy = mp_of doy' /\ dom_of doy < dom_of doy').
Proof.
  intros. unfold dom_of, mp_of. Z.div_mod_to_equations. lia.
Qed.

Lemma eraRank_bounds (doe : Z) :
  0 <= doe < 146097 ->
  3 * 32 + 1 <= eraRank doe <= (12 * 399 + 14) * 32 + 31.
Proof.
  intros H. unfold eraRank.
  destruct (doe_bounds doe H) as [Hd Hy].
  destruct (doy_bounds _ Hd) as [Hm Hdm]. lia.
Qed.

Lemma eraRank_step (doe doe' : Z) :
  0 <= doe -> doe < doe' -> doe' < 146097 -> eraRank doe < eraRank doe'.
Proof.
  intros H0 Hlt H1. unfold eraRank.
  destruct (doe_bounds doe ltac:(lia)) as [Hd Hy].
  destruct (doe_bounds doe' ltac:(lia)) as [Hd' Hy'].
  destruct (doy_bounds _ Hd) as [Hm Hdm].
  destruct (doy_bounds _ Hd') as [Hm' Hdm'].
  destruct (doe_step doe doe' H0 Hlt H1) as [Hy1|[Hy1 Hdoy]].
  - lia.
  - rewrite Hy1.
    destruct (doy_step (doy_of doe) (doy_of doe')) as [Hm1|[Hm1 Hd1]]; lia.
Qed.

Lemma doe_range (z : Z) :
  0 <= z + 719468 - (z + 719468) / 146097 * 146097 < 146097.
Proof. Z.div_mod_to_equations. lia. Qed.

(** The date of a day, as its era and its rank within the era. *)
Lemma dateRank_civil (z : Z) :
  dateRank (civil_from_days z)
  = 12 * 400 * 32 * ((z + 719468) / 146097)
    + eraRank (z + 719468 - (z + 719468) / 146097 * 146097).
Proof.
  pose proof (doe_range z) as Hdoe.
  unfold civil_from_days, dateRank, eraRank. cbv zeta.
  set (era := (z + 719468) / 146097) in *.
  set (doe := z + 719468 - era * 146097) in *.
  fold (yoe_of doe). fold (doy_of doe). fold (mp_of (doy_of doe)).
  fold (dom_of (doy_of doe)).
  destruct (doe_bounds doe Hdoe) as [Hd Hy].
  destruct (doy_bounds _ Hd) as [Hm Hdm].
  destruct (Z.ltb_spec (mp_of (doy_of doe)) 10).
  - destruct (Z.leb_spec (mp_of (doy_of doe) + 3) 2); lia.
  - destruct (Z.leb_spec (mp_of (doy_of doe) - 9) 2); lia.
Qed.

(** A later day has a later date. *)
Lemma civil_from_days_rank (z z' : Z) :
  z < z' -> dateRank (civil_from_days z) < dateRank (civil_from_days z').
Proof.
  intros Hlt. rewrite !dateRank_civil.
  pose proof (doe_range z) as Hdoe. pose proof (doe_range z') as Hdoe'.
  set (era := (z + 719468) / 146097) in *.
  set (era' := (z' + 719468) / 146097) in *.
  set (doe := z + 719468 - era * 146097) in *.
  set (doe' := z' + 719468 - era' * 146097) in *.
  assert (Hera : era <= era').
  { subst era era'. apply Z.div_le_mono; lia. }
  pose proof (eraRank_bounds doe Hdoe).
  pose proof (eraRank_bounds doe' Hdoe').
  destruct (Z.eq_dec era era') as [Heq|Hne].
  - assert (Hd : doe < doe') by (subst doe doe'; lia).
    pose proof (eraRank_step doe doe' ltac:(lia) Hd ltac:(lia)). lia.
  - lia.
Qed.

Lemma civil_from_days_bounds (z : Z) :
  1 <= snd (fst (civil_from_days z)) <= 12
  /\ 1 <= snd (civil_from_days z) <= 31.
Proof.
  pose proof (doe_range z) as Hdoe.
  unfold civil_from_days. cbv zeta.
  set (era := (z + 719468) / 146097) in *.
  set (doe := z + 719468 - era * 146097) in *.
  fold (yoe_of doe). fold (doy_of doe). fold (mp_of (doy_of doe)).
  fold (dom_of (doy_of doe)).
  destruct (doe_bounds doe Hdoe) as [Hd Hy].
  destruct (doy_bounds _ Hd) as [Hm Hdm]. simpl.
  destruct (Z.ltb_spec (mp_of (doy_of doe)) 10); lia.
Qed.

Lemma civil_from_days_compare (z z' : Z) :
  (dateRank (civil_from_days z) ?= dateRank (civil_from_days z'))
  = (z ?= z').
Proof.
  destruct (Z.compare_spec z z') as [->|H|H].
  - apply Z.compare_refl.
  - apply Z.compare_lt_iff. now apply civil_from_days_rank.
  - apply Z.compare_gt_iff. now apply civil_from_days_rank.
Qed.

(** The years of the time values of [fourDigitYear]. *)
Lemma civil_from_days_year (t : Z) :
  fourDigitYear t ->
  0 <= fst (fst (civil_from_days (dayOf t))) <= 9999.
Proof.
  intros [Hlo Hhi]. unfold dayOf, msPerDay.
  assert (Hz : -719528 <= t / 86400000 <= 2932896)
    by (Z.div_mod_to_equations; lia).
  set (z := t / 86400000) in *.
  pose proof (civil_from_days_bounds z) as [Hm Hd].
  assert (Hmin : dateRank (civil_from_days (-719528)) = 33)
    by (vm_compute; reflexivity).
  assert (Hmax : dateRank (civil_from_days 2932896) = 3840031)
    by (vm_compute; reflexivity).
  assert (H1 : dateRank (civil_from_days (-719528))
               <= dateRank (civil_from_days z)).
  { destruct (Z.eq_dec z (-719528)) as [->|Hne]; [lia|].
    apply Z.lt_le_incl, civil_from_days_rank. lia. }
  assert (H2 : dateRank (civil_from_days z)
               <= dateRank (civil_from_days 2932896)).
  { destruct (Z.eq_dec z 2932896) as [->|Hne]; [lia|].
    apply Z.lt_le_incl, civil_from_days_rank. lia. }
  rewrite Hmin in H1. rewrite Hmax in H2.
  destruct (civil_from_days z) as [[y m] d].
  cbn [fst snd] in *. unfold dateRank in H1, H2. lia.
Qed.

(** ** Date keys as strings *)

Lemma compare_append (a a' b b' : string) :
  String.length a = String.length a' ->
  String.compare (a ++ b) (a' ++ b')
  = match String.compare a a' with
    | Eq => String.compare b b'
    | c => c
    end.
Proof.
  revert a'. induction a as [|c a IH]; intros [|c' a']; simpl;
    try discriminate; [reflexivity|].
  intros [= Hlen]. destruct (Ascii.compare c c'); auto.
Qed.

Lemma string_length_append (a b : string) :
  String.length (a ++ b) = (String.length a + String.length b)%nat.
Proof. induction a as [|c a IH]; simpl; [reflexivity|now rewrite IH]. Qed.

Lemma pad_digits_length (w : nat) (n : Z) :
  String.length (pad_digits w n) = w.
Proof.
  revert n. induction w as [|w IH]; intros n; cbn [pad_digits];
    [reflexivity|].
  rewrite string_length_append, IH. simpl. lia.
Qed.

Lemma digit_compare (n n' : Z) :
  Ascii.compare (digit n) (digit n') = (n mod 10 ?= n' mod 10).
Proof.
  unfold Ascii.compare, digit.
  assert (H : forall k, N_of_ascii (ascii_of_nat (48 + Z.to_nat (k mod 10)))
                        = Z.to_N (48 + k mod 10)).
  { intros k. pose proof (Z.mod_pos_bound k 10 ltac:(lia)).
    rewrite <- (N2Nat.id (N_of_ascii _)).
    change (N.to_nat (N_of_ascii ?a)) with (nat_of_ascii a).
    rewrite nat_ascii_embedding by lia. lia. }
  rewrite !H.
  pose proof (Z.mod_pos_bound n 10 ltac:(lia)).
  pose proof (Z.mod_pos_bound n' 10 ltac:(lia)).
  rewrite Z2N.inj_compare by lia.
  rewrite Z.add_compare_mono_l. reflexivity.
Qed.

Lemma compare_single (c c' : ascii) :
  String.compare (String c "") (String c' "") = Ascii.compare c c'.
Proof. cbn [String.compare]. now destruct (Ascii.compare c c'). Qed.

(** Numbers padded to the same width compare as numbers. *)
Lemma pad_digits_compare (w : nat) : forall n n',
  0 <= n < 10 ^ Z.of_nat w -> 0 <= n' < 10 ^ Z.of_nat w ->
  String.compare (pad_digits w n) (pad_digits w n') = (n ?= n').
Proof.
  induction w as [|w IH]; intros n n' Hn Hn'.
  - change (10 ^ Z.of_nat 0) with 1 in *.
    assert (n = 0) by lia. assert (n' = 0) by lia. subst. reflexivity.
  - cbn [pad_digits].
    rewrite compare_append by now rewrite !pad_digits_length.
    rewrite Nat2Z.inj_succ, Z.pow_succ_r in Hn, Hn' by lia.
    rewrite IH by (Z.div_mod_to_equations; lia).
    rewrite compare_single, digit_compare.
    destruct (Z.compare_spec (n / 10) (n' / 10)) as [E|E|E].
    + destruct (Z.compare_spec (n mod 10) (n' mod 10));
        symmetry; [apply Z.compare_eq_iff|apply Z.compare_lt_iff
                  |apply Z.compare_gt_iff];
        Z.div_mod_to_equations; lia.
    + symmetry. apply Z.compare_lt_iff. Z.div_mod_to_equations. lia.
    + symmetry. apply Z.compare_gt_iff. Z.div_mod_to_equations. lia.
Qed.

Lemma getDateKey_fourDigits (t : Z) :
  fourDigitYear t ->
  getDateKey t
  = (pad_digits 4 (fst (fst (civil_from_days (dayOf t)))) ++ "-"
     ++ pad_digits 2 (snd (fst (civil_from_days (dayOf t)))) ++ "-"
     ++ pad_digits 2 (snd (civil_from_days (dayOf t))))%string.
Proof.
  intros H. pose proof (civil_from_days_year t H) as Hy.
  unfold getDateKey. fold (dayOf t).
  destruct (civil_from_days (dayOf t)) as [[y m] d]. cbn [fst snd] in *.
  unfold iso_year.
  destruct (Z.leb_spec 0 y); [|lia]. destruct (Z.leb_spec y 9999); [|lia].
  reflexivity.
Qed.

Lemma dateRank_compare (y m d y' m' d' : Z) :
  1 <= m <= 12 -> 1 <= d <= 31 -> 1 <= m' <= 12 -> 1 <= d' <= 31 ->
  match y ?= y' with
  | Eq => match m ?= m' with
          | Eq => d ?= d'
          | c => c
          end
  | c => c
  end
  = (dateRank (y, m, d) ?= dateRank (y', m', d')).
Proof.
  intros Hm Hd Hm' Hd'. unfold dateRank. symmetry.
  destruct (Z.compare_spec y y') as [->|H|H].
  - destruct (Z.compare_spec m m') as [->|H|H].
    + destruct (Z.compare_spec d d') as [->|H|H].
      * apply Z.compare_refl.
      * apply Z.compare_lt_iff. lia.
      * apply Z.compare_gt_iff. lia.
    + apply Z.compare_lt_iff. lia.
    + apply Z.compare_gt_iff. lia.
  - apply Z.compare_lt_iff. lia.
  - apply Z.compare_gt_iff. lia.
Qed.

(** The date keys of two time values compare as their days do. *)
Lemma getDateKey_compare (t t' : Z) :
  fourDigitYear t -> fourDigitYear t' ->
  String.compare (getDateKey t) (getDateKey t') = (dayOf t ?= dayOf t').
Proof.
  intros H H'.
  rewrite (getDateKey_fourDigits t H), (getDateKey_fourDigits t' H').
  pose proof (civil_from_days_year t H) as Hy.
  pose proof (civil_from_days_year t' H') as Hy'.
  pose proof (civil_from_days_bounds (dayOf t)) as [Hm Hd].
  pose proof (civil_from_days_bounds (dayOf t')) as [Hm' Hd'].
  rewrite <- civil_from_days_compare.
  destruct (civil_from_days (dayOf t)) as [[y m] d].
  destruct (civil_from_days (dayOf t')) as [[y' m'] d'].
  cbn [fst snd] in *.
  rewrite <- dateRank_compare by assumption.
  rewrite compare_append by now rewrite !pad_digits_length.
  rewrite pad_digits_compare by (change (10 ^ Z.of_nat 4) with 10000; lia).
  destruct (y ?= y'); try reflexivity.
  rewrite (compare_append "-" "-") by reflexivity.
  change (String.compare "-" "-") with Eq. cbv iota.
  rewrite compare_append by now rewrite !pad_digits_length.
  rewrite pad_digits_compare by (change (10 ^ Z.of_nat 2) with 100; lia).
  destruct (m ?= m'); try reflexivity.
  rewrite (compare_append "-" "-") by reflexivity.
  change (String.compare "-" "-") with Eq. cbv iota.
  apply pad_digits_compare; change (10 ^ Z.of_nat 2) with 100; lia.
Qed.

Lemma getDateKey_ltb (t t' : Z) :
  fourDigitYear t -> fourDigitYear t' ->
  String.ltb (getDateKey t) (getDateKey t') = (dayOf t <? dayOf t').
Proof.
  intros H H'. unfold String.ltb, Z.ltb.
  now rewrite (getDateKey_compare t t' H H').
Qed.

Lemma getDateKey_leb (t t' : Z) :
  fourDigitYear t -> fourDigitYear t' ->
  String.leb (getDateKey t) (getDateKey t') = (dayOf t <=? dayOf t').
Proof.
  intros H H'. unfold String.leb, Z.leb.
  now rewrite (getDateKey_compare t t' H H').
Qed.

(** X1: for time values of the years 0000 to 9999 the date keys order as
    the UTC days do: the key of [t] is below the key of [t'] exactly when
    the day of [t] is earlier, and the keys are equal exactly on the same
    day. *)
Theorem getDateKey_chronological (t t' : Z) :
  fourDigitYear t -> fourDigitYear t' ->
  String.ltb (getDateKey t) (getDateKey t') = (dayOf t <? dayOf t')
  /\ String.leb (getDateKey t) (getDateKey t') = (dayOf t <=? dayOf t')
  /\ (getDateKey t = getDateKey t' <-> dayOf t = dayOf t').
Proof.
  intros H H'. pose proof (getDateKey_compare t t' H H') as Hc.
  unfold String.ltb, String.leb, Z.ltb, Z.leb. rewrite Hc.
  split; [reflexivity|]. split; [reflexivity|]. split.
  - intros E. rewrite E in Hc.
    assert (Hr : String.compare (getDateKey t') (getDateKey t') = Eq).
    { pose proof (String.compare_antisym (getDateKey t') (getDateKey t'))
        as Ha.
      destruct (String.compare (getDateKey t') (getDateKey t'));
        [reflexivity|discriminate|discriminate]. }
    rewrite Hr in Hc. symmetry in Hc. now apply Z.compare_eq_iff.
  - intros E. rewrite E, Z.compare_refl in Hc.
    now apply String.compare_eq_iff.
Qed.

(** The keys of 2023-11-14 and of the day before. *)
Lemma getDateKey_chronological_witness :
  String.ltb (getDateKey 1699900000000) (getDateKey 1700000000000)
  = (dayOf 1699900000000 <? dayOf 1700000000000).
Proof.
  apply (getDateKey_chronological 1699900000000 1700000000000);
    unfold fourDigitYear; lia.
Defined.

(** X2: the date key of a time value of the years 0000 to 9999 has the
    shape YYYY-MM-DD: ten characters, four year digits, a month from 01 to
    12 and a day from 01 to 31, with dashes between. *)
Theorem getDateKey_shape (t : Z) :
  fourDigitYear t ->
  exists y m d,
    0 <= y <= 9999 /\ 1 <= m <= 12 /\ 1 <= d <= 31
    /\ getDateKey t
       = (pad_digits 4 y ++ "-" ++ pad_digits 2 m ++ "-" ++ pad_digits 2 d)%string
    /\ String.length (getDateKey t) = 10%nat
    /\ String.get 4 (getDateKey t) = Some "-"%char
    /\ String.get 7 (getDateKey t) = Some "-"%char.
Proof.
  intros H.
  pose proof (civil_from_days_year t H) as Hy.
  pose proof (civil_from_days_bounds (dayOf t)) as [Hm Hd].
  rewrite (getDateKey_fourDigits t H).
  destruct (civil_from_days (dayOf t)) as [[y m] d]. cbn [fst snd] in *.
  exists y, m, d.
  split; [lia|]. split; [lia|]. split; [lia|]. split; [reflexivity|].
  split; [|split].
  - rewrite !string_length_append, !pad_digits_length. reflexivity.
  - reflexivity.
  - reflexivity.
Qed.

(** The key of 2023-11-14T22:13:20Z. *)
Lemma getDateKey_shape_witness :
  exists y m d,
    0 <= y <= 9999 /\ 1 <= m <= 12 /\ 1 <= d <= 31
    /\ getDateKey 1700000000000
       = (pad_digits 4 y ++ "-" ++ pad_digits 2 m ++ "-" ++ pad_digits 2 d)%string
    /\ String.length (getDateKey 1700000000000) = 10%nat
    /\ String.get 4 (getDateKey 1700000000000) = Some "-"%char
    /\ String.get 7 (getDateKey 1700000000000) = Some "-"%char.
Proof.
  apply (getDateKey_shape 1700000000000). unfold fourDigitYear. lia.
Defined.

(** ** More on the sweep *)

Section SweepMore.
Variable LocalTZA : Z -> bool -> Z.

Lemma number_or_self (n : Z) : number_or (Some n) 0 = n.
Proof.
  unfold number_or; simpl. destruct (Z.eqb_spec n 0); simpl; congruence.
Qed.

(** X3: a sweep repeated at the same instant changes nothing more, and
    after a sweep that changed the document every sweep of the next 24
    hours changes nothing. *)
Theorem cleanupOldData_settles (now : Z) (st : Storage) :
  cleanupOldData LocalTZA now (cleanupOldData LocalTZA now st)
  = cleanupOldData LocalTZA now st
  /\ (forall now',
        cleanupOldData LocalTZA now st <> st ->
        now' - now < 24 * 60 * 60 * 1000 ->
        cleanupOldData LocalTZA now' (cleanupOldData LocalTZA now st)
        = cleanupOldData LocalTZA now st).
Proof.
  assert (G : forall now',
            cleanupOldData LocalTZA now st <> st ->
            now' - now < 24 * 60 * 60 * 1000 ->
            cleanupOldData LocalTZA now' (cleanupOldData LocalTZA now st)
            = cleanupOldData LocalTZA now st).
  { intros now' Hch Hnow'. rewrite (cleanupOldData_cases LocalTZA now st) in *.
    destruct (now - number_or (lastCleanup st) 0 <? 24 * 60 * 60 * 1000);
      [contradiction|].
    destruct (existsb _ _); [|contradiction].
    rewrite cleanupOldData_cases. cbn [lastCleanup].
    rewrite number_or_self.
    destruct (Z.ltb_spec (now' - now) (24 * 60 * 60 * 1000));
      [reflexivity|lia]. }
  split; [|exact G].
  pose proof (cleanupOldData_cases LocalTZA now st) as Hc.
  destruct (now - number_or (lastCleanup st) 0 <? 24 * 60 * 60 * 1000)
    eqn:Egate.
  - rewrite Hc. rewrite cleanupOldData_cases, Egate. reflexivity.
  - destruct (existsb
                (fun k => String.ltb k (getDateKey (cutoffTime LocalTZA now)))
                (obj_keys (or_else (dailyData st) []))) eqn:Eold.
    + apply G; [|lia]. rewrite Hc. intros Heq.
      apply (f_equal lastCleanup) in Heq. cbn [lastCleanup] in Heq.
      rewrite <- Heq, number_or_self in Egate.
      destruct (Z.ltb_spec (now - now) (24 * 60 * 60 * 1000));
        [discriminate|lia].
    + rewrite Hc. rewrite cleanupOldData_cases, Egate, Eold. reflexivity.
Qed.

Lemma filter_keys_sub {V : Type} (p : string -> bool) (o : obj V)
    (k : string) :
  In k (obj_keys (filter (fun kv => p (fst kv)) o)) ->
  In k (obj_keys o) /\ p k = true.
Proof.
  unfold obj_keys. rewrite in_map_iff. intros [[k' v] [<- Hin]].
  apply filter_In in Hin. destruct Hin as [Hin Hp]. split.
  - apply in_map_iff. now exists (k', v).
  - exact Hp.
Qed.

(** X4: the sweep only deletes days: every day of the result is a day of
    the input with the same record, and the result is no longer than the
    input; once the 24-hour gate has passed, no key below the cutoff key
    is left. *)
Theorem cleanupOldData_only_deletes (now : Z) (st : Storage) :
  (forall k v,
     obj_get k (or_else (dailyData (cleanupOldData LocalTZA now st)) [])
     = Some v ->
     obj_get k (or_else (dailyData st) []) = Some v)
  /\ (length (or_else (dailyData (cleanupOldData LocalTZA now st)) [])
      <= length (or_else (dailyData st) []))%nat
  /\ (24 * 60 * 60 * 1000 <= now - number_or (lastCleanup st) 0 ->
      forall k,
        In k (obj_keys
                (or_else (dailyData (cleanupOldData LocalTZA now st)) [])) ->
        String.ltb k (getDateKey (cutoffTime LocalTZA now)) = false).
Proof.
  rewrite cleanupOldData_cases.
  destruct (Z.ltb_spec (now - number_or (lastCleanup st) 0)
              (24 * 60 * 60 * 1000)) as [Hg|Hg].
  - split; [auto|]. split; [lia|]. intros; lia.
  - destruct (existsb _ _) eqn:Eold; cbn [dailyData or_else].
    + split; [|split].
      * intros k v.
        rewrite (filter_obj_get
                   (fun k => negb (String.ltb k
                                     (getDateKey (cutoffTime LocalTZA now))))).
        now destruct (negb _).
      * apply filter_length_le.
      * intros _ k Hin.
        apply (filter_keys_sub
                 (fun k => negb (String.ltb k
                                   (getDateKey (cutoffTime LocalTZA now)))))
          in Hin.
        destruct Hin as [_ Hp]. now apply negb_true_iff.
    + split; [auto|]. split; [lia|]. intros _ k Hin.
      destruct (String.ltb k (getDateKey (cutoffTime LocalTZA now))) eqn:E;
        [|reflexivity].
      assert (Hex : existsb
                (fun k => String.ltb k (getDateKey (cutoffTime LocalTZA now)))
                (obj_keys (or_else (dailyData st) [])) = true)
        by (apply existsb_exists; eauto).
      congruence.
Qed.

(** X5: in terms of time: once the 24-hour gate has passed, the day of a
    time value is gone after the sweep when its UTC day is earlier than
    the UTC day of the cutoff time, and is kept with its record
    otherwise. *)
Theorem cleanupOldData_by_age (now : Z) (st : Storage) (t : Z) :
  24 * 60 * 60 * 1000 <= now - number_or (lastCleanup st) 0 ->
  fourDigitYear (cutoffTime LocalTZA now) -> fourDigitYear t ->
  obj_get (getDateKey t)
    (or_else (dailyData (cleanupOldData LocalTZA now st)) [])
  = if dayOf t <? dayOf (cutoffTime LocalTZA now) then None
    else obj_get (getDateKey t) (or_else (dailyData st) []).
Proof.
  intros Hg Hc Ht.
  rewrite <- (getDateKey_ltb t (cutoffTime LocalTZA now) Ht Hc). rewrite cleanupOldData_cases.
  destruct (Z.ltb_spec (now - number_or (lastCleanup st) 0)
              (24 * 60 * 60 * 1000)); [lia|].
  destruct (existsb _ _) eqn:Eold; cbn [dailyData or_else].
  - rewrite (filter_obj_get
               (fun k => negb (String.ltb k
                                 (getDateKey (cutoffTime LocalTZA now))))).
    now destruct (String.ltb (getDateKey t) _).
  - destruct (String.ltb (getDateKey t) _) eqn:E; [|reflexivity].
    apply obj_get_None. intros Hin.
    assert (Hex : existsb
              (fun k => String.ltb k (getDateKey (cutoffTime LocalTZA now)))
              (obj_keys (or_else (dailyData st) [])) = true)
      by (apply existsb_exists; eauto).
    congruence.
Qed.
End SweepMore.

(** *** Histories in the order of the clock *)

Lemma dayOf_mono (t t' : Z) : t <= t' -> dayOf t <= dayOf t'.
Proof.
  intros H. unfold dayOf, msPerDay. apply Z.div_le_mono; lia.
Qed.

Section Histories.
Variable LocalTZA : Z -> bool -> Z.

(** No date key of a later time is below the key of an earlier one. *)
Lemma not_swept_later (ts : list Z) (now : Z) :
  fourDigitYear now ->
  Forall fourDigitYear ts ->
  (forall t, In t ts -> t <= now) ->
  existsb (String.ltb (getDateKey now)) (map getDateKey ts) = false.
Proof.
  intros Hn Hts Hle. induction ts as [|t ts IH]; [reflexivity|].
  inversion Hts as [|? ? Ht Hts']; subst. cbn [map existsb].
  rewrite (getDateKey_ltb now t Hn Ht).
  pose proof (dayOf_mono t now (Hle t (or_introl eq_refl))) as Hd.
  destruct (Z.ltb_spec (dayOf now) (dayOf t)); [lia|]. cbn [orb].
  apply IH; [exact Hts'|]. intros t' Hin. apply Hle. now right.
Qed.

Lemma orderly_chronological (ms : list Mutation) :
  forall ts : list Z,
    Forall fourDigitYear ts ->
    (forall t m, In t ts -> In m ms -> t <= clockOf m) ->
    chronological ms ->
    Forall (in_calendar LocalTZA) ms ->
    orderly LocalTZA (map getDateKey ts) ms = true.
Proof.
  induction ms as [|m ms IH]; intros ts Hts Hle Hch Hcal; [reflexivity|].
  inversion Hch as [|? ? Hch' Hhd]; subst.
  inversion Hcal as [|? ? [Hn [Hc Hcn]] Hcal']; subst.
  assert (Hle' : forall t m', In t ts -> In m' ms -> t <= clockOf m').
  { intros t m' Ht Hm'. apply Hle; [exact Ht|now right]. }
  destruct m as [now g|now|now]; cbn [orderly clockOf] in *.
  - rewrite (not_swept_later ts now Hn Hts).
    + cbn [negb andb]. now apply IH.
    + intros t Ht. apply (Hle t (Flush now g) Ht). now left.
  - change [getDateKey (cutoffTime LocalTZA now)]
      with (map getDateKey [cutoffTime LocalTZA now]).
    rewrite <- map_app. apply IH; try assumption.
    + apply Forall_app. split; [exact Hts|]. now constructor.
    + intros t m' Ht Hm'. apply in_app_or in Ht.
      destruct Ht as [Ht|[<-|[]]]; [now apply Hle'|].
      rewrite Forall_forall in Hhd.
      specialize (Hhd (clockOf m') (in_map clockOf ms m' Hm')). lia.
  - now apply IH.
Qed.

(** X22: while the clock does not go back, in the years 0000 to 9999 and
    on a host whose cutoff is not later than the clock reading, every
    history of flushes, sweeps and initialisations from the empty document
    whose sessions are on domains that no lookup finds inherited leaves
    the two maps in agreement: on every pair present in the per-day map,
    and on every pair present in the per-domain map whose date is not
    below the cutoff key of one of the sweeps. *)
Theorem chronological_history_agrees (ms : list Mutation) :
  plain_history ms = true ->
  chronological ms ->
  Forall (in_calendar LocalTZA) ms ->
  orderly LocalTZA [] ms = true
  /\ day_side_ok (mutateAll LocalTZA ms empty_storage)
  /\ domain_side_ok (cutoffKeys LocalTZA ms)
       (mutateAll LocalTZA ms empty_storage).
Proof.
  intros _ Hch Hcal.
  assert (Ho : orderly LocalTZA [] ms = true).
  { apply (orderly_chronological ms []); try assumption.
    - constructor.
    - intros t m []. }
  split; [exact Ho|].
  apply (mutateAll_agreement LocalTZA ms [] empty_storage Ho);
    intros d k v; discriminate.
Qed.
End Histories.

(** The history of a flush, a sweep a hundred days later and a flush of
    that day is in the order of the clock. *)
Lemma chronological_history_agrees_witness :
  orderly utc [] flush_sweep_flush = true
  /\ day_side_ok (mutateAll utc flush_sweep_flush empty_storage)
  /\ domain_side_ok (cutoffKeys utc flush_sweep_flush)
       (mutateAll utc flush_sweep_flush empty_storage).
Proof.
  apply (chronological_history_agrees utc flush_sweep_flush).
  - reflexivity.
  - unfold chronological, flush_sweep_flush. cbn [map clockOf].
    repeat constructor; lia.
  - unfold flush_sweep_flush.
    repeat constructor; unfold fourDigitYear; vm_compute;
      intuition discriminate.
Defined.

(** The sweep of the sample document settles. *)
Lemma cleanupOldData_settles_witness :
  cleanupOldData utc 1700000100000
    (cleanupOldData utc 1700000000000 aged_storage)
  = cleanupOldData utc 1700000000000 aged_storage.
Proof.
  apply (proj2 (cleanupOldData_settles utc 1700000000000 aged_storage)).
  - vm_compute. discriminate.
  - reflexivity.
Defined.

(** After the sweep of the sample document no key is below 2023-08-16. *)
Lemma cleanupOldData_only_deletes_witness :
  String.ltb "2023-11-10" (getDateKey (cutoffTime utc 1700000000000))
  = false.
Proof.
  apply (proj2 (proj2
           (cleanupOldData_only_deletes utc 1700000000000 aged_storage))).
  - vm_compute. discriminate.
  - vm_compute. left. reflexivity.
Defined.

(** The day of 2023-08-11 goes, the day of 2023-11-10 stays. *)
Lemma cleanupOldData_by_age_witness :
  obj_get (getDateKey 1691712000000)
    (or_else (dailyData (cleanupOldData utc 1700000000000 aged_storage)) [])
  = (if dayOf 1691712000000 <? dayOf (cutoffTime utc 1700000000000)
     then None
     else obj_get (getDateKey 1691712000000)
            (or_else (dailyData aged_storage) [])).
Proof.
  apply (cleanupOldData_by_age utc 1700000000000 aged_storage 1691712000000).
  - vm_compute. discriminate.
  - unfold fourDigitYear. vm_compute. split; discriminate.
  - unfold fourDigitYear. lia.
Defined.

(** ** More on the flush *)

(** X20: for a domain and a date key that no lookup finds inherited,
    recording a session succeeds and creates or updates the record of the
    domain (total seconds plus the seconds, one more visit, last visit now,
    the seconds added to the entry of the date, which starts from 0) and
    the record of the date in the same way; it changes no other entry of
    either map and leaves [lastCleanup] as it is. *)
Theorem recordSession_upserts (st : Storage) (domain : string) (seconds : Z)
    (dateKey : string) (now : Z) :
  plain_key domain = true -> plain_key dateKey = true ->
  exists written a' d' e' day',
    recordSession domain seconds dateKey now st = Some written
    /\ activityData written = Some a'
    /\ dailyData written = Some d'
    /\ lastCleanup written = lastCleanup st
    /\ obj_get domain a' = Some e'
    /\ DomainStat.totalTime e'
       = DomainStat.totalTime
           (domainBefore domain (or_else (activityData st) [])) + seconds
    /\ DomainStat.visits e'
       = DomainStat.visits
           (domainBefore domain (or_else (activityData st) [])) + 1
    /\ DomainStat.lastVisit e' = now
    /\ obj_get dateKey (DomainStat.dailyBreakdown e')
       = Some (or_else
                 (obj_get dateKey
                    (DomainStat.dailyBreakdown
                       (domainBefore domain (or_else (activityData st) []))))
                 0 + seconds)
    /\ (forall k, k <> dateKey ->
          obj_get k (DomainStat.dailyBreakdown e')
          = obj_get k
              (DomainStat.dailyBreakdown
                 (domainBefore domain (or_else (activityData st) []))))
    /\ (forall x, x <> domain ->
          obj_get x a' = obj_get x (or_else (activityData st) []))
    /\ obj_get dateKey d' = Some day'
    /\ DayStat.totalTime day'
       = DayStat.totalTime (dayBefore dateKey (or_else (dailyData st) []))
         + seconds
    /\ obj_get domain (DayStat.domains day')
       = Some (or_else
                 (obj_get domain
                    (DayStat.domains
                       (dayBefore dateKey (or_else (dailyData st) []))))
                 0 + seconds)
    /\ (forall x, x <> domain ->
          obj_get x (DayStat.domains day')
          = obj_get x
              (DayStat.domains
                 (dayBefore dateKey (or_else (dailyData st) []))))
    /\ (forall k, k <> dateKey ->
          obj_get k d' = obj_get k (or_else (dailyData st) [])).
Proof.
  intros Hp _. apply proto_member_plain in Hp.
  set (a := or_else (activityData st) []).
  set (d := or_else (dailyData st) []).
  exists (upsertSession domain seconds dateKey now st),
         (upsertDomain domain seconds dateKey now a),
         (bumpDay domain seconds dateKey d),
         (DomainStat.Build
            (DomainStat.totalTime (domainBefore domain a) + seconds)
            (DomainStat.visits (domainBefore domain a) + 1) now
            (addSeconds dateKey seconds
               (DomainStat.dailyBreakdown (domainBefore domain a)))),
         (DayStat.Build
            (DayStat.totalTime (dayBefore dateKey d) + seconds)
            (addSeconds domain seconds (DayStat.domains (dayBefore dateKey d)))).
  split.
  { rewrite recordSession_cases.
    now rewrite (inheritsRecord_plain domain st Hp). }
  unfold upsertSession; simpl. repeat split.
  - apply upsertDomain_same.
  - apply addSeconds_same.
  - intros k Hk. apply addSeconds_other. congruence.
  - intros x Hx. apply upsertDomain_other. congruence.
  - apply bumpDay_same.
  - apply addSeconds_same.
  - intros x Hx. apply addSeconds_other. congruence.
  - intros k Hk. apply bumpDay_other. congruence.
Qed.

(** Five seconds of [example.com] recorded in the empty document. *)
Lemma recordSession_upserts_witness :
  exists written e',
    recordSession "example.com" 5 "2023-11-14" 1700000005000 empty_storage
    = Some written
    /\ obj_get "example.com" (or_else (activityData written) []) = Some e'
    /\ DomainStat.totalTime e' = 5
    /\ DomainStat.visits e' = 1.
Proof.
  destruct (recordSession_upserts empty_storage "example.com" 5
              "2023-11-14" 1700000005000 eq_refl eq_refl)
    as [written [a' [d' [e' [day' [Hw [Ha [_ [_ [He [Ht [Hv _]]]]]]]]]]]].
  exists written, e'. rewrite Ha. cbn [or_else].
  split; [exact Hw|]. split; [exact He|]. split; assumption.
Defined.

Lemma obj_keys_set_incl {V : Type} (k k0 : string) (v : V) (o : obj V) :
  In k (obj_keys (obj_set k0 v o)) -> k = k0 \/ In k (obj_keys o).
Proof. rewrite obj_keys_set_In. tauto. Qed.

Lemma obj_set_In {V : Type} (k k0 : string) (v v0 : V) (o : obj V) :
  In (k, v) (obj_set k0 v0 o) -> (k, v) = (k0, v0) \/ In (k, v) o.
Proof.
  induction o as [|[k' v'] o IH]; cbn [obj_set].
  - intros [H|[]]. left. now symmetry.
  - destruct (k0 =? k')%string.
    + intros [H|H]; [left; now symmetry|right; now right].
    + intros [H|H]; [right; now left|].
      destruct (IH H) as [E|E]; [now left|right; now right].
Qed.

Lemma addSeconds_keys_In (k key : string) (seconds : Z) (o : obj Z) :
  In k (obj_keys (addSeconds key seconds o)) -> k = key \/ In k (obj_keys o).
Proof.
  unfold addSeconds. intros H. apply obj_keys_set_incl in H.
  destruct H as [H|H]; [now left|].
  destruct (truthy_number (obj_get key o)); [now right|].
  now apply obj_keys_set_incl in H.
Qed.

Lemma upsertSession_plain_document (domain : string) (seconds : Z)
    (dateKey : string) (now : Z) (st : Storage) :
  proto_member domain = false ->
  plain_document st ->
  plain_document (upsertSession domain seconds dateKey now st).
Proof.
  intros Hp [Ha Hd]. split; cbn [upsertSession activityData dailyData or_else].
  - intros k H. unfold upsertDomain in H. apply obj_keys_set_incl in H.
    destruct H as [->|H]; [exact Hp|].
    destruct (obj_get domain (or_else (activityData st) [])).
    + now apply Ha.
    + apply obj_keys_set_incl in H. destruct H as [->|H]; [exact Hp|].
      now apply Ha.
  - intros dk day k Hin Hk. unfold bumpDay in Hin.
    apply obj_set_In in Hin. destruct Hin as [Hin|Hin].
    + injection Hin as _ ->. cbn [DayStat.domains] in Hk.
      apply addSeconds_keys_In in Hk. destruct Hk as [->|Hk]; [exact Hp|].
      destruct (obj_get dateKey (or_else (dailyData st) [])) as [e|] eqn:E.
      * rewrite E in Hk. cbn [or_else] in Hk.
        apply (Hd dateKey e k); [now apply obj_get_In|exact Hk].
      * rewrite obj_get_set_same in Hk. destruct Hk.
    + destruct (obj_get dateKey (or_else (dailyData st) [])) as [e|] eqn:E.
      * now apply (Hd dk day k).
      * apply obj_set_In in Hin. destruct Hin as [Hin|Hin].
        -- injection Hin as _ ->. destruct Hk.
        -- now apply (Hd dk day k).
Qed.

Section PlainDocument.
Variable LocalTZA : Z -> bool -> Z.

Lemma mutate_plain_document (m : Mutation) (st : Storage) :
  plain_document st -> plain_document (mutate LocalTZA m st).
Proof.
  intros H. destruct m as [now g|now|now]; cbn [mutate].
  - rewrite saveCurrentSession_storage. cbn [globals storage].
    destruct (tracking g && (1 <=? elapsedSeconds now g)); [|exact H].
    cbn [andb].
    destruct (inheritsRecord (or_else (currentDomain g) "") st) eqn:E;
      [exact H|]. cbn [negb].
    apply upsertSession_plain_document; [|exact H].
    unfold inheritsRecord, obj_lookup in E.
    destruct (obj_get _ _) as [e|] eqn:Eg.
    + apply (proj1 H). apply obj_get_In in Eg.
      unfold obj_keys. now apply (in_map fst) in Eg.
    + now destruct (proto_member _).
  - destruct H as [Ha Hd]. split.
    + now rewrite cleanupOldData_activityData.
    + rewrite cleanupOldData_cases.
      destruct (_ <? _); [exact Hd|]. destruct (existsb _ _); [|exact Hd].
      cbn [dailyData or_else]. intros dk day k Hin.
      apply filter_In in Hin. destruct Hin as [Hin _].
      now apply (Hd dk day k).
  - unfold initializeStorage. destruct (activityData st); [exact H|].
    split; cbn.
    + intros k [].
    + intros dk day k [].
Qed.

(** X23: the worker writes no key that is the name of a member of
    [Object.prototype]: after every history of flushes, sweeps and
    initialisations from the empty document, whatever the session states
    of the flushes, no record and no day has a domain of such a name. *)
Theorem worker_writes_plain_keys (ms : list Mutation) :
  plain_document (mutateAll LocalTZA ms empty_storage).
Proof.
  assert (G : forall st, plain_document st ->
              plain_document (mutateAll LocalTZA ms st)).
  { induction ms as [|m ms IH]; intros st H; simpl; [exact H|].
    apply IH. now apply mutate_plain_document. }
  apply G. split; cbn.
  - intros k [].
  - intros dk day k [].
Qed.
End PlainDocument.

(** ** More on the listeners *)

Lemma truthy_string_Some (s : option string) :
  truthy_string s = true <-> exists d, s = Some d /\ d <> "".
Proof.
  destruct s as [d|]; simpl.
  - destruct (String.eqb_spec d ""); simpl; split.
    + discriminate.
    + intros [d' [[= <-] Hne]]. contradiction.
    + intros _. now exists d.
    + reflexivity.
  - split; [discriminate|]. intros [d [H _]]. discriminate.
Qed.

Section ListenersMore.
Variable URL : string -> option URLRecord.
Variable LocalTZA : Z -> bool -> Z.

Lemma startTracking_wellformed (now tabId : Z) (domain : option string)
    (w : World) :
  truthy_string domain = true ->
  wellformed_globals (globals (startTracking now tabId domain w)).
Proof.
  intros Hd. apply truthy_string_Some in Hd. destruct Hd as [d [-> Hne]].
  unfold wellformed_globals. simpl. split; [exact Hne|discriminate].
Qed.

Lemma trackFirst_wellformed (now : Z) (tabs : option (list Tab))
    (w : World) :
  wellformed_globals (globals w) ->
  wellformed_globals (globals (trackFirst URL now tabs w)).
Proof.
  intros H. unfold trackFirst. destruct tabs as [[|tab tabs]|]; try exact H.
  destruct (truthy_string _) eqn:E; [|exact H].
  now apply startTracking_wellformed.
Qed.

Lemma handle_wellformed (now : Z) (e : Event) (w : World) :
  wellformed_globals (globals w) ->
  wellformed_globals (globals (handle URL LocalTZA now e w)).
Proof.
  intros H.
  destruct e as [|tabId tab|tabId url|windowId tabs|name|tabs]; simpl.
  - exact H.
  - unfold onActivated.
    destruct (saveCurrentSession_outcome now w) as [w'|] eqn:Ho;
      [|exact H].
    apply saveCurrentSession_fulfilled in Ho. subst w'.
    destruct tab as [tab|].
    + destruct (truthy_string _) eqn:E; simpl.
      * destruct (isWindowFocused _) eqn:F.
        -- now apply startTracking_wellformed.
        -- reflexivity.
      * reflexivity.
    + now rewrite saveCurrentSession_globals.
  - unfold onUpdated. destruct (_ && _); [|exact H].
    destruct (saveCurrentSession_outcome now w) as [w'|] eqn:Ho;
      [|exact H].
    apply saveCurrentSession_fulfilled in Ho. subst w'.
    destruct (truthy_string (getDomainFromUrl _ _)) eqn:E; simpl.
    + destruct (isWindowFocused _) eqn:F.
      * now apply startTracking_wellformed.
      * reflexivity.
    + reflexivity.
  - unfold onFocusChanged. destruct (windowId =? WINDOW_ID_NONE).
    + destruct (saveCurrentSession_outcome now w) as [w'|] eqn:Ho;
        [|exact H].
      apply saveCurrentSession_fulfilled in Ho. subst w'.
      rewrite saveCurrentSession_globals. exact H.
    + apply trackFirst_wellformed. exact H.
  - unfold onAlarm. destruct (name =? "saveActivity")%string; [|exact H].
    rewrite saveCurrentSession_globals.
    destruct (truthy_string (currentDomain (globals w))) eqn:E; simpl.
    + destruct (isWindowFocused (globals w)) eqn:F.
      * exact H.
      * now rewrite saveCurrentSession_globals.
    + now rewrite saveCurrentSession_globals.
  - unfold onStartup. apply trackFirst_wellformed. reflexivity.
Qed.

(** X6: in every state that the listeners reach from the initial one, the
    current domain is never the empty string, and it is set exactly when
    the current tab is. *)
Theorem reachable_globals_wellformed (trace : list (Z * Event)) :
  wellformed_globals (globals (run URL LocalTZA trace initial_world)).
Proof.
  assert (G : forall w, wellformed_globals (globals w) ->
              wellformed_globals (globals (run URL LocalTZA trace w))).
  { induction trace as [|[now e] trace IH]; intros w H; simpl.
    - exact H.
    - apply IH. now apply handle_wellformed. }
  apply G. reflexivity.
Qed.

Lemma visitsOf_upsertSession (d domain : string) (seconds : Z)
    (dateKey : string) (now : Z) (st : Storage) :
  visitsOf d (upsertSession domain seconds dateKey now st)
  = visitsOf d st + (if (domain =? d)%string then 1 else 0).
Proof.
  unfold visitsOf, upsertSession; simpl.
  destruct (String.eqb_spec domain d) as [->|Hne].
  - rewrite upsertDomain_same. unfold domainBefore; simpl.
    now destruct (obj_get d (or_else (activityData st) [])).
  - rewrite upsertDomain_other by assumption.
    destruct (obj_get d (or_else (activityData st) [])); lia.
Qed.

Lemma session_state_tracking (open : option (string * Z)) (g : Globals) :
  session_state open g ->
  tracking g = match open with Some _ => true | None => false end.
Proof.
  intros [Hf H]. unfold tracking. rewrite Hf.
  destruct open as [[d t0]|].
  - destruct H as [Hd [Hs [Hne [Ht _]]]]. rewrite Hd, Hs. simpl.
    destruct (String.eqb_spec d ""); [contradiction|].
    destruct (Z.eqb_spec t0 0); [contradiction|]. reflexivity.
  - now rewrite H.
Qed.

(** The flush of a step: it is fulfilled, and it adds the interval that
    the step ends. *)
Lemma session_state_flush (d : string) (open : option (string * Z))
    (now : Z) (w : World) :
  session_state open (globals w) ->
  saveCurrentSession_outcome now w = Some (saveCurrentSession now w)
  /\ totalTimeOf d (storage (saveCurrentSession now w))
     = totalTimeOf d (storage w)
       + keptSeconds d
           match open with
           | Some (d0, t0) => [(d0, (now - t0) / 1000)]
           | None => []
           end
  /\ visitsOf d (storage (saveCurrentSession now w))
     = visitsOf d (storage w)
       + keptCount d
           match open with
           | Some (d0, t0) => [(d0, (now - t0) / 1000)]
           | None => []
           end.
Proof.
  intros Hst. pose proof (session_state_tracking _ _ Hst) as Ht.
  destruct Hst as [Hf H].
  assert (Hr : rejected now w = false).
  { unfold rejected. destruct open as [[d0 t0]|].
    - destruct H as [Hd [_ [_ [_ Hp]]]]. rewrite Hd. simpl.
      rewrite (inheritsRecord_plain d0 (storage w)
                 (proto_member_plain d0 Hp)).
      apply andb_false_r.
    - now rewrite Ht. }
  split.
  { unfold saveCurrentSession. rewrite saveCurrentSession_outcome_cases, Hr.
    reflexivity. }
  rewrite saveCurrentSession_storage, Ht.
  destruct open as [[d0 t0]|]; simpl; [|lia].
  destruct H as [Hd [Hs [_ [_ Hp]]]].
  unfold elapsedSeconds. rewrite Hd, Hs. simpl.
  rewrite (inheritsRecord_plain d0 (storage w) (proto_member_plain d0 Hp)).
  cbn [negb]. rewrite andb_true_r.
  destruct (1 <=? (now - t0) / 1000).
  - rewrite totalTimeOf_upsertSession, visitsOf_upsertSession, andb_true_r.
    destruct (d0 =? d)%string; lia.
  - rewrite andb_false_r. lia.
Qed.

(** One step of a focused window: the listener adds the interval that the
    step ends and leaves the session state of the session that the step
    opens. *)
Lemma step_session (d : string) (open : option (string * Z)) (now : Z)
    (s : Step) (w : World) :
  plain_step URL (now, s) = true ->
  session_state open (globals w) ->
  let w' := handle URL LocalTZA now (eventOf s) w in
  let open' :=
    match s with
    | Switch _ url => opened URL url now
    | Tick =>
        match open with
        | Some (d0, _) => Some (d0, now)
        | None => None
        end
    end in
  session_state open' (globals w')
  /\ totalTimeOf d (storage w')
     = totalTimeOf d (storage w)
       + keptSeconds d
           match open with
           | Some (d0, t0) => [(d0, (now - t0) / 1000)]
           | None => []
           end
  /\ visitsOf d (storage w')
     = visitsOf d (storage w)
       + keptCount d
           match open with
           | Some (d0, t0) => [(d0, (now - t0) / 1000)]
           | None => []
           end.
Proof.
  intros Hp Hst w' open'.
  pose proof (session_state_flush d open now w Hst) as [Ho [Htt Hvv]].
  assert (Hsto : storage w' = storage (saveCurrentSession now w)).
  { unfold w'. rewrite handle_storage. now destruct s. }
  split; [|rewrite Hsto; split; assumption].
  unfold plain_step in Hp. cbn [fst snd] in Hp.
  apply andb_true_iff in Hp. destruct Hp as [Hnow Hp].
  apply Z.ltb_lt in Hnow.
  destruct Hst as [Hf H]. unfold w', open'.
  destruct s as [tabId url|]; cbn [eventOf handle].
  - unfold onActivated. rewrite Ho. cbn [tab_url].
    rewrite saveCurrentSession_globals, Hf, andb_true_r.
    unfold getDomainFromUrl, opened.
    destruct (URL url) as [urlObj|]; cbn [truthy_string].
    + destruct (String.eqb_spec (hostname urlObj) "") as [He|He];
        cbn [negb]; unfold session_state; cbn;
        rewrite ?saveCurrentSession_globals.
      * split; [exact Hf|reflexivity].
      * split; [exact Hf|]. repeat split; try assumption; lia.
    + unfold session_state. cbn. rewrite saveCurrentSession_globals.
      split; [exact Hf|reflexivity].
  - unfold onAlarm. cbn [String.eqb Ascii.eqb Bool.eqb]. cbv iota.
    rewrite saveCurrentSession_globals, Hf, andb_true_r.
    destruct open as [[d0 t0]|].
    + destruct H as [Hd [Hs [Hne [Ht0 Hpl]]]].
      assert (Htr : truthy_string (currentDomain (globals w)) = true).
      { rewrite Hd. simpl. now destruct (String.eqb_spec d0 ""). }
      rewrite Htr. cbn [storage globals].
      split; [reflexivity|]. cbn. repeat split; try assumption; lia.
    + rewrite H.
      split; [now rewrite saveCurrentSession_globals|].
      now rewrite saveCurrentSession_globals.
Qed.

Lemma keptSeconds_app (d : string) (l1 l2 : list (string * Z)) :
  keptSeconds d (l1 ++ l2)%list = keptSeconds d l1 + keptSeconds d l2.
Proof.
  induction l1 as [|[d' s] l1 IH]; simpl; [reflexivity|]. rewrite IH. lia.
Qed.

Lemma keptCount_app (d : string) (l1 l2 : list (string * Z)) :
  keptCount d (l1 ++ l2)%list = keptCount d l1 + keptCount d l2.
Proof.
  induction l1 as [|[d' s] l1 IH]; simpl; [reflexivity|]. rewrite IH. lia.
Qed.


(** X21: a session on a host whose name is that of a member of
    [Object.prototype], and which has no record of its own, is never
    recorded: once a whole second has elapsed its flush is rejected and
    writes nothing, and the listeners that await the flush (tab
    activation, update of the tracked tab, loss of focus) end with it and
    leave the session state and the document as they are. *)
Theorem inherited_member_is_never_recorded (now : Z) (w : World)
    (domain : string) (startedAt : Z) :
  isWindowFocused (globals w) = true ->
  currentDomain (globals w) = Some domain ->
  sessionStartTime (globals w) = Some startedAt -> startedAt <> 0 ->
  1 <= (now - startedAt) / 1000 ->
  proto_member domain = true ->
  obj_get domain (or_else (activityData (storage w)) []) = None ->
  saveCurrentSession_outcome now w = None
  /\ saveCurrentSession now w = w
  /\ (forall tabId tab, onActivated URL now tabId tab w = w)
  /\ (forall tabId url, onUpdated URL now tabId url w = w)
  /\ (forall tabs, onFocusChanged URL now WINDOW_ID_NONE tabs w = w).
Proof.
  intros Hf Hd Hs Hs0 Hsec Hp Hown.
  assert (Hne : domain <> "") by (intros ->; discriminate).
  assert (Ho : saveCurrentSession_outcome now w = None).
  { rewrite saveCurrentSession_outcome_cases.
    assert (Hr : rejected now w = true).
    { unfold rejected, tracking, elapsedSeconds, inheritsRecord, obj_lookup.
      rewrite Hf, Hd, Hs. cbn [or_else truthy_string truthy_number].
      rewrite Hown, Hp.
      destruct (String.eqb_spec domain ""); [contradiction|].
      destruct (Z.eqb_spec startedAt 0); [contradiction|].
      apply Z.leb_le in Hsec. rewrite Hsec. reflexivity. }
    now rewrite Hr. }
  split; [exact Ho|]. split; [now apply saveCurrentSession_rejected|].
  split; [|split].
  - intros tabId tab. unfold onActivated. now rewrite Ho.
  - intros tabId url. unfold onUpdated. rewrite Ho.
    now destruct (_ && _).
  - intros tabs. unfold onFocusChanged. rewrite Z.eqb_refl. now rewrite Ho.
Qed.

Lemma handle_silent (now : Z) (e : Event) (w : World) :
  isWindowFocused (globals w) = false -> silent e = true ->
  storage (handle URL LocalTZA now e w) = storage w
  /\ isWindowFocused (globals (handle URL LocalTZA now e w)) = false.
Proof.
  intros Hf Hs.
  assert (Ht : tracking (globals w) = false).
  { unfold tracking. rewrite Hf. apply andb_false_r. }
  pose proof (saveCurrentSession_idle now w Ht) as Hidle.
  pose proof (saveCurrentSession_idle_outcome now w Ht) as Hido.
  destruct e as [|tabId tab|tabId url|windowId tabs|name|tabs]; simpl in *;
    try discriminate.
  - unfold onActivated. rewrite Hido. destruct tab as [tab|]; [|auto].
    rewrite Hf, andb_false_r. simpl. auto.
  - unfold onUpdated. destruct (_ && _); [|auto].
    rewrite Hido, Hf, andb_false_r. simpl. auto.
  - unfold onFocusChanged. rewrite Hs, Hido. simpl. auto.
  - unfold onAlarm. destruct (name =? "saveActivity")%string; [|auto].
    rewrite Hidle, Hf, andb_false_r. auto.
Qed.

(** X8: while the window is not focused nothing is recorded: tab
    activations, tab updates, alarms and further focus losses leave the
    persisted document as it is and the window unfocused. *)
Theorem unfocused_records_nothing (trace : list (Z * Event)) (w : World) :
  isWindowFocused (globals w) = false ->
  forallb (fun ne => silent (snd ne)) trace = true ->
  storage (run URL LocalTZA trace w) = storage w
  /\ isWindowFocused (globals (run URL LocalTZA trace w)) = false.
Proof.
  revert w. induction trace as [|[now e] trace IH]; intros w Hf Hs; simpl.
  - auto.
  - simpl in Hs. apply andb_true_iff in Hs. destruct Hs as [He Hs].
    destruct (handle_silent now e w Hf He) as [Hst Hf'].
    destruct (IH _ Hf' Hs) as [Hst' Hf'']. split; congruence.
Qed.
End ListenersMore.

(** X9: a periodic tick in the middle of a session loses less than a
    second: after a tick at [t1] and a flush at [t2] of a session started
    at [t0], on a domain whose name no lookup finds inherited, the seconds
    recorded for the domain are at most the elapsed time and more than the
    elapsed time minus two seconds. *)
Theorem tick_loses_under_a_second (w : World) (d : string) (t0 t1 t2 : Z) :
  currentDomain (globals w) = Some d -> d <> "" -> plain_key d = true ->
  sessionStartTime (globals w) = Some t0 -> 0 < t0 ->
  isWindowFocused (globals w) = true ->
  t0 <= t1 -> t1 <= t2 ->
  t2 - t0 - 2000
  < 1000 * (totalTimeOf d
              (storage (saveCurrentSession t2 (onAlarm t1 "saveActivity" w)))
            - totalTimeOf d (storage w))
  <= t2 - t0.
Proof.
  intros Hd Hne Hp Hs Ht0 Hf H01 H12. apply proto_member_plain in Hp.
  assert (Hin : forall st, inheritsRecord d st = false)
    by (intros st; now apply inheritsRecord_plain).
  assert (Htr : truthy_string (Some d) = true).
  { simpl. now destruct (String.eqb_spec d ""). }
  unfold onAlarm. simpl String.eqb. cbv iota.
  rewrite saveCurrentSession_globals, Hd, Htr, Hf. simpl andb. cbv iota.
  rewrite saveCurrentSession_storage. cbn [globals storage].
  rewrite saveCurrentSession_storage.
  unfold tracking, elapsedSeconds. cbn [currentDomain sessionStartTime
    isWindowFocused]. rewrite Hd, Hs, Htr, Hf. simpl or_else.
  assert (H0 : truthy_number (Some t0) = true).
  { simpl. destruct (Z.eqb_spec t0 0); [lia|reflexivity]. }
  assert (H1 : truthy_number (Some t1) = true).
  { simpl. destruct (Z.eqb_spec t1 0); [lia|reflexivity]. }
  rewrite H0, H1, !Hin. simpl andb. cbn [negb]. rewrite !andb_true_r.
  destruct (Z.leb_spec 1 ((t1 - t0) / 1000));
    destruct (Z.leb_spec 1 ((t2 - t1) / 1000));
    rewrite ?totalTimeOf_upsertSession, ?String.eqb_refl;
    Z.div_mod_to_equations; lia.
Qed.


(** A session on [constructor] at the loss of focus. *)
Lemma inherited_member_is_never_recorded_witness :
  saveCurrentSession_outcome 1700000005000 constructor_world = None
  /\ onFocusChanged sampleURL 1700000005000 WINDOW_ID_NONE None
       constructor_world
     = constructor_world.
Proof.
  destruct (inherited_member_is_never_recorded sampleURL 1700000005000
              constructor_world "constructor" 1700000000000
              eq_refl eq_refl eq_refl ltac:(discriminate)
              ltac:(vm_compute; discriminate) eq_refl eq_refl)
    as [Ho [_ [_ [_ Hfoc]]]].
  split; [exact Ho|apply Hfoc].
Defined.

(** A session of 65.4 seconds with a tick after 60 seconds. *)
Lemma tick_loses_under_a_second_witness :
  1700000065400 - 1700000000000 - 2000
  < 1000 * (totalTimeOf "example.com"
              (storage (saveCurrentSession 1700000065400
                          (onAlarm 1700000060000 "saveActivity"
                             sample_world)))
            - totalTimeOf "example.com" (storage sample_world))
  <= 1700000065400 - 1700000000000.
Proof.
  apply (tick_loses_under_a_second sample_world "example.com"
           1700000000000 1700000060000 1700000065400);
    try reflexivity; try discriminate.
Defined.

(** Nothing is recorded between a loss of focus and the events after it. *)
Lemma unfocused_records_nothing_witness :
  storage
    (run sampleURL utc
       [(1700000070000, Alarm "saveActivity");
        (1700000080000, TabActivated 9 (Some (mkTab 9 "https://example.org/")))]
       (run sampleURL utc focus_loss_trace initial_world))
  = storage (run sampleURL utc focus_loss_trace initial_world).
Proof.
  apply (unfocused_records_nothing sampleURL utc
           [(1700000070000, Alarm "saveActivity");
            (1700000080000,
             TabActivated 9 (Some (mkTab 9 "https://example.org/")))]
           (run sampleURL utc focus_loss_trace initial_world));
    reflexivity.
Defined.

(** ** More on the reporter *)

Lemma string_compare_refl (s : string) : String.compare s s = Eq.
Proof.
  pose proof (String.compare_antisym s s) as H.
  destruct (String.compare s s); [reflexivity|discriminate|discriminate].
Qed.

Lemma string_leb_refl (s : string) : String.leb s s = true.
Proof. unfold String.leb. now rewrite string_compare_refl. Qed.

Lemma rangeDays_startDate (range : string) (now n : Z) :
  rangeDays range = Some n ->
  startDateOf range now = Some (getDateKey (now - n * msPerDay)).
Proof.
  unfold rangeDays, startDateOf.
  destruct (range =? "today")%string.
  - intros [= <-]. do 2 f_equal. lia.
  - destruct (range =? "week")%string.
    + intros [= <-]. reflexivity.
    + destruct (range =? "month")%string; [|discriminate].
      intros [= <-]. reflexivity.
Qed.

Lemma rangeDays_none (range : string) (now : Z) :
  rangeDays range = None -> startDateOf range now = None.
Proof.
  unfold rangeDays, startDateOf.
  destruct (range =? "today")%string; [discriminate|].
  destruct (range =? "week")%string; [discriminate|].
  destruct (range =? "month")%string; [discriminate|reflexivity].
Qed.

Lemma rangeDays_nonneg (range : string) (n : Z) :
  rangeDays range = Some n -> 0 <= n.
Proof.
  unfold rangeDays.
  destruct (range =? "today")%string; [intros [= <-]; lia|].
  destruct (range =? "week")%string; [intros [= <-]; lia|].
  destruct (range =? "month")%string; [intros [= <-]; lia|discriminate].
Qed.

Lemma dayOf_minus_days (now n : Z) :
  dayOf (now - n * msPerDay) = dayOf now - n.
Proof. unfold dayOf, msPerDay. Z.div_mod_to_equations. lia. Qed.

(** The key of [now] is in each of the three ranges of [now]. *)
Lemma inRange_now (range : string) (n now : Z) :
  rangeDays range = Some n ->
  fourDigitYear (now - n * msPerDay) -> fourDigitYear now ->
  inRange (startDateOf range now) (getDateKey now) (getDateKey now) = true.
Proof.
  intros Hr Hs Hn. rewrite (rangeDays_startDate range now n Hr).
  unfold inRange.
  rewrite (getDateKey_leb (now - n * msPerDay) now Hs Hn).
  rewrite string_leb_refl, dayOf_minus_days, andb_true_r.
  apply Z.leb_le. pose proof (rangeDays_nonneg range n Hr). lia.
Qed.

(** X10: a range reaches back a whole number of UTC days: the key of a
    time value is in the range "today", "week" or "month" exactly when its
    day is today or one of the 0, 7 or 30 days before, so "week" covers
    eight calendar days and "month" thirty-one. *)
Theorem inRange_by_day (range : string) (n now t : Z) :
  rangeDays range = Some n ->
  fourDigitYear (now - n * msPerDay) -> fourDigitYear now ->
  fourDigitYear t ->
  inRange (startDateOf range now) (getDateKey now) (getDateKey t)
  = (dayOf now - n <=? dayOf t) && (dayOf t <=? dayOf now).
Proof.
  intros Hr Hs Hn Ht. rewrite (rangeDays_startDate range now n Hr).
  unfold inRange.
  rewrite (getDateKey_leb (now - n * msPerDay) t Hs Ht).
  rewrite (getDateKey_leb t now Ht Hn).
  now rewrite dayOf_minus_days.
Qed.

(** The day seven days before 2023-11-14 is in the week, the eighth is
    not. *)
Lemma inRange_by_day_witness :
  inRange (startDateOf "week" 1700000000000) (getDateKey 1700000000000)
    (getDateKey 1699395200000)
  = (dayOf 1700000000000 - 7 <=? dayOf 1699395200000)
    && (dayOf 1699395200000 <=? dayOf 1700000000000).
Proof.
  apply (inRange_by_day "week" 7 1700000000000 1699395200000);
    [reflexivity|unfold fourDigitYear, msPerDay; lia
    |unfold fourDigitYear; lia|unfold fourDigitYear; lia].
Defined.

(** *** The loops once more: totals, keys and times *)

Section Totals.
Variable activityData : obj DomainStat.t.
Variable now : Z.
Variable startDate : option string.
Variable today : string.

Lemma fold_addTime_total (l : obj Z) (acc : obj SiteStat.t * Z) :
  snd (fold_left (addTime activityData now) l acc) = snd acc + obj_sum l.
Proof.
  revert acc. induction l as [|[domain t] l IH]; intros [ds tt].
  - simpl. lia.
  - cbn [fold_left]. rewrite IH. unfold addTime, obj_sum; simpl. lia.
Qed.

Lemma fold_addDay_total (l : obj DayStat.t) (acc : obj SiteStat.t * Z) :
  snd (fold_left (addDay activityData now startDate today) l acc)
  = snd acc + rangeTotal startDate today l.
Proof.
  revert acc. induction l as [|[dateKey day] l IH]; intros acc.
  - unfold rangeTotal. simpl. lia.
  - cbn [fold_left]. rewrite IH. unfold rangeTotal at 2.
    cbn [fold_right fst snd]. fold (rangeTotal startDate today l).
    unfold addDay.
    destruct (inRange startDate today dateKey); [|reflexivity].
    rewrite fold_addTime_total. lia.
Qed.

Lemma fold_addVisits_frame (l : obj DomainStat.t)
    (acc : obj SiteStat.t * float) :
  obj_keys (fst (fold_left (addVisits startDate today) l acc))
  = obj_keys (fst acc)
  /\ forall d,
       siteTime d (fst (fold_left (addVisits startDate today) l acc))
       = siteTime d (fst acc).
Proof.
  revert acc. induction l as [|[domain domainData] l IH]; intros [ds tv].
  - simpl. auto.
  - cbn [fold_left].
    destruct (addVisits startDate today (ds, tv) (domain, domainData))
      as [ds' tv'] eqn:Estep.
    destruct (IH (ds', tv')) as [Hk Ht]. clear IH.
    assert (Hds' : ds' = fst (addVisits startDate today (ds, tv)
                                (domain, domainData)))
      by now rewrite Estep.
    split.
    + rewrite Hk. simpl. rewrite Hds'. apply addVisits_keys.
    + intros d. rewrite Ht. simpl fst. rewrite Hds'. unfold siteTime.
      rewrite addVisits_get. destruct (obj_get d ds) as [e|]; [|reflexivity].
      now destruct (domain =? d)%string.
Qed.

Lemma fold_addVisits_nothing (l : obj DomainStat.t) (tv : float) :
  fold_left (addVisits startDate today) l ([], tv) = ([], tv).
Proof. induction l as [|[domain domainData] l IH]; simpl; auto. Qed.
End Totals.

(** The result of [processData] from the results of its loops. *)
Lemma processData_loops (activityData : obj DomainStat.t)
    (dailyData : obj DayStat.t) (range : string) (now : Z) :
  domainStatsOf activityData dailyData range now
  = ((fst (fold_left
             (addVisits (startDateOf range now) (getDateKey now))
             activityData
             (fst (fold_left
                     (addDay activityData now (startDateOf range now)
                        (getDateKey now))
                     dailyData ([], 0)),
              js_of_Z 0)),
      snd (fold_left
             (addDay activityData now (startDateOf range now)
                (getDateKey now))
             dailyData ([], 0))),
     snd (fold_left
            (addVisits (startDateOf range now) (getDateKey now))
            activityData
            (fst (fold_left
                    (addDay activityData now (startDateOf range now)
                       (getDateKey now))
                    dailyData ([], 0)),
             js_of_Z 0)))
  /\ processData activityData dailyData range now
     = mkReport
         (snd (fst (domainStatsOf activityData dailyData range now)))
         (snd (domainStatsOf activityData dailyData range now))
         (length
            (firstn 10
               (sortByTime
                  (fst (fst (domainStatsOf activityData dailyData range
                               now))))))
         (firstn 10
            (sortByTime
               (fst (fst (domainStatsOf activityData dailyData range
                            now))))).
Proof.
  unfold processData, domainStatsOf.
  destruct (fold_left (addDay _ _ _ _) dailyData ([], 0)) as [ds tt].
  simpl fst. simpl snd.
  destruct (fold_left (addVisits _ _) activityData (ds, js_of_Z 0))
    as [ds' tv].
  split; reflexivity.
Qed.

(** The per-site records that [processData] sorts. *)
Lemma domainStats_facts (activityData : obj DomainStat.t)
    (dailyData : obj DayStat.t) (range : string) (now : Z) :
  NoDup (obj_keys
           (fst (fst (domainStatsOf activityData dailyData range now))))
  /\ (forall d,
        In d (obj_keys
                (fst (fst (domainStatsOf activityData dailyData range now))))
        <-> inRangeDomain (startDateOf range now) (getDateKey now)
              dailyData d)
  /\ (forall d,
        siteTime d
          (fst (fst (domainStatsOf activityData dailyData range now)))
        = rangeTime (startDateOf range now) (getDateKey now) dailyData d)
  /\ snd (fst (domainStatsOf activityData dailyData range now))
     = rangeTotal (startDateOf range now) (getDateKey now) dailyData.
Proof.
  destruct (processData_loops activityData dailyData range now) as [-> _].
  cbn [fst snd].
  set (startDate := startDateOf range now). set (today := getDateKey now).
  destruct (fold_addDay activityData now startDate today dailyData ([], 0))
    as [Ht [Hk [Hn _]]].
  pose proof (fold_addDay_total activityData now startDate today dailyData
                ([], 0)) as Htot.
  set (F1 := fold_left (addDay activityData now startDate today) dailyData
               ([], 0)) in *.
  destruct (fold_addVisits_frame startDate today activityData
              (fst F1, js_of_Z 0)) as [Hk2 Ht2].
  cbn [fst] in Hk2, Ht2.
  split; [|split; [|split]].
  - rewrite Hk2. apply Hn. constructor.
  - intros d. rewrite Hk2, Hk. simpl. tauto.
  - intros d. rewrite Ht2, Ht. unfold siteTime. simpl. lia.
  - rewrite Htot. simpl. lia.
Qed.

Lemma fold_addDay_out_of_range (activityData : obj DomainStat.t) (now : Z)
    (startDate : option string) (today : string) (l : obj DayStat.t)
    (acc : obj SiteStat.t * Z) :
  (forall k, In k (obj_keys l) -> inRange startDate today k = false) ->
  fold_left (addDay activityData now startDate today) l acc = acc.
Proof.
  revert acc. induction l as [|[dateKey day] l IH]; intros acc H; simpl.
  - reflexivity.
  - rewrite (H dateKey) by (now left). apply IH.
    intros k Hk. apply H. now right.
Qed.

(** X11: the report is empty (no time, no visits, no site) when no day of
    the per-day map falls in the range, and in particular for every range
    name other than "today", "week" and "month". *)
Theorem processData_empty (activityData : obj DomainStat.t)
    (dailyData : obj DayStat.t) (range : string) (now : Z) :
  rangeDays range = None
  \/ (forall k, In k (obj_keys dailyData) ->
        inRange (startDateOf range now) (getDateKey now) k = false) ->
  processData activityData dailyData range now = emptyReport.
Proof.
  intros H.
  assert (Hout : forall k, In k (obj_keys dailyData) ->
            inRange (startDateOf range now) (getDateKey now) k = false).
  { destruct H as [H|H]; [|exact H].
    intros k _. now rewrite (rangeDays_none range now H). }
  destruct (processData_loops activityData dailyData range now)
    as [Hd ->].
  rewrite Hd. cbn [fst snd].
  rewrite (fold_addDay_out_of_range activityData now _ _ dailyData ([], 0)
             Hout).
  cbn [fst snd]. rewrite fold_addVisits_nothing. reflexivity.
Qed.

(** A range name that is none of the three buttons. *)
Lemma processData_empty_witness :
  processData sample_activity sample_daily "year" 1700000005000
  = emptyReport.
Proof.
  apply (processData_empty sample_activity sample_daily "year"
           1700000005000).
  left. reflexivity.
Defined.

(** X12: the number of sites of the report is the number of listed sites:
    the number of distinct domains with seconds on a day of the range,
    capped at ten. *)
Theorem uniqueSites_capped (activityData : obj DomainStat.t)
    (dailyData : obj DayStat.t) (range : string) (now : Z) :
  exists domainsInRange : list string,
    NoDup domainsInRange
    /\ (forall d,
          In d domainsInRange
          <-> inRangeDomain (startDateOf range now) (getDateKey now)
                dailyData d)
    /\ uniqueSites (processData activityData dailyData range now)
       = Nat.min 10 (length domainsInRange)
    /\ length (topSites (processData activityData dailyData range now))
       = uniqueSites (processData activityData dailyData range now)
    /\ (uniqueSites (processData activityData dailyData range now)
        <= 10)%nat.
Proof.
  destruct (domainStats_facts activityData dailyData range now)
    as [Hnd [Hk _]].
  destruct (processData_loops activityData dailyData range now) as [_ ->].
  set (ds := fst (fst (domainStatsOf activityData dailyData range now)))
    in *.
  exists (obj_keys ds). cbn [uniqueSites topSites].
  split; [exact Hnd|]. split; [exact Hk|].
  rewrite length_firstn.
  rewrite <- (Permutation_length (sortByTime_perm ds)).
  unfold obj_keys. rewrite length_map.
  split; [reflexivity|]. split; [reflexivity|]. lia.
Qed.

(** The total of the outer loop. *)
Lemma processData_totalTime (activityData : obj DomainStat.t)
    (dailyData : obj DayStat.t) (range : string) (now : Z) :
  totalTime (processData activityData dailyData range now)
  = rangeTotal (startDateOf range now) (getDateKey now) dailyData.
Proof.
  destruct (domainStats_facts activityData dailyData range now)
    as [_ [_ [_ Ht]]].
  destruct (processData_loops activityData dailyData range now) as [_ ->].
  exact Ht.
Qed.

(** X13: the total time of the report is the sum of all seconds of the
    days of the range, over all domains of those days, whether listed or
    not. *)
Theorem totalTime_all_seconds (activityData : obj DomainStat.t)
    (dailyData : obj DayStat.t) (range : string) (now : Z) :
  totalTime (processData activityData dailyData range now)
  = rangeTotal (startDateOf range now) (getDateKey now) dailyData.
Proof.
  destruct (domainStats_facts activityData dailyData range now)
    as [_ [_ [_ Ht]]].
  destruct (processData_loops activityData dailyData range now) as [_ ->].
  exact Ht.
Qed.

Lemma StronglySorted_app_order {A : Type} (R : A -> A -> Prop)
    (l1 l2 : list A) :
  StronglySorted R (l1 ++ l2) ->
  forall a b, In a l1 -> In b l2 -> R a b.
Proof.
  induction l1 as [|x l1 IH]; simpl; intros H a b Ha Hb; [destruct Ha|].
  inversion H as [|? ? Hs Hall]; subst.
  destruct Ha as [<-|Ha].
  - rewrite Forall_forall in Hall. apply Hall. apply in_or_app. now right.
  - now apply IH.
Qed.

(** X14: no domain left out of the list has more seconds in the range
    than a listed one. *)
Theorem topSites_dominate (activityData : obj DomainStat.t)
    (dailyData : obj DayStat.t) (range : string) (now : Z)
    (d : string) (s : SiteStat.t) (d' : string) :
  In (d, s) (topSites (processData activityData dailyData range now)) ->
  inRangeDomain (startDateOf range now) (getDateKey now) dailyData d' ->
  ~ In d' (map fst
             (topSites (processData activityData dailyData range now))) ->
  rangeTime (startDateOf range now) (getDateKey now) dailyData d'
  <= SiteStat.time s.
Proof.
  destruct (domainStats_facts activityData dailyData range now)
    as [Hnd [Hk [Ht _]]].
  destruct (processData_loops activityData dailyData range now) as [_ ->].
  set (ds := fst (fst (domainStatsOf activityData dailyData range now)))
    in *.
  cbn [topSites]. intros Hin Hd' Hout.
  apply Hk in Hd'. rewrite <- (Ht d'). unfold siteTime.
  destruct (obj_get d' ds) as [s'|] eqn:E.
  - apply obj_get_In in E.
    apply (Permutation_in (d', s') (sortByTime_perm ds)) in E.
    rewrite <- (firstn_skipn 10 (sortByTime ds)) in E.
    apply in_app_or in E. destruct E as [E|E].
    + exfalso. apply Hout. apply (in_map fst) in E. exact E.
    + pose proof (sortByTime_sorted ds) as Hs.
      rewrite <- (firstn_skipn 10 (sortByTime ds)) in Hs.
      apply (StronglySorted_app_order byTimeDesc _ _ Hs (d, s) (d', s') Hin E).
  - apply obj_get_None in E. contradiction.
Qed.

(** Of eleven domains the one with the fewest seconds is left out. *)
Lemma topSites_dominate_witness :
  rangeTime (startDateOf "today" 1700000005000) (getDateKey 1700000005000)
    busy_daily "s01.example"
  <= 11.
Proof.
  apply (topSites_dominate [] busy_daily "today" 1700000005000
           "s11.example" (SiteStat.Build 11 (js_of_Z 0) 1700000005000)
           "s01.example").
  - vm_compute. left. reflexivity.
  - exists "2023-11-14",
      (DayStat.Build 66
         [("s01.example", 1); ("s02.example", 2); ("s03.example", 3);
          ("s04.example", 4); ("s05.example", 5); ("s06.example", 6);
          ("s07.example", 7); ("s08.example", 8); ("s09.example", 9);
          ("s10.example", 10); ("s11.example", 11)]).
    split; [left; reflexivity|]. split; [reflexivity|]. left. reflexivity.
  - vm_compute. intuition discriminate.
Defined.

(** *** From a flush to the report *)

Lemma secondsIn_set (d k : string) (v : Z) (o : obj Z) :
  secondsIn d (obj_set k v o)
  = secondsIn d o
    + (if (k =? d)%string then v - or_else (obj_get k o) 0 else 0).
Proof.
  unfold secondsIn. induction o as [|[k' v'] o IH]; cbn [obj_set obj_get].
  - cbn [fold_right fst snd or_else]. destruct (k =? d)%string; lia.
  - destruct (String.eqb_spec k k') as [->|Hk]; cbn [fold_right fst snd].
    + cbn [or_else]. destruct (k' =? d)%string; lia.
    + rewrite IH. destruct (k' =? d)%string; lia.
Qed.

Lemma secondsIn_addSeconds (d k : string) (s : Z) (o : obj Z) :
  secondsIn d (addSeconds k s o)
  = secondsIn d o + (if (k =? d)%string then s else 0).
Proof.
  unfold addSeconds. rewrite secondsIn_set.
  destruct (truthy_number (obj_get k o)) eqn:E.
  - destruct (k =? d)%string; lia.
  - rewrite secondsIn_set, obj_get_set_same. cbn [or_else].
    destruct (k =? d)%string; [|lia].
    destruct (obj_get k o) as [v|]; cbn [or_else]; [|lia].
    simpl in E. destruct (Z.eqb_spec v 0); [lia|discriminate].
Qed.

Section RangeOfSet.
Variable startDate : option string.
Variable today : string.

Lemma rangeTime_set (d k : string) (e : DayStat.t) (dd : obj DayStat.t) :
  rangeTime startDate today (obj_set k e dd) d
  = rangeTime startDate today dd d
    + (if inRange startDate today k
       then secondsOfDay d e
            - secondsOfDay d (or_else (obj_get k dd) (DayStat.Build 0 []))
       else 0).
Proof.
  unfold rangeTime.
  induction dd as [|[k' e'] dd IH]; cbn [obj_set obj_get].
  - cbn [fold_right fst snd or_else].
    destruct (inRange startDate today k); unfold secondsOfDay, secondsIn;
      simpl; lia.
  - destruct (String.eqb_spec k k') as [->|Hk]; cbn [fold_right fst snd].
    + cbn [or_else]. destruct (inRange startDate today k'); lia.
    + rewrite IH. destruct (inRange startDate today k'); lia.
Qed.

Lemma rangeTotal_set (k : string) (e : DayStat.t) (dd : obj DayStat.t) :
  rangeTotal startDate today (obj_set k e dd)
  = rangeTotal startDate today dd
    + (if inRange startDate today k
       then obj_sum (DayStat.domains e)
            - obj_sum (DayStat.domains
                         (or_else (obj_get k dd) (DayStat.Build 0 [])))
       else 0).
Proof.
  unfold rangeTotal.
  induction dd as [|[k' e'] dd IH]; cbn [obj_set obj_get].
  - cbn [fold_right fst snd or_else].
    destruct (inRange startDate today k); unfold obj_sum; simpl; lia.
  - destruct (String.eqb_spec k k') as [->|Hk]; cbn [fold_right fst snd].
    + cbn [or_else]. destruct (inRange startDate today k'); lia.
    + rewrite IH. destruct (inRange startDate today k'); lia.
Qed.

Lemma bumpDay_unfold (domain : string) (seconds : Z) (dateKey : string)
    (dd : obj DayStat.t) :
  bumpDay domain seconds dateKey dd
  = obj_set dateKey
      (DayStat.Build (DayStat.totalTime (dayBefore dateKey dd) + seconds)
         (addSeconds domain seconds
            (DayStat.domains (dayBefore dateKey dd))))
      match obj_get dateKey dd with
      | Some _ => dd
      | None => obj_set dateKey (DayStat.Build 0 []) dd
      end.
Proof.
  unfold bumpDay, dayBefore.
  destruct (obj_get dateKey dd) as [e|] eqn:E.
  - now rewrite E.
  - now rewrite obj_get_set_same.
Qed.

Lemma rangeTime_bumpDay (d domain : string) (seconds : Z)
    (dateKey : string) (dd : obj DayStat.t) :
  rangeTime startDate today (bumpDay domain seconds dateKey dd) d
  = rangeTime startDate today dd d
    + (if inRange startDate today dateKey && (domain =? d)%string
       then seconds else 0).
Proof.
  rewrite bumpDay_unfold, rangeTime_set. unfold dayBefore.
  destruct (obj_get dateKey dd) as [e|] eqn:E; cbn [or_else].
  - rewrite E. cbn [or_else]. unfold secondsOfDay. cbn [DayStat.domains].
    rewrite secondsIn_addSeconds.
    destruct (inRange startDate today dateKey), (domain =? d)%string;
      simpl; lia.
  - rewrite obj_get_set_same, rangeTime_set, E. cbn [or_else].
    unfold secondsOfDay. cbn [DayStat.domains].
    rewrite secondsIn_addSeconds.
    destruct (inRange startDate today dateKey), (domain =? d)%string;
      simpl; lia.
Qed.

Lemma rangeTotal_bumpDay (domain : string) (seconds : Z)
    (dateKey : string) (dd : obj DayStat.t) :
  rangeTotal startDate today (bumpDay domain seconds dateKey dd)
  = rangeTotal startDate today dd
    + (if inRange startDate today dateKey then seconds else 0).
Proof.
  rewrite bumpDay_unfold, rangeTotal_set. unfold dayBefore.
  destruct (obj_get dateKey dd) as [e|] eqn:E; cbn [or_else].
  - rewrite E. cbn [or_else DayStat.domains]. rewrite addSeconds_sum.
    destruct (inRange startDate today dateKey); lia.
  - rewrite obj_get_set_same, rangeTotal_set, E.
    cbn [or_else DayStat.domains]. rewrite addSeconds_sum.
    destruct (inRange startDate today dateKey); unfold obj_sum; simpl; lia.
Qed.
End RangeOfSet.



Lemma reportedTime_rangeTime (range : string) (now : Z) (st : Storage)
    (d : string) :
  reportedTime range now st d
  = rangeTime (startDateOf range now) (getDateKey now)
      (or_else (dailyData st) []) d.
Proof.
  unfold reportedTime.
  destruct (domainStats_facts (or_else (activityData st) [])
              (or_else (dailyData st) []) range now) as [_ [_ [Ht _]]].
  apply Ht.
Qed.

(** X15: what is flushed shows in the next report: after a session of a
    domain whose name no lookup finds inherited is recorded at [now], the
    seconds that a report of the same instant holds for the domain, in each
    of the three ranges, are larger by the recorded seconds, those of every
    other domain are as before, and the total time of the report is larger
    by the recorded seconds. *)
Theorem flush_shows_in_report (st : Storage) (domain : string)
    (seconds now : Z) (range : string) (n : Z) :
  rangeDays range = Some n ->
  fourDigitYear (now - n * msPerDay) -> fourDigitYear now ->
  plain_key domain = true ->
  exists written,
    recordSession domain seconds (getDateKey now) now st = Some written
    /\ reportedTime range now written domain
       = reportedTime range now st domain + seconds
    /\ (forall d, d <> domain ->
          reportedTime range now written d = reportedTime range now st d)
    /\ totalTime (loadDashboard range now written)
       = totalTime (loadDashboard range now st) + seconds.
Proof.
  intros Hr Hs Hn Hp. apply proto_member_plain in Hp.
  exists (upsertSession domain seconds (getDateKey now) now st).
  split.
  { rewrite recordSession_cases.
    now rewrite (inheritsRecord_plain domain st Hp). }
  assert (Hin : inRange (startDateOf range now) (getDateKey now)
                  (getDateKey now) = true).
  { exact (inRange_now range n now Hr Hs Hn). }
  split; [|split].
  - rewrite !reportedTime_rangeTime. cbn [upsertSession dailyData or_else].
    rewrite rangeTime_bumpDay, Hin, String.eqb_refl. reflexivity.
  - intros d Hd. rewrite !reportedTime_rangeTime.
    cbn [upsertSession dailyData or_else].
    rewrite rangeTime_bumpDay, Hin.
    destruct (String.eqb_spec domain d); [congruence|]. simpl. lia.
  - unfold loadDashboard. rewrite !processData_totalTime.
    cbn [upsertSession dailyData or_else].
    rewrite rangeTotal_bumpDay, Hin. reflexivity.
Qed.

(** Five seconds of [example.com] on the sample data, seen in the week. *)
Lemma flush_shows_in_report_witness :
  exists written,
    recordSession "example.com" 5 (getDateKey 1700000005000) 1700000005000
      (mkStorage (Some sample_activity) (Some sample_daily) None)
    = Some written
    /\ reportedTime "week" 1700000005000 written "example.com"
       = reportedTime "week" 1700000005000
           (mkStorage (Some sample_activity) (Some sample_daily) None)
           "example.com" + 5.
Proof.
  destruct (flush_shows_in_report
              (mkStorage (Some sample_activity) (Some sample_daily) None)
              "example.com" 5 1700000005000 "week" 7 eq_refl
              ltac:(unfold fourDigitYear, msPerDay; lia)
              ltac:(unfold fourDigitYear; lia) eq_refl)
    as [written [Hw [Ht _]]].
  exists written. split; assumption.
Defined.

(** ** The rest of the popup *)

(** X16: [formatTime] shows whole seconds below one minute, whole minutes
    from one minute to one hour, and hours with the minutes of the hour
    from one hour on; from one minute on the seconds are dropped, so the
    text is that of the duration rounded down to the minute; of a negative
    duration it shows the remainder of the seconds. *)
Theorem formatTime_cases (seconds : Z) :
  (0 <= seconds ->
   formatTime seconds
   = if seconds <? 60 then (number_to_string seconds ++ "s")%string
     else if seconds <? 3600
     then (number_to_string (seconds / 60) ++ "m")%string
     else (number_to_string (seconds / 3600) ++ "h "
           ++ number_to_string (seconds mod 3600 / 60) ++ "m")%string)
  /\ (60 <= seconds ->
      formatTime seconds = formatTime (seconds - seconds mod 60))
  /\ (seconds < 0 ->
      formatTime seconds
      = (number_to_string (Z.rem seconds 60) ++ "s")%string).
Proof.
  assert (Hpos : forall s, 0 <= s ->
            formatTime s
            = if s <? 60 then (number_to_string s ++ "s")%string
              else if s <? 3600
              then (number_to_string (s / 60) ++ "m")%string
              else (number_to_string (s / 3600) ++ "h "
                    ++ number_to_string (s mod 3600 / 60) ++ "m")%string).
  { intros s Hs. unfold formatTime.
    rewrite !Z.rem_mod_nonneg by lia.
    destruct (Z.ltb_spec s 60) as [H60|H60].
    - replace (s / 3600) with 0 by (Z.div_mod_to_equations; lia).
      replace (s mod 3600 / 60) with 0 by (Z.div_mod_to_equations; lia).
      replace (s mod 60) with s by (Z.div_mod_to_equations; lia).
      reflexivity.
    - destruct (Z.ltb_spec s 3600) as [H3600|H3600].
      + replace (s / 3600) with 0 by (Z.div_mod_to_equations; lia).
        replace (s mod 3600) with s by (Z.div_mod_to_equations; lia).
        destruct (Z.ltb_spec 0 (s / 60)) as [Hm|Hm]; [reflexivity|].
        exfalso. revert Hm. Z.div_mod_to_equations. lia.
      + destruct (Z.ltb_spec 0 (s / 3600)) as [Hh|Hh]; [reflexivity|].
        exfalso. revert Hh. Z.div_mod_to_equations. lia. }
  split; [apply Hpos|]. split.
  - intros H.
    assert (H' : 60 <= seconds - seconds mod 60)
      by (Z.div_mod_to_equations; lia).
    rewrite (Hpos seconds) by lia.
    rewrite (Hpos (seconds - seconds mod 60)) by lia.
    destruct (Z.ltb_spec seconds 60); [lia|].
    destruct (Z.ltb_spec (seconds - seconds mod 60) 60); [lia|].
    replace ((seconds - seconds mod 60) / 60) with (seconds / 60)
      by (Z.div_mod_to_equations; lia).
    replace ((seconds - seconds mod 60) / 3600) with (seconds / 3600)
      by (Z.div_mod_to_equations; lia).
    replace ((seconds - seconds mod 60) mod 3600 / 60)
      with (seconds mod 3600 / 60) by (Z.div_mod_to_equations; lia).
    destruct (Z.ltb_spec seconds 3600);
      destruct (Z.ltb_spec (seconds - seconds mod 60) 3600);
      try reflexivity; exfalso; Z.div_mod_to_equations; lia.
  - intros H. unfold formatTime.
    pose proof (Z.rem_bound_pos_neg seconds 3600 ltac:(lia) ltac:(lia)) as H0.
    destruct (Z.ltb_spec 0 (seconds / 3600)) as [Hh|Hh].
    + exfalso. revert Hh. Z.div_mod_to_equations. lia.
    + destruct (Z.ltb_spec 0 (Z.rem seconds 3600 / 60)) as [Hm|Hm];
        [|reflexivity].
      exfalso. revert Hm. generalize (Z.rem seconds 3600) H0. intros r Hr.
      Z.div_mod_to_equations. lia.
Qed.

(** Two durations of the same minute, and a negative one. *)
Lemma formatTime_cases_witness :
  formatTime 3725 = "1h 2m"
  /\ formatTime 125 = formatTime 120
  /\ formatTime (-125) = "-5s".
Proof.
  destruct (formatTime_cases 3725) as [H1 _].
  destruct (formatTime_cases 125) as [_ [H2 _]].
  destruct (formatTime_cases (-125)) as [_ [_ H3]].
  split; [|split].
  - rewrite H1 by lia. reflexivity.
  - rewrite H2 by lia. reflexivity.
  - rewrite H3 by lia. reflexivity.
Defined.

(** X17: every row index from 0 on has a colour of the palette, the same
    as the index ten rows further, and the at most ten rows of the list
    have pairwise different colours. *)
Theorem getColorForIndex_rows :
  (forall index,
     0 <= index ->
     exists c,
       getColorForIndex index = Some c /\ In c colors
       /\ getColorForIndex (index + 10) = Some c)
  /\ (forall i j,
        0 <= i -> i < j -> j < 10 ->
        getColorForIndex i <> getColorForIndex j).
Proof.
  split.
  - intros index H. unfold getColorForIndex.
    change (Z.of_nat (length colors)) with 10.
    rewrite !Z.rem_mod_nonneg by lia.
    replace ((index + 10) mod 10) with (index mod 10)
      by (Z.div_mod_to_equations; lia).
    pose proof (Z.mod_pos_bound index 10 ltac:(lia)) as Hr.
    destruct (Z.ltb_spec (index mod 10) 0); [lia|].
    destruct (nth_error colors (Z.to_nat (index mod 10))) as [c|] eqn:E.
    + exists c. split; [reflexivity|]. split; [|reflexivity].
      now apply nth_error_In in E.
    + apply nth_error_None in E. simpl in E. lia.
  - intros i j Hi Hij Hj.
    assert (Hcases : forall k, 0 <= k < 10 ->
              k = 0 \/ k = 1 \/ k = 2 \/ k = 3 \/ k = 4 \/ k = 5 \/ k = 6
              \/ k = 7 \/ k = 8 \/ k = 9) by (intros; lia).
    destruct (Hcases i ltac:(lia))
      as [->|[->|[->|[->|[->|[->|[->|[->|[->| ->]]]]]]]]];
      destruct (Hcases j ltac:(lia))
        as [->|[->|[->|[->|[->|[->|[->|[->|[->| ->]]]]]]]]];
      try lia; vm_compute; discriminate.
Qed.

(** Row 3 and row 13. *)
Lemma getColorForIndex_rows_witness :
  exists c,
    getColorForIndex 3 = Some c /\ In c colors
    /\ getColorForIndex (3 + 10) = Some c.
Proof. apply (proj1 getColorForIndex_rows 3). lia. Defined.

(** X18: after a confirmed clear the dashboard is empty in every range,
    both maps are empty and consistent, and no sweep of the next 24 hours
    changes the document; a declined clear changes nothing. *)
Theorem clearAllData_resets (now : Z) (st : Storage) :
  (forall range now',
     loadDashboard range now' (clearAllData true now st) = emptyReport)
  /\ sums_ok (clearAllData true now st)
  /\ cross_ok (clearAllData true now st)
  /\ (forall LocalTZA now',
        now' - now < 24 * 60 * 60 * 1000 ->
        cleanupOldData LocalTZA now' (clearAllData true now st)
        = clearAllData true now st)
  /\ clearAllData false now st = st.
Proof.
  split; [|split; [|split; [|split]]].
  - intros range now'. unfold loadDashboard. cbn [clearAllData
      activityData dailyData or_else].
    destruct (processData_loops [] [] range now') as [Hd ->].
    rewrite Hd. reflexivity.
  - split; discriminate.
  - intros d k. reflexivity.
  - intros LocalTZA now' H. rewrite cleanupOldData_cases.
    cbn [clearAllData lastCleanup]. rewrite number_or_self.
    destruct (Z.ltb_spec (now' - now) (24 * 60 * 60 * 1000));
      [reflexivity|lia].
  - reflexivity.
Qed.

(** A sweep one hour after a clear of the sample document. *)
Lemma clearAllData_resets_witness :
  cleanupOldData utc 1700003600000 (clearAllData true 1700000000000
                                      aged_storage)
  = clearAllData true 1700000000000 aged_storage.
Proof.
  apply (proj1 (proj2 (proj2 (proj2
           (clearAllData_resets 1700000000000 aged_storage)))) utc
           1700003600000).
  reflexivity.
Defined.

(** X19: [initializeStorage] leaves a document that has the per-domain
    map as it is, is idempotent, and on a document without that map sets
    both maps empty and [lastCleanup] to now, so that no sweep of the next
    24 hours changes the fresh document. *)
Theorem initializeStorage_settles (now : Z) (st : Storage) :
  (activityData st <> None -> initializeStorage now st = st)
  /\ (forall now',
        initializeStorage now' (initializeStorage now st)
        = initializeStorage now st)
  /\ (activityData st = None ->
      initializeStorage now st = mkStorage (Some []) (Some []) (Some now)
      /\ forall LocalTZA now',
           now' - now < 24 * 60 * 60 * 1000 ->
           cleanupOldData LocalTZA now' (initializeStorage now st)
           = initializeStorage now st).
Proof.
  split; [|split].
  - unfold initializeStorage. destruct (activityData st); congruence.
  - intros now'. unfold initializeStorage.
    destruct (activityData st) eqn:E; [now rewrite E|reflexivity].
  - intros E. unfold initializeStorage. rewrite E.
    split; [reflexivity|]. intros LocalTZA now' H.
    rewrite cleanupOldData_cases. cbn [lastCleanup].
    rewrite number_or_self.
    destruct (Z.ltb_spec (now' - now) (24 * 60 * 60 * 1000));
      [reflexivity|lia].
Qed.

(** A fresh install, swept one hour later. *)
Lemma initializeStorage_settles_witness :
  initializeStorage 1700000000000 recent_storage = recent_storage
  /\ cleanupOldData utc 1700003600000
       (initializeStorage 1700000000000 empty_storage)
     = initializeStorage 1700000000000 empty_storage.
Proof.
  destruct (initializeStorage_settles 1700000000000 recent_storage)
    as [H1 _].
  destruct (initializeStorage_settles 1700000000000 empty_storage)
    as [_ [_ H3]].
  split.
  - apply H1. discriminate.
  - destruct (H3 eq_refl) as [_ H4]. apply (H4 utc 1700003600000).
    reflexivity.
Defined.
